(** * karton-file-detection: normalisation of DiE, TrID and Magika output

    A shallow embedding of [src/file_detection.py] (class [FileDetection])
    and the properties of its output normalisation.

    Modelling conventions.
    - A Python [str] is a [string]: a sequence of characters, a character
      ([char]) being a Unicode code point.  The case mappings of [str] and
      the character classes of [str] and [re] are those of the Unicode
      Character Database 14.0.0, the version CPython 3.11 is built with;
      [Unicode] holds the tables.
    - Values of type [Any] coming out of [json.loads] are the inductive
      [json]; a failing dynamic operation returns the Python exception it
      raises.
    - Logging and [send_task] act on an explicit [world]; an exception keeps
      the effects that happened before it. *)

From Stdlib Require Import List ZArith QArith Bool Lia.
From stdpp Require Import gmap.
Import ListNotations.

(** ** Text *)

Definition char : Set := N.

Inductive string : Set :=
| EmptyString
| String (c : char) (s : string).

(** The literals of this file are read as UTF-8. *)
Module Utf8.

Local Open Scope N_scope.

Definition continued (acc b : N) : N := acc * 64 + (b - 128).

Fixpoint decode (fuel : nat) (bs : list N) : string :=
  match fuel, bs with
  | S fuel', b :: r =>
      if b <? 128 then String b (decode fuel' r)
      else if b <? 224 then
        match r with
        | b1 :: r' => String (continued (b - 192) b1) (decode fuel' r')
        | _ => EmptyString
        end
      else if b <? 240 then
        match r with
        | b1 :: b2 :: r' =>
            String (continued (continued (b - 224) b1) b2) (decode fuel' r')
        | _ => EmptyString
        end
      else
        match r with
        | b1 :: b2 :: b3 :: r' =>
            String (continued (continued (continued (b - 240) b1) b2) b3)
                   (decode fuel' r')
        | _ => EmptyString
        end
  | _, _ => EmptyString
  end.

Definition of_bytes (bs : list Byte.byte) : string :=
  decode (length bs) (map (fun b => N.of_nat (Byte.to_nat b)) bs).

Definition byte (n : N) : list Byte.byte :=
  match Byte.of_nat (N.to_nat n) with
  | Some b => [b]
  | None => []
  end.

Definition encode (c : N) : list Byte.byte :=
  if c <? 128 then byte c
  else if c <? 2048 then byte (192 + c / 64) ++ byte (128 + c mod 64)
  else if c <? 65536 then
    byte (224 + c / 4096) ++ byte (128 + c / 64 mod 64) ++ byte (128 + c mod 64)
  else
    byte (240 + c / 262144) ++ byte (128 + c / 4096 mod 64)
    ++ byte (128 + c / 64 mod 64) ++ byte (128 + c mod 64).

Fixpoint to_bytes (s : string) : list Byte.byte :=
  match s with
  | EmptyString => []
  | String c s' => encode c ++ to_bytes s'
  end.

Definition char_of_bytes (bs : list Byte.byte) : option N :=
  match of_bytes bs with
  | String c EmptyString => Some c
  | _ => None
  end.

Definition char_to_bytes (c : N) : option (list Byte.byte) :=
  if (32 <=? c) && (c <? 127) then Some (encode c) else None.

End Utf8.

Declare Scope string_scope.
Delimit Scope string_scope with string.
Bind Scope string_scope with string.
String Notation string Utf8.of_bytes Utf8.to_bytes : string_scope.

Declare Scope char_scope.
Delimit Scope char_scope with char.
Bind Scope char_scope with char.
String Notation N Utf8.char_of_bytes Utf8.char_to_bytes : char_scope.

Module Char.

Definition eqb (c d : char) : bool := N.eqb c d.

(** [lo <= c <= hi] *)
Definition in_range (lo hi c : char) : bool := (N.leb lo c && N.leb c hi)%bool.

Definition line_feed : char := 10%N.
Definition quote : char := 34%N.
Definition backslash : char := 92%N.

End Char.

Module String.

Fixpoint length (s : string) : nat :=
  match s with
  | EmptyString => 0
  | String _ s' => S (length s')
  end.

Fixpoint append (s1 s2 : string) : string :=
  match s1 with
  | EmptyString => s2
  | String c s1' => String c (append s1' s2)
  end.

Fixpoint eqb (s1 s2 : string) : bool :=
  match s1, s2 with
  | EmptyString, EmptyString => true
  | String c1 s1', String c2 s2' => Char.eqb c1 c2 && eqb s1' s2'
  | _, _ => false
  end.

(** [s2.startswith(s1)] *)
Fixpoint prefix (s1 s2 : string) : bool :=
  match s1, s2 with
  | EmptyString, _ => true
  | String c1 s1', String c2 s2' => Char.eqb c1 c2 && prefix s1' s2'
  | String _ _, EmptyString => false
  end.

(** [s[n]] *)
Fixpoint get (n : nat) (s : string) : option char :=
  match s, n with
  | EmptyString, _ => None
  | String c _, O => Some c
  | String _ s', S n' => get n' s'
  end.

Fixpoint to_list (s : string) : list char :=
  match s with
  | EmptyString => []
  | String c s' => c :: to_list s'
  end.

Fixpoint of_list (l : list char) : string :=
  match l with
  | [] => EmptyString
  | c :: l' => String c (of_list l')
  end.

Fixpoint of_to_list (s : string) : of_list (to_list s) = s :=
  match s with
  | EmptyString => eq_refl
  | String c s' => f_equal (String c) (of_to_list s')
  end.

End String.

Infix "++" := String.append : string_scope.

#[global] Instance string_eq_dec : EqDecision string.
Proof. solve_decision. Defined.

#[global] Instance string_countable : Countable string :=
  inj_countable' String.to_list String.of_list String.of_to_list.

Open Scope string_scope.
Open Scope list_scope.

(** ** The Unicode Character Database

    The tables of version 14.0.0 that [str.lower], [str.title],
    [str.isspace], [str.isdecimal] and [str.isalnum] read in
    CPython 3.11, and their lookup. *)

Module Unicode.

Local Open Scope N_scope.

(** Simple lower-case mappings, as runs [(lo, hi, step, target)]: of the
    characters from [lo] to [hi] in steps of [step], [lo] goes to [target]
    and the others along with it. *)
Definition lowercase : list (N * N * N * N) :=
  [
   (0x41, 0x5A, 1, 0x61); (0xC0, 0xD6, 1, 0xE0); (0xD8, 0xDE, 1, 0xF8);
   (0x100, 0x12E, 2, 0x101); (0x132, 0x136, 2, 0x133); (0x139, 0x147, 2, 0x13A);
   (0x14A, 0x176, 2, 0x14B); (0x178, 0x178, 1, 0xFF); (0x179, 0x17D, 2, 0x17A);
   (0x181, 0x181, 1, 0x253); (0x182, 0x184, 2, 0x183); (0x186, 0x186, 1, 0x254);
   (0x187, 0x187, 1, 0x188); (0x189, 0x18A, 1, 0x256); (0x18B, 0x18B, 1, 0x18C);
   (0x18E, 0x18E, 1, 0x1DD); (0x18F, 0x18F, 1, 0x259); (0x190, 0x190, 1, 0x25B);
   (0x191, 0x191, 1, 0x192); (0x193, 0x193, 1, 0x260); (0x194, 0x194, 1, 0x263);
   (0x196, 0x196, 1, 0x269); (0x197, 0x197, 1, 0x268); (0x198, 0x198, 1, 0x199);
   (0x19C, 0x19C, 1, 0x26F); (0x19D, 0x19D, 1, 0x272); (0x19F, 0x19F, 1, 0x275);
   (0x1A0, 0x1A4, 2, 0x1A1); (0x1A6, 0x1A6, 1, 0x280); (0x1A7, 0x1A7, 1, 0x1A8);
   (0x1A9, 0x1A9, 1, 0x283); (0x1AC, 0x1AC, 1, 0x1AD); (0x1AE, 0x1AE, 1, 0x288);
   (0x1AF, 0x1AF, 1, 0x1B0); (0x1B1, 0x1B2, 1, 0x28A); (0x1B3, 0x1B5, 2, 0x1B4);
   (0x1B7, 0x1B7, 1, 0x292); (0x1B8, 0x1B8, 1, 0x1B9); (0x1BC, 0x1BC, 1, 0x1BD);
   (0x1C4, 0x1C4, 1, 0x1C6); (0x1C5, 0x1C5, 1, 0x1C6); (0x1C7, 0x1C7, 1, 0x1C9);
   (0x1C8, 0x1C8, 1, 0x1C9); (0x1CA, 0x1CA, 1, 0x1CC); (0x1CB, 0x1DB, 2, 0x1CC);
   (0x1DE, 0x1EE, 2, 0x1DF); (0x1F1, 0x1F1, 1, 0x1F3); (0x1F2, 0x1F4, 2, 0x1F3);
   (0x1F6, 0x1F6, 1, 0x195); (0x1F7, 0x1F7, 1, 0x1BF); (0x1F8, 0x21E, 2, 0x1F9);
   (0x220, 0x220, 1, 0x19E); (0x222, 0x232, 2, 0x223); (0x23A, 0x23A, 1, 0x2C65);
   (0x23B, 0x23B, 1, 0x23C); (0x23D, 0x23D, 1, 0x19A); (0x23E, 0x23E, 1, 0x2C66);
   (0x241, 0x241, 1, 0x242); (0x243, 0x243, 1, 0x180); (0x244, 0x244, 1, 0x289);
   (0x245, 0x245, 1, 0x28C); (0x246, 0x24E, 2, 0x247); (0x370, 0x372, 2, 0x371);
   (0x376, 0x376, 1, 0x377); (0x37F, 0x37F, 1, 0x3F3); (0x386, 0x386, 1, 0x3AC);
   (0x388, 0x38A, 1, 0x3AD); (0x38C, 0x38C, 1, 0x3CC); (0x38E, 0x38F, 1, 0x3CD);
   (0x391, 0x3A1, 1, 0x3B1); (0x3A3, 0x3AB, 1, 0x3C3); (0x3CF, 0x3CF, 1, 0x3D7);
   (0x3D8, 0x3EE, 2, 0x3D9); (0x3F4, 0x3F4, 1, 0x3B8); (0x3F7, 0x3F7, 1, 0x3F8);
   (0x3F9, 0x3F9, 1, 0x3F2); (0x3FA, 0x3FA, 1, 0x3FB); (0x3FD, 0x3FF, 1, 0x37B);
   (0x400, 0x40F, 1, 0x450); (0x410, 0x42F, 1, 0x430); (0x460, 0x480, 2, 0x461);
   (0x48A, 0x4BE, 2, 0x48B); (0x4C0, 0x4C0, 1, 0x4CF); (0x4C1, 0x4CD, 2, 0x4C2);
   (0x4D0, 0x52E, 2, 0x4D1); (0x531, 0x556, 1, 0x561); (0x10A0, 0x10C5, 1, 0x2D00);
   (0x10C7, 0x10C7, 1, 0x2D27); (0x10CD, 0x10CD, 1, 0x2D2D); (0x13A0, 0x13EF, 1, 0xAB70);
   (0x13F0, 0x13F5, 1, 0x13F8); (0x1C90, 0x1CBA, 1, 0x10D0); (0x1CBD, 0x1CBF, 1, 0x10FD);
   (0x1E00, 0x1E94, 2, 0x1E01); (0x1E9E, 0x1E9E, 1, 0xDF); (0x1EA0, 0x1EFE, 2, 0x1EA1);
   (0x1F08, 0x1F0F, 1, 0x1F00); (0x1F18, 0x1F1D, 1, 0x1F10); (0x1F28, 0x1F2F, 1, 0x1F20);
   (0x1F38, 0x1F3F, 1, 0x1F30); (0x1F48, 0x1F4D, 1, 0x1F40); (0x1F59, 0x1F5F, 2, 0x1F51);
   (0x1F68, 0x1F6F, 1, 0x1F60); (0x1F88, 0x1F8F, 1, 0x1F80); (0x1F98, 0x1F9F, 1, 0x1F90);
   (0x1FA8, 0x1FAF, 1, 0x1FA0); (0x1FB8, 0x1FB9, 1, 0x1FB0); (0x1FBA, 0x1FBB, 1, 0x1F70);
   (0x1FBC, 0x1FBC, 1, 0x1FB3); (0x1FC8, 0x1FCB, 1, 0x1F72); (0x1FCC, 0x1FCC, 1, 0x1FC3);
   (0x1FD8, 0x1FD9, 1, 0x1FD0); (0x1FDA, 0x1FDB, 1, 0x1F76); (0x1FE8, 0x1FE9, 1, 0x1FE0);
   (0x1FEA, 0x1FEB, 1, 0x1F7A); (0x1FEC, 0x1FEC, 1, 0x1FE5); (0x1FF8, 0x1FF9, 1, 0x1F78);
   (0x1FFA, 0x1FFB, 1, 0x1F7C); (0x1FFC, 0x1FFC, 1, 0x1FF3); (0x2126, 0x2126, 1, 0x3C9);
   (0x212A, 0x212A, 1, 0x6B); (0x212B, 0x212B, 1, 0xE5); (0x2132, 0x2132, 1, 0x214E);
   (0x2160, 0x216F, 1, 0x2170); (0x2183, 0x2183, 1, 0x2184); (0x24B6, 0x24CF, 1, 0x24D0);
   (0x2C00, 0x2C2F, 1, 0x2C30); (0x2C60, 0x2C60, 1, 0x2C61); (0x2C62, 0x2C62, 1, 0x26B);
   (0x2C63, 0x2C63, 1, 0x1D7D); (0x2C64, 0x2C64, 1, 0x27D); (0x2C67, 0x2C6B, 2, 0x2C68);
   (0x2C6D, 0x2C6D, 1, 0x251); (0x2C6E, 0x2C6E, 1, 0x271); (0x2C6F, 0x2C6F, 1, 0x250);
   (0x2C70, 0x2C70, 1, 0x252); (0x2C72, 0x2C72, 1, 0x2C73); (0x2C75, 0x2C75, 1, 0x2C76);
   (0x2C7E, 0x2C7F, 1, 0x23F); (0x2C80, 0x2CE2, 2, 0x2C81); (0x2CEB, 0x2CED, 2, 0x2CEC);
   (0x2CF2, 0x2CF2, 1, 0x2CF3); (0xA640, 0xA66C, 2, 0xA641); (0xA680, 0xA69A, 2, 0xA681);
   (0xA722, 0xA72E, 2, 0xA723); (0xA732, 0xA76E, 2, 0xA733); (0xA779, 0xA77B, 2, 0xA77A);
   (0xA77D, 0xA77D, 1, 0x1D79); (0xA77E, 0xA786, 2, 0xA77F); (0xA78B, 0xA78B, 1, 0xA78C);
   (0xA78D, 0xA78D, 1, 0x265); (0xA790, 0xA792, 2, 0xA791); (0xA796, 0xA7A8, 2, 0xA797);
   (0xA7AA, 0xA7AA, 1, 0x266); (0xA7AB, 0xA7AB, 1, 0x25C); (0xA7AC, 0xA7AC, 1, 0x261);
   (0xA7AD, 0xA7AD, 1, 0x26C); (0xA7AE, 0xA7AE, 1, 0x26A); (0xA7B0, 0xA7B0, 1, 0x29E);
   (0xA7B1, 0xA7B1, 1, 0x287); (0xA7B2, 0xA7B2, 1, 0x29D); (0xA7B3, 0xA7B3, 1, 0xAB53);
   (0xA7B4, 0xA7C2, 2, 0xA7B5); (0xA7C4, 0xA7C4, 1, 0xA794); (0xA7C5, 0xA7C5, 1, 0x282);
   (0xA7C6, 0xA7C6, 1, 0x1D8E); (0xA7C7, 0xA7C9, 2, 0xA7C8); (0xA7D0, 0xA7D0, 1, 0xA7D1);
   (0xA7D6, 0xA7D8, 2, 0xA7D7); (0xA7F5, 0xA7F5, 1, 0xA7F6); (0xFF21, 0xFF3A, 1, 0xFF41);
   (0x10400, 0x10427, 1, 0x10428); (0x104B0, 0x104D3, 1, 0x104D8); (0x10570, 0x1057A, 1, 0x10597);
   (0x1057C, 0x1058A, 1, 0x105A3); (0x1058C, 0x10592, 1, 0x105B3); (0x10594, 0x10595, 1, 0x105BB);
   (0x10C80, 0x10CB2, 1, 0x10CC0); (0x118A0, 0x118BF, 1, 0x118C0); (0x16E40, 0x16E5F, 1, 0x16E60);
   (0x1E900, 0x1E921, 1, 0x1E922) ].

(** The lower-case mappings to more than one character *)
Definition lowercase_full : list (N * list N) :=
  [
   (0x130, [0x69; 0x307]) ].

(** Simple title-case mappings, as runs *)
Definition titlecase : list (N * N * N * N) :=
  [
   (0x61, 0x7A, 1, 0x41); (0xB5, 0xB5, 1, 0x39C); (0xE0, 0xF6, 1, 0xC0);
   (0xF8, 0xFE, 1, 0xD8); (0xFF, 0xFF, 1, 0x178); (0x101, 0x12F, 2, 0x100);
   (0x131, 0x131, 1, 0x49); (0x133, 0x137, 2, 0x132); (0x13A, 0x148, 2, 0x139);
   (0x14B, 0x177, 2, 0x14A); (0x17A, 0x17E, 2, 0x179); (0x17F, 0x17F, 1, 0x53);
   (0x180, 0x180, 1, 0x243); (0x183, 0x185, 2, 0x182); (0x188, 0x188, 1, 0x187);
   (0x18C, 0x18C, 1, 0x18B); (0x192, 0x192, 1, 0x191); (0x195, 0x195, 1, 0x1F6);
   (0x199, 0x199, 1, 0x198); (0x19A, 0x19A, 1, 0x23D); (0x19E, 0x19E, 1, 0x220);
   (0x1A1, 0x1A5, 2, 0x1A0); (0x1A8, 0x1A8, 1, 0x1A7); (0x1AD, 0x1AD, 1, 0x1AC);
   (0x1B0, 0x1B0, 1, 0x1AF); (0x1B4, 0x1B6, 2, 0x1B3); (0x1B9, 0x1B9, 1, 0x1B8);
   (0x1BD, 0x1BD, 1, 0x1BC); (0x1BF, 0x1BF, 1, 0x1F7); (0x1C4, 0x1C4, 1, 0x1C5);
   (0x1C6, 0x1C6, 1, 0x1C5); (0x1C7, 0x1C7, 1, 0x1C8); (0x1C9, 0x1C9, 1, 0x1C8);
   (0x1CA, 0x1CA, 1, 0x1CB); (0x1CC, 0x1DC, 2, 0x1CB); (0x1DD, 0x1DD, 1, 0x18E);
   (0x1DF, 0x1EF, 2, 0x1DE); (0x1F1, 0x1F1, 1, 0x1F2); (0x1F3, 0x1F5, 2, 0x1F2);
   (0x1F9, 0x21F, 2, 0x1F8); (0x223, 0x233, 2, 0x222); (0x23C, 0x23C, 1, 0x23B);
   (0x23F, 0x240, 1, 0x2C7E); (0x242, 0x242, 1, 0x241); (0x247, 0x24F, 2, 0x246);
   (0x250, 0x250, 1, 0x2C6F); (0x251, 0x251, 1, 0x2C6D); (0x252, 0x252, 1, 0x2C70);
   (0x253, 0x253, 1, 0x181); (0x254, 0x254, 1, 0x186); (0x256, 0x257, 1, 0x189);
   (0x259, 0x259, 1, 0x18F); (0x25B, 0x25B, 1, 0x190); (0x25C, 0x25C, 1, 0xA7AB);
   (0x260, 0x260, 1, 0x193); (0x261, 0x261, 1, 0xA7AC); (0x263, 0x263, 1, 0x194);
   (0x265, 0x265, 1, 0xA78D); (0x266, 0x266, 1, 0xA7AA); (0x268, 0x268, 1, 0x197);
   (0x269, 0x269, 1, 0x196); (0x26A, 0x26A, 1, 0xA7AE); (0x26B, 0x26B, 1, 0x2C62);
   (0x26C, 0x26C, 1, 0xA7AD); (0x26F, 0x26F, 1, 0x19C); (0x271, 0x271, 1, 0x2C6E);
   (0x272, 0x272, 1, 0x19D); (0x275, 0x275, 1, 0x19F); (0x27D, 0x27D, 1, 0x2C64);
   (0x280, 0x280, 1, 0x1A6); (0x282, 0x282, 1, 0xA7C5); (0x283, 0x283, 1, 0x1A9);
   (0x287, 0x287, 1, 0xA7B1); (0x288, 0x288, 1, 0x1AE); (0x289, 0x289, 1, 0x244);
   (0x28A, 0x28B, 1, 0x1B1); (0x28C, 0x28C, 1, 0x245); (0x292, 0x292, 1, 0x1B7);
   (0x29D, 0x29D, 1, 0xA7B2); (0x29E, 0x29E, 1, 0xA7B0); (0x345, 0x345, 1, 0x399);
   (0x371, 0x373, 2, 0x370); (0x377, 0x377, 1, 0x376); (0x37B, 0x37D, 1, 0x3FD);
   (0x3AC, 0x3AC, 1, 0x386); (0x3AD, 0x3AF, 1, 0x388); (0x3B1, 0x3C1, 1, 0x391);
   (0x3C2, 0x3C2, 1, 0x3A3); (0x3C3, 0x3CB, 1, 0x3A3); (0x3CC, 0x3CC, 1, 0x38C);
   (0x3CD, 0x3CE, 1, 0x38E); (0x3D0, 0x3D0, 1, 0x392); (0x3D1, 0x3D1, 1, 0x398);
   (0x3D5, 0x3D5, 1, 0x3A6); (0x3D6, 0x3D6, 1, 0x3A0); (0x3D7, 0x3D7, 1, 0x3CF);
   (0x3D9, 0x3EF, 2, 0x3D8); (0x3F0, 0x3F0, 1, 0x39A); (0x3F1, 0x3F1, 1, 0x3A1);
   (0x3F2, 0x3F2, 1, 0x3F9); (0x3F3, 0x3F3, 1, 0x37F); (0x3F5, 0x3F5, 1, 0x395);
   (0x3F8, 0x3F8, 1, 0x3F7); (0x3FB, 0x3FB, 1, 0x3FA); (0x430, 0x44F, 1, 0x410);
   (0x450, 0x45F, 1, 0x400); (0x461, 0x481, 2, 0x460); (0x48B, 0x4BF, 2, 0x48A);
   (0x4C2, 0x4CE, 2, 0x4C1); (0x4CF, 0x4CF, 1, 0x4C0); (0x4D1, 0x52F, 2, 0x4D0);
   (0x561, 0x586, 1, 0x531); (0x13F8, 0x13FD, 1, 0x13F0); (0x1C80, 0x1C80, 1, 0x412);
   (0x1C81, 0x1C81, 1, 0x414); (0x1C82, 0x1C82, 1, 0x41E); (0x1C83, 0x1C84, 1, 0x421);
   (0x1C85, 0x1C85, 1, 0x422); (0x1C86, 0x1C86, 1, 0x42A); (0x1C87, 0x1C87, 1, 0x462);
   (0x1C88, 0x1C88, 1, 0xA64A); (0x1D79, 0x1D79, 1, 0xA77D); (0x1D7D, 0x1D7D, 1, 0x2C63);
   (0x1D8E, 0x1D8E, 1, 0xA7C6); (0x1E01, 0x1E95, 2, 0x1E00); (0x1E9B, 0x1E9B, 1, 0x1E60);
   (0x1EA1, 0x1EFF, 2, 0x1EA0); (0x1F00, 0x1F07, 1, 0x1F08); (0x1F10, 0x1F15, 1, 0x1F18);
   (0x1F20, 0x1F27, 1, 0x1F28); (0x1F30, 0x1F37, 1, 0x1F38); (0x1F40, 0x1F45, 1, 0x1F48);
   (0x1F51, 0x1F57, 2, 0x1F59); (0x1F60, 0x1F67, 1, 0x1F68); (0x1F70, 0x1F71, 1, 0x1FBA);
   (0x1F72, 0x1F75, 1, 0x1FC8); (0x1F76, 0x1F77, 1, 0x1FDA); (0x1F78, 0x1F79, 1, 0x1FF8);
   (0x1F7A, 0x1F7B, 1, 0x1FEA); (0x1F7C, 0x1F7D, 1, 0x1FFA); (0x1F80, 0x1F87, 1, 0x1F88);
   (0x1F90, 0x1F97, 1, 0x1F98); (0x1FA0, 0x1FA7, 1, 0x1FA8); (0x1FB0, 0x1FB1, 1, 0x1FB8);
   (0x1FB3, 0x1FB3, 1, 0x1FBC); (0x1FBE, 0x1FBE, 1, 0x399); (0x1FC3, 0x1FC3, 1, 0x1FCC);
   (0x1FD0, 0x1FD1, 1, 0x1FD8); (0x1FE0, 0x1FE1, 1, 0x1FE8); (0x1FE5, 0x1FE5, 1, 0x1FEC);
   (0x1FF3, 0x1FF3, 1, 0x1FFC); (0x214E, 0x214E, 1, 0x2132); (0x2170, 0x217F, 1, 0x2160);
   (0x2184, 0x2184, 1, 0x2183); (0x24D0, 0x24E9, 1, 0x24B6); (0x2C30, 0x2C5F, 1, 0x2C00);
   (0x2C61, 0x2C61, 1, 0x2C60); (0x2C65, 0x2C65, 1, 0x23A); (0x2C66, 0x2C66, 1, 0x23E);
   (0x2C68, 0x2C6C, 2, 0x2C67); (0x2C73, 0x2C73, 1, 0x2C72); (0x2C76, 0x2C76, 1, 0x2C75);
   (0x2C81, 0x2CE3, 2, 0x2C80); (0x2CEC, 0x2CEE, 2, 0x2CEB); (0x2CF3, 0x2CF3, 1, 0x2CF2);
   (0x2D00, 0x2D25, 1, 0x10A0); (0x2D27, 0x2D27, 1, 0x10C7); (0x2D2D, 0x2D2D, 1, 0x10CD);
   (0xA641, 0xA66D, 2, 0xA640); (0xA681, 0xA69B, 2, 0xA680); (0xA723, 0xA72F, 2, 0xA722);
   (0xA733, 0xA76F, 2, 0xA732); (0xA77A, 0xA77C, 2, 0xA779); (0xA77F, 0xA787, 2, 0xA77E);
   (0xA78C, 0xA78C, 1, 0xA78B); (0xA791, 0xA793, 2, 0xA790); (0xA794, 0xA794, 1, 0xA7C4);
   (0xA797, 0xA7A9, 2, 0xA796); (0xA7B5, 0xA7C3, 2, 0xA7B4); (0xA7C8, 0xA7CA, 2, 0xA7C7);
   (0xA7D1, 0xA7D1, 1, 0xA7D0); (0xA7D7, 0xA7D9, 2, 0xA7D6); (0xA7F6, 0xA7F6, 1, 0xA7F5);
   (0xAB53, 0xAB53, 1, 0xA7B3); (0xAB70, 0xABBF, 1, 0x13A0); (0xFF41, 0xFF5A, 1, 0xFF21);
   (0x10428, 0x1044F, 1, 0x10400); (0x104D8, 0x104FB, 1, 0x104B0); (0x10597, 0x105A1, 1, 0x10570);
   (0x105A3, 0x105B1, 1, 0x1057C); (0x105B3, 0x105B9, 1, 0x1058C); (0x105BB, 0x105BC, 1, 0x10594);
   (0x10CC0, 0x10CF2, 1, 0x10C80); (0x118C0, 0x118DF, 1, 0x118A0); (0x16E60, 0x16E7F, 1, 0x16E40);
   (0x1E922, 0x1E943, 1, 0x1E900) ].

(** The title-case mappings to more than one character *)
Definition titlecase_full : list (N * list N) :=
  [
   (0xDF, [0x53; 0x73]); (0x149, [0x2BC; 0x4E]); (0x1F0, [0x4A; 0x30C]);
   (0x390, [0x399; 0x308; 0x301]); (0x3B0, [0x3A5; 0x308; 0x301]); (0x587, [0x535; 0x582]);
   (0x1E96, [0x48; 0x331]); (0x1E97, [0x54; 0x308]); (0x1E98, [0x57; 0x30A]);
   (0x1E99, [0x59; 0x30A]); (0x1E9A, [0x41; 0x2BE]); (0x1F50, [0x3A5; 0x313]);
   (0x1F52, [0x3A5; 0x313; 0x300]); (0x1F54, [0x3A5; 0x313; 0x301]); (0x1F56, [0x3A5; 0x313; 0x342]);
   (0x1FB2, [0x1FBA; 0x345]); (0x1FB4, [0x386; 0x345]); (0x1FB6, [0x391; 0x342]);
   (0x1FB7, [0x391; 0x342; 0x345]); (0x1FC2, [0x1FCA; 0x345]); (0x1FC4, [0x389; 0x345]);
   (0x1FC6, [0x397; 0x342]); (0x1FC7, [0x397; 0x342; 0x345]); (0x1FD2, [0x399; 0x308; 0x300]);
   (0x1FD3, [0x399; 0x308; 0x301]); (0x1FD6, [0x399; 0x342]); (0x1FD7, [0x399; 0x308; 0x342]);
   (0x1FE2, [0x3A5; 0x308; 0x300]); (0x1FE3, [0x3A5; 0x308; 0x301]); (0x1FE4, [0x3A1; 0x313]);
   (0x1FE6, [0x3A5; 0x342]); (0x1FE7, [0x3A5; 0x308; 0x342]); (0x1FF2, [0x1FFA; 0x345]);
   (0x1FF4, [0x38F; 0x345]); (0x1FF6, [0x3A9; 0x342]); (0x1FF7, [0x3A9; 0x342; 0x345]);
   (0xFB00, [0x46; 0x66]); (0xFB01, [0x46; 0x69]); (0xFB02, [0x46; 0x6C]);
   (0xFB03, [0x46; 0x66; 0x69]); (0xFB04, [0x46; 0x66; 0x6C]); (0xFB05, [0x53; 0x74]);
   (0xFB06, [0x53; 0x74]); (0xFB13, [0x544; 0x576]); (0xFB14, [0x544; 0x565]);
   (0xFB15, [0x544; 0x56B]); (0xFB16, [0x54E; 0x576]); (0xFB17, [0x544; 0x56D]) ].

(** The cased characters, as ranges [(lo, hi)] *)
Definition Cased : list (N * N) :=
  [
   (0x41, 0x5A); (0x61, 0x7A); (0xAA, 0xAA); (0xB5, 0xB5);
   (0xBA, 0xBA); (0xC0, 0xD6); (0xD8, 0xF6); (0xF8, 0x1BA);
   (0x1BC, 0x1BF); (0x1C4, 0x293); (0x295, 0x2B8); (0x2C0, 0x2C1);
   (0x2E0, 0x2E4); (0x345, 0x345); (0x370, 0x373); (0x376, 0x377);
   (0x37A, 0x37D); (0x37F, 0x37F); (0x386, 0x386); (0x388, 0x38A);
   (0x38C, 0x38C); (0x38E, 0x3A1); (0x3A3, 0x3F5); (0x3F7, 0x481);
   (0x48A, 0x52F); (0x531, 0x556); (0x560, 0x588); (0x10A0, 0x10C5);
   (0x10C7, 0x10C7); (0x10CD, 0x10CD); (0x10D0, 0x10FA); (0x10FD, 0x10FF);
   (0x13A0, 0x13F5); (0x13F8, 0x13FD); (0x1C80, 0x1C88); (0x1C90, 0x1CBA);
   (0x1CBD, 0x1CBF); (0x1D00, 0x1DBF); (0x1E00, 0x1F15); (0x1F18, 0x1F1D);
   (0x1F20, 0x1F45); (0x1F48, 0x1F4D); (0x1F50, 0x1F57); (0x1F59, 0x1F59);
   (0x1F5B, 0x1F5B); (0x1F5D, 0x1F5D); (0x1F5F, 0x1F7D); (0x1F80, 0x1FB4);
   (0x1FB6, 0x1FBC); (0x1FBE, 0x1FBE); (0x1FC2, 0x1FC4); (0x1FC6, 0x1FCC);
   (0x1FD0, 0x1FD3); (0x1FD6, 0x1FDB); (0x1FE0, 0x1FEC); (0x1FF2, 0x1FF4);
   (0x1FF6, 0x1FFC); (0x2071, 0x2071); (0x207F, 0x207F); (0x2090, 0x209C);
   (0x2102, 0x2102); (0x2107, 0x2107); (0x210A, 0x2113); (0x2115, 0x2115);
   (0x2119, 0x211D); (0x2124, 0x2124); (0x2126, 0x2126); (0x2128, 0x2128);
   (0x212A, 0x212D); (0x212F, 0x2134); (0x2139, 0x2139); (0x213C, 0x213F);
   (0x2145, 0x2149); (0x214E, 0x214E); (0x2160, 0x217F); (0x2183, 0x2184);
   (0x24B6, 0x24E9); (0x2C00, 0x2CE4); (0x2CEB, 0x2CEE); (0x2CF2, 0x2CF3);
   (0x2D00, 0x2D25); (0x2D27, 0x2D27); (0x2D2D, 0x2D2D); (0xA640, 0xA66D);
   (0xA680, 0xA69D); (0xA722, 0xA787); (0xA78B, 0xA78E); (0xA790, 0xA7CA);
   (0xA7D0, 0xA7D1); (0xA7D3, 0xA7D3); (0xA7D5, 0xA7D9); (0xA7F5, 0xA7F6);
   (0xA7F8, 0xA7FA); (0xAB30, 0xAB5A); (0xAB5C, 0xAB68); (0xAB70, 0xABBF);
   (0xFB00, 0xFB06); (0xFB13, 0xFB17); (0xFF21, 0xFF3A); (0xFF41, 0xFF5A);
   (0x10400, 0x1044F); (0x104B0, 0x104D3); (0x104D8, 0x104FB); (0x10570, 0x1057A);
   (0x1057C, 0x1058A); (0x1058C, 0x10592); (0x10594, 0x10595); (0x10597, 0x105A1);
   (0x105A3, 0x105B1); (0x105B3, 0x105B9); (0x105BB, 0x105BC); (0x10780, 0x10780);
   (0x10783, 0x10785); (0x10787, 0x107B0); (0x107B2, 0x107BA); (0x10C80, 0x10CB2);
   (0x10CC0, 0x10CF2); (0x118A0, 0x118DF); (0x16E40, 0x16E7F); (0x1D400, 0x1D454);
   (0x1D456, 0x1D49C); (0x1D49E, 0x1D49F); (0x1D4A2, 0x1D4A2); (0x1D4A5, 0x1D4A6);
   (0x1D4A9, 0x1D4AC); (0x1D4AE, 0x1D4B9); (0x1D4BB, 0x1D4BB); (0x1D4BD, 0x1D4C3);
   (0x1D4C5, 0x1D505); (0x1D507, 0x1D50A); (0x1D50D, 0x1D514); (0x1D516, 0x1D51C);
   (0x1D51E, 0x1D539); (0x1D53B, 0x1D53E); (0x1D540, 0x1D544); (0x1D546, 0x1D546);
   (0x1D54A, 0x1D550); (0x1D552, 0x1D6A5); (0x1D6A8, 0x1D6C0); (0x1D6C2, 0x1D6DA);
   (0x1D6DC, 0x1D6FA); (0x1D6FC, 0x1D714); (0x1D716, 0x1D734); (0x1D736, 0x1D74E);
   (0x1D750, 0x1D76E); (0x1D770, 0x1D788); (0x1D78A, 0x1D7A8); (0x1D7AA, 0x1D7C2);
   (0x1D7C4, 0x1D7CB); (0x1DF00, 0x1DF09); (0x1DF0B, 0x1DF1E); (0x1E900, 0x1E943);
   (0x1F130, 0x1F149); (0x1F150, 0x1F169); (0x1F170, 0x1F189) ].

(** The case-ignorable characters *)
Definition Case_Ignorable : list (N * N) :=
  [
   (0x27, 0x27); (0x2E, 0x2E); (0x3A, 0x3A); (0x5E, 0x5E);
   (0x60, 0x60); (0xA8, 0xA8); (0xAD, 0xAD); (0xAF, 0xAF);
   (0xB4, 0xB4); (0xB7, 0xB8); (0x2B0, 0x36F); (0x374, 0x375);
   (0x37A, 0x37A); (0x384, 0x385); (0x387, 0x387); (0x483, 0x489);
   (0x559, 0x559); (0x55F, 0x55F); (0x591, 0x5BD); (0x5BF, 0x5BF);
   (0x5C1, 0x5C2); (0x5C4, 0x5C5); (0x5C7, 0x5C7); (0x5F4, 0x5F4);
   (0x600, 0x605); (0x610, 0x61A); (0x61C, 0x61C); (0x640, 0x640);
   (0x64B, 0x65F); (0x670, 0x670); (0x6D6, 0x6DD); (0x6DF, 0x6E8);
   (0x6EA, 0x6ED); (0x70F, 0x70F); (0x711, 0x711); (0x730, 0x74A);
   (0x7A6, 0x7B0); (0x7EB, 0x7F5); (0x7FA, 0x7FA); (0x7FD, 0x7FD);
   (0x816, 0x82D); (0x859, 0x85B); (0x888, 0x888); (0x890, 0x891);
   (0x898, 0x89F); (0x8C9, 0x902); (0x93A, 0x93A); (0x93C, 0x93C);
   (0x941, 0x948); (0x94D, 0x94D); (0x951, 0x957); (0x962, 0x963);
   (0x971, 0x971); (0x981, 0x981); (0x9BC, 0x9BC); (0x9C1, 0x9C4);
   (0x9CD, 0x9CD); (0x9E2, 0x9E3); (0x9FE, 0x9FE); (0xA01, 0xA02);
   (0xA3C, 0xA3C); (0xA41, 0xA42); (0xA47, 0xA48); (0xA4B, 0xA4D);
   (0xA51, 0xA51); (0xA70, 0xA71); (0xA75, 0xA75); (0xA81, 0xA82);
   (0xABC, 0xABC); (0xAC1, 0xAC5); (0xAC7, 0xAC8); (0xACD, 0xACD);
   (0xAE2, 0xAE3); (0xAFA, 0xAFF); (0xB01, 0xB01); (0xB3C, 0xB3C);
   (0xB3F, 0xB3F); (0xB41, 0xB44); (0xB4D, 0xB4D); (0xB55, 0xB56);
   (0xB62, 0xB63); (0xB82, 0xB82); (0xBC0, 0xBC0); (0xBCD, 0xBCD);
   (0xC00, 0xC00); (0xC04, 0xC04); (0xC3C, 0xC3C); (0xC3E, 0xC40);
   (0xC46, 0xC48); (0xC4A, 0xC4D); (0xC55, 0xC56); (0xC62, 0xC63);
   (0xC81, 0xC81); (0xCBC, 0xCBC); (0xCBF, 0xCBF); (0xCC6, 0xCC6);
   (0xCCC, 0xCCD); (0xCE2, 0xCE3); (0xD00, 0xD01); (0xD3B, 0xD3C);
   (0xD41, 0xD44); (0xD4D, 0xD4D); (0xD62, 0xD63); (0xD81, 0xD81);
   (0xDCA, 0xDCA); (0xDD2, 0xDD4); (0xDD6, 0xDD6); (0xE31, 0xE31);
   (0xE34, 0xE3A); (0xE46, 0xE4E); (0xEB1, 0xEB1); (0xEB4, 0xEBC);
   (0xEC6, 0xEC6); (0xEC8, 0xECD); (0xF18, 0xF19); (0xF35, 0xF35);
   (0xF37, 0xF37); (0xF39, 0xF39); (0xF71, 0xF7E); (0xF80, 0xF84);
   (0xF86, 0xF87); (0xF8D, 0xF97); (0xF99, 0xFBC); (0xFC6, 0xFC6);
   (0x102D, 0x1030); (0x1032, 0x1037); (0x1039, 0x103A); (0x103D, 0x103E);
   (0x1058, 0x1059); (0x105E, 0x1060); (0x1071, 0x1074); (0x1082, 0x1082);
   (0x1085, 0x1086); (0x108D, 0x108D); (0x109D, 0x109D); (0x10FC, 0x10FC);
   (0x135D, 0x135F); (0x1712, 0x1714); (0x1732, 0x1733); (0x1752, 0x1753);
   (0x1772, 0x1773); (0x17B4, 0x17B5); (0x17B7, 0x17BD); (0x17C6, 0x17C6);
   (0x17C9, 0x17D3); (0x17D7, 0x17D7); (0x17DD, 0x17DD); (0x180B, 0x180F);
   (0x1843, 0x1843); (0x1885, 0x1886); (0x18A9, 0x18A9); (0x1920, 0x1922);
   (0x1927, 0x1928); (0x1932, 0x1932); (0x1939, 0x193B); (0x1A17, 0x1A18);
   (0x1A1B, 0x1A1B); (0x1A56, 0x1A56); (0x1A58, 0x1A5E); (0x1A60, 0x1A60);
   (0x1A62, 0x1A62); (0x1A65, 0x1A6C); (0x1A73, 0x1A7C); (0x1A7F, 0x1A7F);
   (0x1AA7, 0x1AA7); (0x1AB0, 0x1ACE); (0x1B00, 0x1B03); (0x1B34, 0x1B34);
   (0x1B36, 0x1B3A); (0x1B3C, 0x1B3C); (0x1B42, 0x1B42); (0x1B6B, 0x1B73);
   (0x1B80, 0x1B81); (0x1BA2, 0x1BA5); (0x1BA8, 0x1BA9); (0x1BAB, 0x1BAD);
   (0x1BE6, 0x1BE6); (0x1BE8, 0x1BE9); (0x1BED, 0x1BED); (0x1BEF, 0x1BF1);
   (0x1C2C, 0x1C33); (0x1C36, 0x1C37); (0x1C78, 0x1C7D); (0x1CD0, 0x1CD2);
   (0x1CD4, 0x1CE0); (0x1CE2, 0x1CE8); (0x1CED, 0x1CED); (0x1CF4, 0x1CF4);
   (0x1CF8, 0x1CF9); (0x1D2C, 0x1D6A); (0x1D78, 0x1D78); (0x1D9B, 0x1DFF);
   (0x1FBD, 0x1FBD); (0x1FBF, 0x1FC1); (0x1FCD, 0x1FCF); (0x1FDD, 0x1FDF);
   (0x1FED, 0x1FEF); (0x1FFD, 0x1FFE); (0x200B, 0x200F); (0x2018, 0x2019);
   (0x2024, 0x2024); (0x2027, 0x2027); (0x202A, 0x202E); (0x2060, 0x2064);
   (0x2066, 0x206F); (0x2071, 0x2071); (0x207F, 0x207F); (0x2090, 0x209C);
   (0x20D0, 0x20F0); (0x2C7C, 0x2C7D); (0x2CEF, 0x2CF1); (0x2D6F, 0x2D6F);
   (0x2D7F, 0x2D7F); (0x2DE0, 0x2DFF); (0x2E2F, 0x2E2F); (0x3005, 0x3005);
   (0x302A, 0x302D); (0x3031, 0x3035); (0x303B, 0x303B); (0x3099, 0x309E);
   (0x30FC, 0x30FE); (0xA015, 0xA015); (0xA4F8, 0xA4FD); (0xA60C, 0xA60C);
   (0xA66F, 0xA672); (0xA674, 0xA67D); (0xA67F, 0xA67F); (0xA69C, 0xA69F);
   (0xA6F0, 0xA6F1); (0xA700, 0xA721); (0xA770, 0xA770); (0xA788, 0xA78A);
   (0xA7F2, 0xA7F4); (0xA7F8, 0xA7F9); (0xA802, 0xA802); (0xA806, 0xA806);
   (0xA80B, 0xA80B); (0xA825, 0xA826); (0xA82C, 0xA82C); (0xA8C4, 0xA8C5);
   (0xA8E0, 0xA8F1); (0xA8FF, 0xA8FF); (0xA926, 0xA92D); (0xA947, 0xA951);
   (0xA980, 0xA982); (0xA9B3, 0xA9B3); (0xA9B6, 0xA9B9); (0xA9BC, 0xA9BD);
   (0xA9CF, 0xA9CF); (0xA9E5, 0xA9E6); (0xAA29, 0xAA2E); (0xAA31, 0xAA32);
   (0xAA35, 0xAA36); (0xAA43, 0xAA43); (0xAA4C, 0xAA4C); (0xAA70, 0xAA70);
   (0xAA7C, 0xAA7C); (0xAAB0, 0xAAB0); (0xAAB2, 0xAAB4); (0xAAB7, 0xAAB8);
   (0xAABE, 0xAABF); (0xAAC1, 0xAAC1); (0xAADD, 0xAADD); (0xAAEC, 0xAAED);
   (0xAAF3, 0xAAF4); (0xAAF6, 0xAAF6); (0xAB5B, 0xAB5F); (0xAB69, 0xAB6B);
   (0xABE5, 0xABE5); (0xABE8, 0xABE8); (0xABED, 0xABED); (0xFB1E, 0xFB1E);
   (0xFBB2, 0xFBC2); (0xFE00, 0xFE0F); (0xFE13, 0xFE13); (0xFE20, 0xFE2F);
   (0xFE52, 0xFE52); (0xFE55, 0xFE55); (0xFEFF, 0xFEFF); (0xFF07, 0xFF07);
   (0xFF0E, 0xFF0E); (0xFF1A, 0xFF1A); (0xFF3E, 0xFF3E); (0xFF40, 0xFF40);
   (0xFF70, 0xFF70); (0xFF9E, 0xFF9F); (0xFFE3, 0xFFE3); (0xFFF9, 0xFFFB);
   (0x101FD, 0x101FD); (0x102E0, 0x102E0); (0x10376, 0x1037A); (0x10780, 0x10785);
   (0x10787, 0x107B0); (0x107B2, 0x107BA); (0x10A01, 0x10A03); (0x10A05, 0x10A06);
   (0x10A0C, 0x10A0F); (0x10A38, 0x10A3A); (0x10A3F, 0x10A3F); (0x10AE5, 0x10AE6);
   (0x10D24, 0x10D27); (0x10EAB, 0x10EAC); (0x10F46, 0x10F50); (0x10F82, 0x10F85);
   (0x11001, 0x11001); (0x11038, 0x11046); (0x11070, 0x11070); (0x11073, 0x11074);
   (0x1107F, 0x11081); (0x110B3, 0x110B6); (0x110B9, 0x110BA); (0x110BD, 0x110BD);
   (0x110C2, 0x110C2); (0x110CD, 0x110CD); (0x11100, 0x11102); (0x11127, 0x1112B);
   (0x1112D, 0x11134); (0x11173, 0x11173); (0x11180, 0x11181); (0x111B6, 0x111BE);
   (0x111C9, 0x111CC); (0x111CF, 0x111CF); (0x1122F, 0x11231); (0x11234, 0x11234);
   (0x11236, 0x11237); (0x1123E, 0x1123E); (0x112DF, 0x112DF); (0x112E3, 0x112EA);
   (0x11300, 0x11301); (0x1133B, 0x1133C); (0x11340, 0x11340); (0x11366, 0x1136C);
   (0x11370, 0x11374); (0x11438, 0x1143F); (0x11442, 0x11444); (0x11446, 0x11446);
   (0x1145E, 0x1145E); (0x114B3, 0x114B8); (0x114BA, 0x114BA); (0x114BF, 0x114C0);
   (0x114C2, 0x114C3); (0x115B2, 0x115B5); (0x115BC, 0x115BD); (0x115BF, 0x115C0);
   (0x115DC, 0x115DD); (0x11633, 0x1163A); (0x1163D, 0x1163D); (0x1163F, 0x11640);
   (0x116AB, 0x116AB); (0x116AD, 0x116AD); (0x116B0, 0x116B5); (0x116B7, 0x116B7);
   (0x1171D, 0x1171F); (0x11722, 0x11725); (0x11727, 0x1172B); (0x1182F, 0x11837);
   (0x11839, 0x1183A); (0x1193B, 0x1193C); (0x1193E, 0x1193E); (0x11943, 0x11943);
   (0x119D4, 0x119D7); (0x119DA, 0x119DB); (0x119E0, 0x119E0); (0x11A01, 0x11A0A);
   (0x11A33, 0x11A38); (0x11A3B, 0x11A3E); (0x11A47, 0x11A47); (0x11A51, 0x11A56);
   (0x11A59, 0x11A5B); (0x11A8A, 0x11A96); (0x11A98, 0x11A99); (0x11C30, 0x11C36);
   (0x11C38, 0x11C3D); (0x11C3F, 0x11C3F); (0x11C92, 0x11CA7); (0x11CAA, 0x11CB0);
   (0x11CB2, 0x11CB3); (0x11CB5, 0x11CB6); (0x11D31, 0x11D36); (0x11D3A, 0x11D3A);
   (0x11D3C, 0x11D3D); (0x11D3F, 0x11D45); (0x11D47, 0x11D47); (0x11D90, 0x11D91);
   (0x11D95, 0x11D95); (0x11D97, 0x11D97); (0x11EF3, 0x11EF4); (0x13430, 0x13438);
   (0x16AF0, 0x16AF4); (0x16B30, 0x16B36); (0x16B40, 0x16B43); (0x16F4F, 0x16F4F);
   (0x16F8F, 0x16F9F); (0x16FE0, 0x16FE1); (0x16FE3, 0x16FE4); (0x1AFF0, 0x1AFF3);
   (0x1AFF5, 0x1AFFB); (0x1AFFD, 0x1AFFE); (0x1BC9D, 0x1BC9E); (0x1BCA0, 0x1BCA3);
   (0x1CF00, 0x1CF2D); (0x1CF30, 0x1CF46); (0x1D167, 0x1D169); (0x1D173, 0x1D182);
   (0x1D185, 0x1D18B); (0x1D1AA, 0x1D1AD); (0x1D242, 0x1D244); (0x1DA00, 0x1DA36);
   (0x1DA3B, 0x1DA6C); (0x1DA75, 0x1DA75); (0x1DA84, 0x1DA84); (0x1DA9B, 0x1DA9F);
   (0x1DAA1, 0x1DAAF); (0x1E000, 0x1E006); (0x1E008, 0x1E018); (0x1E01B, 0x1E021);
   (0x1E023, 0x1E024); (0x1E026, 0x1E02A); (0x1E130, 0x1E13D); (0x1E2AE, 0x1E2AE);
   (0x1E2EC, 0x1E2EF); (0x1E8D0, 0x1E8D6); (0x1E944, 0x1E94B); (0x1F3FB, 0x1F3FF);
   (0xE0001, 0xE0001); (0xE0020, 0xE007F); (0xE0100, 0xE01EF) ].

(** The characters [str.isspace] accepts *)
Definition White_Space : list (N * N) :=
  [
   (0x9, 0xD); (0x1C, 0x20); (0x85, 0x85); (0xA0, 0xA0);
   (0x1680, 0x1680); (0x2000, 0x200A); (0x2028, 0x2029); (0x202F, 0x202F);
   (0x205F, 0x205F); (0x3000, 0x3000) ].

(** The decimal digits: each range is made of runs of ten digits, from
    zero to nine *)
Definition Decimal : list (N * N) :=
  [
   (0x30, 0x39); (0x660, 0x669); (0x6F0, 0x6F9); (0x7C0, 0x7C9);
   (0x966, 0x96F); (0x9E6, 0x9EF); (0xA66, 0xA6F); (0xAE6, 0xAEF);
   (0xB66, 0xB6F); (0xBE6, 0xBEF); (0xC66, 0xC6F); (0xCE6, 0xCEF);
   (0xD66, 0xD6F); (0xDE6, 0xDEF); (0xE50, 0xE59); (0xED0, 0xED9);
   (0xF20, 0xF29); (0x1040, 0x1049); (0x1090, 0x1099); (0x17E0, 0x17E9);
   (0x1810, 0x1819); (0x1946, 0x194F); (0x19D0, 0x19D9); (0x1A80, 0x1A89);
   (0x1A90, 0x1A99); (0x1B50, 0x1B59); (0x1BB0, 0x1BB9); (0x1C40, 0x1C49);
   (0x1C50, 0x1C59); (0xA620, 0xA629); (0xA8D0, 0xA8D9); (0xA900, 0xA909);
   (0xA9D0, 0xA9D9); (0xA9F0, 0xA9F9); (0xAA50, 0xAA59); (0xABF0, 0xABF9);
   (0xFF10, 0xFF19); (0x104A0, 0x104A9); (0x10D30, 0x10D39); (0x11066, 0x1106F);
   (0x110F0, 0x110F9); (0x11136, 0x1113F); (0x111D0, 0x111D9); (0x112F0, 0x112F9);
   (0x11450, 0x11459); (0x114D0, 0x114D9); (0x11650, 0x11659); (0x116C0, 0x116C9);
   (0x11730, 0x11739); (0x118E0, 0x118E9); (0x11950, 0x11959); (0x11C50, 0x11C59);
   (0x11D50, 0x11D59); (0x11DA0, 0x11DA9); (0x16A60, 0x16A69); (0x16AC0, 0x16AC9);
   (0x16B50, 0x16B59); (0x1D7CE, 0x1D7FF); (0x1E140, 0x1E149); (0x1E2F0, 0x1E2F9);
   (0x1E950, 0x1E959); (0x1FBF0, 0x1FBF9) ].

(** The characters [str.isalnum] accepts *)
Definition Alphanumeric : list (N * N) :=
  [
   (0x30, 0x39); (0x41, 0x5A); (0x61, 0x7A); (0xAA, 0xAA);
   (0xB2, 0xB3); (0xB5, 0xB5); (0xB9, 0xBA); (0xBC, 0xBE);
   (0xC0, 0xD6); (0xD8, 0xF6); (0xF8, 0x2C1); (0x2C6, 0x2D1);
   (0x2E0, 0x2E4); (0x2EC, 0x2EC); (0x2EE, 0x2EE); (0x370, 0x374);
   (0x376, 0x377); (0x37A, 0x37D); (0x37F, 0x37F); (0x386, 0x386);
   (0x388, 0x38A); (0x38C, 0x38C); (0x38E, 0x3A1); (0x3A3, 0x3F5);
   (0x3F7, 0x481); (0x48A, 0x52F); (0x531, 0x556); (0x559, 0x559);
   (0x560, 0x588); (0x5D0, 0x5EA); (0x5EF, 0x5F2); (0x620, 0x64A);
   (0x660, 0x669); (0x66E, 0x66F); (0x671, 0x6D3); (0x6D5, 0x6D5);
   (0x6E5, 0x6E6); (0x6EE, 0x6FC); (0x6FF, 0x6FF); (0x710, 0x710);
   (0x712, 0x72F); (0x74D, 0x7A5); (0x7B1, 0x7B1); (0x7C0, 0x7EA);
   (0x7F4, 0x7F5); (0x7FA, 0x7FA); (0x800, 0x815); (0x81A, 0x81A);
   (0x824, 0x824); (0x828, 0x828); (0x840, 0x858); (0x860, 0x86A);
   (0x870, 0x887); (0x889, 0x88E); (0x8A0, 0x8C9); (0x904, 0x939);
   (0x93D, 0x93D); (0x950, 0x950); (0x958, 0x961); (0x966, 0x96F);
   (0x971, 0x980); (0x985, 0x98C); (0x98F, 0x990); (0x993, 0x9A8);
   (0x9AA, 0x9B0); (0x9B2, 0x9B2); (0x9B6, 0x9B9); (0x9BD, 0x9BD);
   (0x9CE, 0x9CE); (0x9DC, 0x9DD); (0x9DF, 0x9E1); (0x9E6, 0x9F1);
   (0x9F4, 0x9F9); (0x9FC, 0x9FC); (0xA05, 0xA0A); (0xA0F, 0xA10);
   (0xA13, 0xA28); (0xA2A, 0xA30); (0xA32, 0xA33); (0xA35, 0xA36);
   (0xA38, 0xA39); (0xA59, 0xA5C); (0xA5E, 0xA5E); (0xA66, 0xA6F);
   (0xA72, 0xA74); (0xA85, 0xA8D); (0xA8F, 0xA91); (0xA93, 0xAA8);
   (0xAAA, 0xAB0); (0xAB2, 0xAB3); (0xAB5, 0xAB9); (0xABD, 0xABD);
   (0xAD0, 0xAD0); (0xAE0, 0xAE1); (0xAE6, 0xAEF); (0xAF9, 0xAF9);
   (0xB05, 0xB0C); (0xB0F, 0xB10); (0xB13, 0xB28); (0xB2A, 0xB30);
   (0xB32, 0xB33); (0xB35, 0xB39); (0xB3D, 0xB3D); (0xB5C, 0xB5D);
   (0xB5F, 0xB61); (0xB66, 0xB6F); (0xB71, 0xB77); (0xB83, 0xB83);
   (0xB85, 0xB8A); (0xB8E, 0xB90); (0xB92, 0xB95); (0xB99, 0xB9A);
   (0xB9C, 0xB9C); (0xB9E, 0xB9F); (0xBA3, 0xBA4); (0xBA8, 0xBAA);
   (0xBAE, 0xBB9); (0xBD0, 0xBD0); (0xBE6, 0xBF2); (0xC05, 0xC0C);
   (0xC0E, 0xC10); (0xC12, 0xC28); (0xC2A, 0xC39); (0xC3D, 0xC3D);
   (0xC58, 0xC5A); (0xC5D, 0xC5D); (0xC60, 0xC61); (0xC66, 0xC6F);
   (0xC78, 0xC7E); (0xC80, 0xC80); (0xC85, 0xC8C); (0xC8E, 0xC90);
   (0xC92, 0xCA8); (0xCAA, 0xCB3); (0xCB5, 0xCB9); (0xCBD, 0xCBD);
   (0xCDD, 0xCDE); (0xCE0, 0xCE1); (0xCE6, 0xCEF); (0xCF1, 0xCF2);
   (0xD04, 0xD0C); (0xD0E, 0xD10); (0xD12, 0xD3A); (0xD3D, 0xD3D);
   (0xD4E, 0xD4E); (0xD54, 0xD56); (0xD58, 0xD61); (0xD66, 0xD78);
   (0xD7A, 0xD7F); (0xD85, 0xD96); (0xD9A, 0xDB1); (0xDB3, 0xDBB);
   (0xDBD, 0xDBD); (0xDC0, 0xDC6); (0xDE6, 0xDEF); (0xE01, 0xE30);
   (0xE32, 0xE33); (0xE40, 0xE46); (0xE50, 0xE59); (0xE81, 0xE82);
   (0xE84, 0xE84); (0xE86, 0xE8A); (0xE8C, 0xEA3); (0xEA5, 0xEA5);
   (0xEA7, 0xEB0); (0xEB2, 0xEB3); (0xEBD, 0xEBD); (0xEC0, 0xEC4);
   (0xEC6, 0xEC6); (0xED0, 0xED9); (0xEDC, 0xEDF); (0xF00, 0xF00);
   (0xF20, 0xF33); (0xF40, 0xF47); (0xF49, 0xF6C); (0xF88, 0xF8C);
   (0x1000, 0x102A); (0x103F, 0x1049); (0x1050, 0x1055); (0x105A, 0x105D);
   (0x1061, 0x1061); (0x1065, 0x1066); (0x106E, 0x1070); (0x1075, 0x1081);
   (0x108E, 0x108E); (0x1090, 0x1099); (0x10A0, 0x10C5); (0x10C7, 0x10C7);
   (0x10CD, 0x10CD); (0x10D0, 0x10FA); (0x10FC, 0x1248); (0x124A, 0x124D);
   (0x1250, 0x1256); (0x1258, 0x1258); (0x125A, 0x125D); (0x1260, 0x1288);
   (0x128A, 0x128D); (0x1290, 0x12B0); (0x12B2, 0x12B5); (0x12B8, 0x12BE);
   (0x12C0, 0x12C0); (0x12C2, 0x12C5); (0x12C8, 0x12D6); (0x12D8, 0x1310);
   (0x1312, 0x1315); (0x1318, 0x135A); (0x1369, 0x137C); (0x1380, 0x138F);
   (0x13A0, 0x13F5); (0x13F8, 0x13FD); (0x1401, 0x166C); (0x166F, 0x167F);
   (0x1681, 0x169A); (0x16A0, 0x16EA); (0x16EE, 0x16F8); (0x1700, 0x1711);
   (0x171F, 0x1731); (0x1740, 0x1751); (0x1760, 0x176C); (0x176E, 0x1770);
   (0x1780, 0x17B3); (0x17D7, 0x17D7); (0x17DC, 0x17DC); (0x17E0, 0x17E9);
   (0x17F0, 0x17F9); (0x1810, 0x1819); (0x1820, 0x1878); (0x1880, 0x1884);
   (0x1887, 0x18A8); (0x18AA, 0x18AA); (0x18B0, 0x18F5); (0x1900, 0x191E);
   (0x1946, 0x196D); (0x1970, 0x1974); (0x1980, 0x19AB); (0x19B0, 0x19C9);
   (0x19D0, 0x19DA); (0x1A00, 0x1A16); (0x1A20, 0x1A54); (0x1A80, 0x1A89);
   (0x1A90, 0x1A99); (0x1AA7, 0x1AA7); (0x1B05, 0x1B33); (0x1B45, 0x1B4C);
   (0x1B50, 0x1B59); (0x1B83, 0x1BA0); (0x1BAE, 0x1BE5); (0x1C00, 0x1C23);
   (0x1C40, 0x1C49); (0x1C4D, 0x1C7D); (0x1C80, 0x1C88); (0x1C90, 0x1CBA);
   (0x1CBD, 0x1CBF); (0x1CE9, 0x1CEC); (0x1CEE, 0x1CF3); (0x1CF5, 0x1CF6);
   (0x1CFA, 0x1CFA); (0x1D00, 0x1DBF); (0x1E00, 0x1F15); (0x1F18, 0x1F1D);
   (0x1F20, 0x1F45); (0x1F48, 0x1F4D); (0x1F50, 0x1F57); (0x1F59, 0x1F59);
   (0x1F5B, 0x1F5B); (0x1F5D, 0x1F5D); (0x1F5F, 0x1F7D); (0x1F80, 0x1FB4);
   (0x1FB6, 0x1FBC); (0x1FBE, 0x1FBE); (0x1FC2, 0x1FC4); (0x1FC6, 0x1FCC);
   (0x1FD0, 0x1FD3); (0x1FD6, 0x1FDB); (0x1FE0, 0x1FEC); (0x1FF2, 0x1FF4);
   (0x1FF6, 0x1FFC); (0x2070, 0x2071); (0x2074, 0x2079); (0x207F, 0x2089);
   (0x2090, 0x209C); (0x2102, 0x2102); (0x2107, 0x2107); (0x210A, 0x2113);
   (0x2115, 0x2115); (0x2119, 0x211D); (0x2124, 0x2124); (0x2126, 0x2126);
   (0x2128, 0x2128); (0x212A, 0x212D); (0x212F, 0x2139); (0x213C, 0x213F);
   (0x2145, 0x2149); (0x214E, 0x214E); (0x2150, 0x2189); (0x2460, 0x249B);
   (0x24EA, 0x24FF); (0x2776, 0x2793); (0x2C00, 0x2CE4); (0x2CEB, 0x2CEE);
   (0x2CF2, 0x2CF3); (0x2CFD, 0x2CFD); (0x2D00, 0x2D25); (0x2D27, 0x2D27);
   (0x2D2D, 0x2D2D); (0x2D30, 0x2D67); (0x2D6F, 0x2D6F); (0x2D80, 0x2D96);
   (0x2DA0, 0x2DA6); (0x2DA8, 0x2DAE); (0x2DB0, 0x2DB6); (0x2DB8, 0x2DBE);
   (0x2DC0, 0x2DC6); (0x2DC8, 0x2DCE); (0x2DD0, 0x2DD6); (0x2DD8, 0x2DDE);
   (0x2E2F, 0x2E2F); (0x3005, 0x3007); (0x3021, 0x3029); (0x3031, 0x3035);
   (0x3038, 0x303C); (0x3041, 0x3096); (0x309D, 0x309F); (0x30A1, 0x30FA);
   (0x30FC, 0x30FF); (0x3105, 0x312F); (0x3131, 0x318E); (0x3192, 0x3195);
   (0x31A0, 0x31BF); (0x31F0, 0x31FF); (0x3220, 0x3229); (0x3248, 0x324F);
   (0x3251, 0x325F); (0x3280, 0x3289); (0x32B1, 0x32BF); (0x3400, 0x4DBF);
   (0x4E00, 0xA48C); (0xA4D0, 0xA4FD); (0xA500, 0xA60C); (0xA610, 0xA62B);
   (0xA640, 0xA66E); (0xA67F, 0xA69D); (0xA6A0, 0xA6EF); (0xA717, 0xA71F);
   (0xA722, 0xA788); (0xA78B, 0xA7CA); (0xA7D0, 0xA7D1); (0xA7D3, 0xA7D3);
   (0xA7D5, 0xA7D9); (0xA7F2, 0xA801); (0xA803, 0xA805); (0xA807, 0xA80A);
   (0xA80C, 0xA822); (0xA830, 0xA835); (0xA840, 0xA873); (0xA882, 0xA8B3);
   (0xA8D0, 0xA8D9); (0xA8F2, 0xA8F7); (0xA8FB, 0xA8FB); (0xA8FD, 0xA8FE);
   (0xA900, 0xA925); (0xA930, 0xA946); (0xA960, 0xA97C); (0xA984, 0xA9B2);
   (0xA9CF, 0xA9D9); (0xA9E0, 0xA9E4); (0xA9E6, 0xA9FE); (0xAA00, 0xAA28);
   (0xAA40, 0xAA42); (0xAA44, 0xAA4B); (0xAA50, 0xAA59); (0xAA60, 0xAA76);
   (0xAA7A, 0xAA7A); (0xAA7E, 0xAAAF); (0xAAB1, 0xAAB1); (0xAAB5, 0xAAB6);
   (0xAAB9, 0xAABD); (0xAAC0, 0xAAC0); (0xAAC2, 0xAAC2); (0xAADB, 0xAADD);
   (0xAAE0, 0xAAEA); (0xAAF2, 0xAAF4); (0xAB01, 0xAB06); (0xAB09, 0xAB0E);
   (0xAB11, 0xAB16); (0xAB20, 0xAB26); (0xAB28, 0xAB2E); (0xAB30, 0xAB5A);
   (0xAB5C, 0xAB69); (0xAB70, 0xABE2); (0xABF0, 0xABF9); (0xAC00, 0xD7A3);
   (0xD7B0, 0xD7C6); (0xD7CB, 0xD7FB); (0xF900, 0xFA6D); (0xFA70, 0xFAD9);
   (0xFB00, 0xFB06); (0xFB13, 0xFB17); (0xFB1D, 0xFB1D); (0xFB1F, 0xFB28);
   (0xFB2A, 0xFB36); (0xFB38, 0xFB3C); (0xFB3E, 0xFB3E); (0xFB40, 0xFB41);
   (0xFB43, 0xFB44); (0xFB46, 0xFBB1); (0xFBD3, 0xFD3D); (0xFD50, 0xFD8F);
   (0xFD92, 0xFDC7); (0xFDF0, 0xFDFB); (0xFE70, 0xFE74); (0xFE76, 0xFEFC);
   (0xFF10, 0xFF19); (0xFF21, 0xFF3A); (0xFF41, 0xFF5A); (0xFF66, 0xFFBE);
   (0xFFC2, 0xFFC7); (0xFFCA, 0xFFCF); (0xFFD2, 0xFFD7); (0xFFDA, 0xFFDC);
   (0x10000, 0x1000B); (0x1000D, 0x10026); (0x10028, 0x1003A); (0x1003C, 0x1003D);
   (0x1003F, 0x1004D); (0x10050, 0x1005D); (0x10080, 0x100FA); (0x10107, 0x10133);
   (0x10140, 0x10178); (0x1018A, 0x1018B); (0x10280, 0x1029C); (0x102A0, 0x102D0);
   (0x102E1, 0x102FB); (0x10300, 0x10323); (0x1032D, 0x1034A); (0x10350, 0x10375);
   (0x10380, 0x1039D); (0x103A0, 0x103C3); (0x103C8, 0x103CF); (0x103D1, 0x103D5);
   (0x10400, 0x1049D); (0x104A0, 0x104A9); (0x104B0, 0x104D3); (0x104D8, 0x104FB);
   (0x10500, 0x10527); (0x10530, 0x10563); (0x10570, 0x1057A); (0x1057C, 0x1058A);
   (0x1058C, 0x10592); (0x10594, 0x10595); (0x10597, 0x105A1); (0x105A3, 0x105B1);
   (0x105B3, 0x105B9); (0x105BB, 0x105BC); (0x10600, 0x10736); (0x10740, 0x10755);
   (0x10760, 0x10767); (0x10780, 0x10785); (0x10787, 0x107B0); (0x107B2, 0x107BA);
   (0x10800, 0x10805); (0x10808, 0x10808); (0x1080A, 0x10835); (0x10837, 0x10838);
   (0x1083C, 0x1083C); (0x1083F, 0x10855); (0x10858, 0x10876); (0x10879, 0x1089E);
   (0x108A7, 0x108AF); (0x108E0, 0x108F2); (0x108F4, 0x108F5); (0x108FB, 0x1091B);
   (0x10920, 0x10939); (0x10980, 0x109B7); (0x109BC, 0x109CF); (0x109D2, 0x10A00);
   (0x10A10, 0x10A13); (0x10A15, 0x10A17); (0x10A19, 0x10A35); (0x10A40, 0x10A48);
   (0x10A60, 0x10A7E); (0x10A80, 0x10A9F); (0x10AC0, 0x10AC7); (0x10AC9, 0x10AE4);
   (0x10AEB, 0x10AEF); (0x10B00, 0x10B35); (0x10B40, 0x10B55); (0x10B58, 0x10B72);
   (0x10B78, 0x10B91); (0x10BA9, 0x10BAF); (0x10C00, 0x10C48); (0x10C80, 0x10CB2);
   (0x10CC0, 0x10CF2); (0x10CFA, 0x10D23); (0x10D30, 0x10D39); (0x10E60, 0x10E7E);
   (0x10E80, 0x10EA9); (0x10EB0, 0x10EB1); (0x10F00, 0x10F27); (0x10F30, 0x10F45);
   (0x10F51, 0x10F54); (0x10F70, 0x10F81); (0x10FB0, 0x10FCB); (0x10FE0, 0x10FF6);
   (0x11003, 0x11037); (0x11052, 0x1106F); (0x11071, 0x11072); (0x11075, 0x11075);
   (0x11083, 0x110AF); (0x110D0, 0x110E8); (0x110F0, 0x110F9); (0x11103, 0x11126);
   (0x11136, 0x1113F); (0x11144, 0x11144); (0x11147, 0x11147); (0x11150, 0x11172);
   (0x11176, 0x11176); (0x11183, 0x111B2); (0x111C1, 0x111C4); (0x111D0, 0x111DA);
   (0x111DC, 0x111DC); (0x111E1, 0x111F4); (0x11200, 0x11211); (0x11213, 0x1122B);
   (0x11280, 0x11286); (0x11288, 0x11288); (0x1128A, 0x1128D); (0x1128F, 0x1129D);
   (0x1129F, 0x112A8); (0x112B0, 0x112DE); (0x112F0, 0x112F9); (0x11305, 0x1130C);
   (0x1130F, 0x11310); (0x11313, 0x11328); (0x1132A, 0x11330); (0x11332, 0x11333);
   (0x11335, 0x11339); (0x1133D, 0x1133D); (0x11350, 0x11350); (0x1135D, 0x11361);
   (0x11400, 0x11434); (0x11447, 0x1144A); (0x11450, 0x11459); (0x1145F, 0x11461);
   (0x11480, 0x114AF); (0x114C4, 0x114C5); (0x114C7, 0x114C7); (0x114D0, 0x114D9);
   (0x11580, 0x115AE); (0x115D8, 0x115DB); (0x11600, 0x1162F); (0x11644, 0x11644);
   (0x11650, 0x11659); (0x11680, 0x116AA); (0x116B8, 0x116B8); (0x116C0, 0x116C9);
   (0x11700, 0x1171A); (0x11730, 0x1173B); (0x11740, 0x11746); (0x11800, 0x1182B);
   (0x118A0, 0x118F2); (0x118FF, 0x11906); (0x11909, 0x11909); (0x1190C, 0x11913);
   (0x11915, 0x11916); (0x11918, 0x1192F); (0x1193F, 0x1193F); (0x11941, 0x11941);
   (0x11950, 0x11959); (0x119A0, 0x119A7); (0x119AA, 0x119D0); (0x119E1, 0x119E1);
   (0x119E3, 0x119E3); (0x11A00, 0x11A00); (0x11A0B, 0x11A32); (0x11A3A, 0x11A3A);
   (0x11A50, 0x11A50); (0x11A5C, 0x11A89); (0x11A9D, 0x11A9D); (0x11AB0, 0x11AF8);
   (0x11C00, 0x11C08); (0x11C0A, 0x11C2E); (0x11C40, 0x11C40); (0x11C50, 0x11C6C);
   (0x11C72, 0x11C8F); (0x11D00, 0x11D06); (0x11D08, 0x11D09); (0x11D0B, 0x11D30);
   (0x11D46, 0x11D46); (0x11D50, 0x11D59); (0x11D60, 0x11D65); (0x11D67, 0x11D68);
   (0x11D6A, 0x11D89); (0x11D98, 0x11D98); (0x11DA0, 0x11DA9); (0x11EE0, 0x11EF2);
   (0x11FB0, 0x11FB0); (0x11FC0, 0x11FD4); (0x12000, 0x12399); (0x12400, 0x1246E);
   (0x12480, 0x12543); (0x12F90, 0x12FF0); (0x13000, 0x1342E); (0x14400, 0x14646);
   (0x16800, 0x16A38); (0x16A40, 0x16A5E); (0x16A60, 0x16A69); (0x16A70, 0x16ABE);
   (0x16AC0, 0x16AC9); (0x16AD0, 0x16AED); (0x16B00, 0x16B2F); (0x16B40, 0x16B43);
   (0x16B50, 0x16B59); (0x16B5B, 0x16B61); (0x16B63, 0x16B77); (0x16B7D, 0x16B8F);
   (0x16E40, 0x16E96); (0x16F00, 0x16F4A); (0x16F50, 0x16F50); (0x16F93, 0x16F9F);
   (0x16FE0, 0x16FE1); (0x16FE3, 0x16FE3); (0x17000, 0x187F7); (0x18800, 0x18CD5);
   (0x18D00, 0x18D08); (0x1AFF0, 0x1AFF3); (0x1AFF5, 0x1AFFB); (0x1AFFD, 0x1AFFE);
   (0x1B000, 0x1B122); (0x1B150, 0x1B152); (0x1B164, 0x1B167); (0x1B170, 0x1B2FB);
   (0x1BC00, 0x1BC6A); (0x1BC70, 0x1BC7C); (0x1BC80, 0x1BC88); (0x1BC90, 0x1BC99);
   (0x1D2E0, 0x1D2F3); (0x1D360, 0x1D378); (0x1D400, 0x1D454); (0x1D456, 0x1D49C);
   (0x1D49E, 0x1D49F); (0x1D4A2, 0x1D4A2); (0x1D4A5, 0x1D4A6); (0x1D4A9, 0x1D4AC);
   (0x1D4AE, 0x1D4B9); (0x1D4BB, 0x1D4BB); (0x1D4BD, 0x1D4C3); (0x1D4C5, 0x1D505);
   (0x1D507, 0x1D50A); (0x1D50D, 0x1D514); (0x1D516, 0x1D51C); (0x1D51E, 0x1D539);
   (0x1D53B, 0x1D53E); (0x1D540, 0x1D544); (0x1D546, 0x1D546); (0x1D54A, 0x1D550);
   (0x1D552, 0x1D6A5); (0x1D6A8, 0x1D6C0); (0x1D6C2, 0x1D6DA); (0x1D6DC, 0x1D6FA);
   (0x1D6FC, 0x1D714); (0x1D716, 0x1D734); (0x1D736, 0x1D74E); (0x1D750, 0x1D76E);
   (0x1D770, 0x1D788); (0x1D78A, 0x1D7A8); (0x1D7AA, 0x1D7C2); (0x1D7C4, 0x1D7CB);
   (0x1D7CE, 0x1D7FF); (0x1DF00, 0x1DF1E); (0x1E100, 0x1E12C); (0x1E137, 0x1E13D);
   (0x1E140, 0x1E149); (0x1E14E, 0x1E14E); (0x1E290, 0x1E2AD); (0x1E2C0, 0x1E2EB);
   (0x1E2F0, 0x1E2F9); (0x1E7E0, 0x1E7E6); (0x1E7E8, 0x1E7EB); (0x1E7ED, 0x1E7EE);
   (0x1E7F0, 0x1E7FE); (0x1E800, 0x1E8C4); (0x1E8C7, 0x1E8CF); (0x1E900, 0x1E943);
   (0x1E94B, 0x1E94B); (0x1E950, 0x1E959); (0x1EC71, 0x1ECAB); (0x1ECAD, 0x1ECAF);
   (0x1ECB1, 0x1ECB4); (0x1ED01, 0x1ED2D); (0x1ED2F, 0x1ED3D); (0x1EE00, 0x1EE03);
   (0x1EE05, 0x1EE1F); (0x1EE21, 0x1EE22); (0x1EE24, 0x1EE24); (0x1EE27, 0x1EE27);
   (0x1EE29, 0x1EE32); (0x1EE34, 0x1EE37); (0x1EE39, 0x1EE39); (0x1EE3B, 0x1EE3B);
   (0x1EE42, 0x1EE42); (0x1EE47, 0x1EE47); (0x1EE49, 0x1EE49); (0x1EE4B, 0x1EE4B);
   (0x1EE4D, 0x1EE4F); (0x1EE51, 0x1EE52); (0x1EE54, 0x1EE54); (0x1EE57, 0x1EE57);
   (0x1EE59, 0x1EE59); (0x1EE5B, 0x1EE5B); (0x1EE5D, 0x1EE5D); (0x1EE5F, 0x1EE5F);
   (0x1EE61, 0x1EE62); (0x1EE64, 0x1EE64); (0x1EE67, 0x1EE6A); (0x1EE6C, 0x1EE72);
   (0x1EE74, 0x1EE77); (0x1EE79, 0x1EE7C); (0x1EE7E, 0x1EE7E); (0x1EE80, 0x1EE89);
   (0x1EE8B, 0x1EE9B); (0x1EEA1, 0x1EEA3); (0x1EEA5, 0x1EEA9); (0x1EEAB, 0x1EEBB);
   (0x1F100, 0x1F10C); (0x1FBF0, 0x1FBF9); (0x20000, 0x2A6DF); (0x2A700, 0x2B738);
   (0x2B740, 0x2B81D); (0x2B820, 0x2CEA1); (0x2CEB0, 0x2EBE0); (0x2F800, 0x2FA1D);
   (0x30000, 0x3134A) ].

(** Membership in a table of ranges sorted by their lower bounds *)
Fixpoint in_ranges (c : char) (ranges : list (N * N)) : bool :=
  match ranges with
  | [] => false
  | (lo, hi) :: ranges' =>
      if c <? lo then false
      else if c <=? hi then true
      else in_ranges c ranges'
  end.

(** The lower bound of the range that holds [c] *)
Fixpoint find_range (c : char) (ranges : list (N * N)) : option N :=
  match ranges with
  | [] => None
  | (lo, hi) :: ranges' =>
      if c <? lo then None
      else if c <=? hi then Some lo
      else find_range c ranges'
  end.

(** The image of [c] in a table of runs sorted by their lower bounds *)
Fixpoint find_run (c : char) (runs : list (N * N * N * N)) : option char :=
  match runs with
  | [] => None
  | (lo, hi, step, target) :: runs' =>
      if c <? lo then None
      else if (c <=? hi) && ((c - lo) mod step =? 0) then Some (target + (c - lo))
      else find_run c runs'
  end.

(** The image of [c] in a table of full mappings *)
Fixpoint find_full (c : char) (table : list (N * list N)) : option (list N) :=
  match table with
  | [] => None
  | (c', image) :: table' =>
      if c =? c' then Some image else find_full c table'
  end.

(** A case mapping: the full mapping of a character that has one, or else
    its simple mapping, or else the character itself. *)
Definition case_mapping (runs : list (N * N * N * N))
    (full : list (N * list N)) (c : char) : string :=
  match find_full c full with
  | Some image => String.of_list image
  | None =>
      match find_run c runs with
      | Some d => String d EmptyString
      | None => String c EmptyString
      end
  end.

Definition to_lower_full : char -> string := case_mapping lowercase lowercase_full.
Definition to_title_full : char -> string := case_mapping titlecase titlecase_full.

Definition is_cased (c : char) : bool := in_ranges c Cased.
Definition is_case_ignorable (c : char) : bool := in_ranges c Case_Ignorable.
Definition is_space (c : char) : bool := in_ranges c White_Space.
Definition is_alnum (c : char) : bool := in_ranges c Alphanumeric.

(** The value of a decimal digit *)
Definition decimal (c : char) : option N :=
  match find_range c Decimal with
  | Some lo => Some ((c - lo) mod 10)
  | None => None
  end.

End Unicode.

(** ** Text primitives of Python's [str] *)

Module Str.

(** [str.isspace], [str.isdecimal] and [str.isalnum] on one character *)
Definition is_space : char -> bool := Unicode.is_space.

Definition is_decimal (c : char) : bool :=
  match Unicode.decimal c with
  | Some _ => true
  | None => false
  end.

Definition is_alnum : char -> bool := Unicode.is_alnum.

(** The capital sigma and its two lower-case forms *)
Definition capital_sigma : char := 931%N.
Definition small_sigma : char := 963%N.
Definition small_final_sigma : char := 962%N.

(** The first character of [s] that is not case-ignorable *)
Fixpoint skip_ignorable (s : string) : option char :=
  match s with
  | EmptyString => None
  | String c s' =>
      if Unicode.is_case_ignorable c then skip_ignorable s' else Some c
  end.

(** A capital sigma is final when a cased character stands before it and
    none after it, case-ignorable characters apart.  [before] is the text
    before it read backwards, [after] the text after it. *)
Definition final_sigma (before after : string) : bool :=
  match skip_ignorable before with
  | Some c =>
      Unicode.is_cased c &&
      match skip_ignorable after with
      | Some c' => negb (Unicode.is_cased c')
      | None => true
      end
  | None => false
  end.

(** The lower case of the character [c] between [before] and [after] *)
Definition lower_at (before : string) (c : char) (after : string) : string :=
  if Char.eqb c capital_sigma
  then String (if final_sigma before after then small_final_sigma
               else small_sigma) EmptyString
  else Unicode.to_lower_full c.

Fixpoint lower_from (before s : string) : string :=
  match s with
  | EmptyString => EmptyString
  | String c s' => lower_at before c s' ++ lower_from (String c before) s'
  end.

(** [s.lower()] *)
Definition lower (s : string) : string := lower_from EmptyString s.

(** [s.replace(old, new)] for a non-empty [old]: scan from the left, at
    every position where [old] starts emit [new] and jump over [old];
    [skip] counts the characters of a matched [old] still to jump over. *)
Fixpoint replace_from (old new : string) (skip : nat) (s : string) : string :=
  match s with
  | EmptyString => EmptyString
  | String c s' =>
      match skip with
      | S k => replace_from old new k s'
      | O =>
          if String.prefix old s
          then new ++ replace_from old new (String.length old - 1) s'
          else String c (replace_from old new 0 s')
      end
  end.

(** With an empty [old] Python puts [new] before every character and at
    the end. *)
Fixpoint intersperse (new s : string) : string :=
  match s with
  | EmptyString => new
  | String c s' => new ++ String c (intersperse new s')
  end.

Definition replace (old new s : string) : string :=
  match old with
  | EmptyString => intersperse new s
  | _ => replace_from old new 0 s
  end.

(** [s.strip()]: drop leading and trailing white space. *)
Fixpoint lstrip (s : string) : string :=
  match s with
  | EmptyString => EmptyString
  | String c s' => if is_space c then lstrip s' else s
  end.

Fixpoint rstrip (s : string) : string :=
  match s with
  | EmptyString => EmptyString
  | String c s' =>
      match rstrip s' with
      | EmptyString => if is_space c then EmptyString else String c EmptyString
      | r => String c r
      end
  end.

Definition strip (s : string) : string := rstrip (lstrip s).

(** [s.title()]: a character that follows a cased character goes to lower
    case, any other to title case. *)
Fixpoint title_from (previous_is_cased : bool) (before s : string) : string :=
  match s with
  | EmptyString => EmptyString
  | String c s' =>
      (if previous_is_cased then lower_at before c s'
       else Unicode.to_title_full c)
      ++ title_from (Unicode.is_cased c) (String c before) s'
  end.

Definition title (s : string) : string := title_from false EmptyString s.

(** [sub in s] for strings. *)
Fixpoint contains (sub s : string) : bool :=
  String.prefix sub s ||
  match s with
  | EmptyString => false
  | String _ s' => contains sub s'
  end.

(** All characters of [s] satisfy [p]. *)
Fixpoint all (p : char -> bool) (s : string) : bool :=
  match s with
  | EmptyString => true
  | String c s' => p c && all p s'
  end.

(** [s[n:]] *)
Fixpoint drop (n : nat) (s : string) : string :=
  match n, s with
  | S n', String _ s' => drop n' s'
  | _, _ => s
  end.

(** [s[:n]] *)
Fixpoint take (n : nat) (s : string) : string :=
  match n, s with
  | S n', String c s' => String c (take n' s')
  | _, _ => EmptyString
  end.

End Str.

(** ** [FileDetection.normalize] *)

(** [name.lower().replace(": ", ":").replace(" ", "-")] *)
Definition normalize (name : string) : string :=
  Str.replace " " "-" (Str.replace ": " ":" (Str.lower name)).

(** The two replacements in one pass: a colon swallows the space that
    follows it, every other space becomes a hyphen. *)
Fixpoint collapse (s : string) : string :=
  match s with
  | EmptyString => EmptyString
  | String c s' =>
      if Char.eqb c ":" then
        match s' with
        | String c' s'' =>
            if Char.eqb c' " " then String ":" (collapse s'')
            else String ":" (collapse s')
        | EmptyString => String ":" EmptyString
        end
      else if Char.eqb c " " then String "-" (collapse s')
      else String c (collapse s')
  end.

(** The normalisation as the specification words it: the text in lower
    case, with every colon-space collapsed to a colon and every space left
    replaced by a hyphen. *)
Definition normalize_spec (s : string) : string := collapse (Str.lower s).

(** ** Exceptions and results *)

Inductive exn : Set :=
| JSONDecodeError
| RecursionError
| KeyError
| IndexError
| TypeError
| AttributeError
| ValueError
| CalledProcessError
| UnicodeDecodeError
| OtherError (msg : string).

Inductive result (A : Type) : Type :=
| Ok (a : A)
| Raise (e : exn).
Arguments Ok {A} a.
Arguments Raise {A} e.

#[global] Instance result_ret : MRet result := @Ok.
#[global] Instance result_bind : MBind result := fun A B f r =>
  match r with
  | Ok a => f a
  | Raise e => Raise e
  end.

(** ** Python floats

    A float is the exact rational value of a binary64 number, an infinity
    or NaN.  [round] is the rounding to the nearest binary64 number, ties
    to even, which every float operation ends with. *)

Module Float.

Inductive t : Set :=
| Fin (q : Q)
| Inf (negative : bool)
| NaN.

Local Open Scope Z_scope.

(** floor (log2 (n / d)) for positive [n] and [d] *)
Definition floor_log2 (n d : Z) : Z :=
  let e := Z.log2 n - Z.log2 d in
  if 0 <=? e
  then (if d * 2 ^ e <=? n then e else e - 1)
  else (if d <=? n * 2 ^ (- e) then e else e - 1).

(** The binary64 number nearest to [n / d], for positive [n] and [d]:
    53 bits of precision, exponents down to the subnormal 2^-1074,
    overflow to infinity from 2^1024.  The result is [m * 2^q]. *)
Definition round_pos (n d : Z) : Z * Z + unit :=
  let e := floor_log2 n d in
  let q := Z.max (e - 52) (-1074) in
  let num := if 0 <=? q then n else n * 2 ^ (- q) in
  let den := if 0 <=? q then d * 2 ^ q else d in
  let m := num / den in
  let r := num mod den in
  let m' := if (den <? 2 * r) || ((den =? 2 * r) && Z.odd m) then m + 1 else m in
  if 2 ^ (1024 - q) <=? m' then inr tt else inl (m', q).

(** [m * 2^q] as a reduced fraction *)
Definition scale (m q : Z) : Q :=
  Qred (if 0 <=? q then Qmake (m * 2 ^ q) 1 else Qmake m (Z.to_pos (2 ^ (- q)))).

Definition round (x : Q) : t :=
  let n := Qnum x in
  let d := Zpos (Qden x) in
  if n =? 0 then Fin 0
  else if 0 <? n then
    match round_pos n d with
    | inl (m, q) => Fin (scale m q)
    | inr _ => Inf false
    end
  else
    match round_pos (- n) d with
    | inl (m, q) => Fin (scale (- m) q)
    | inr _ => Inf true
    end.

(** [x > y] *)
Definition gt (x y : t) : bool :=
  match x, y with
  | NaN, _ | _, NaN => false
  | Inf true, _ => false
  | Inf false, Inf false => false
  | Inf false, _ => true
  | Fin _, Inf negative => negative
  | Fin a, Fin b => match Qcompare a b with Gt => true | _ => false end
  end.

(** [x * y] *)
Definition mul (x y : t) : t :=
  match x, y with
  | Fin a, Fin b => round (a * b)
  | NaN, _ | _, NaN => NaN
  | Inf s, Fin b | Fin b, Inf s =>
      match Qcompare b 0 with
      | Eq => NaN
      | Gt => Inf s
      | Lt => Inf (negb s)
      end
  | Inf s1, Inf s2 => Inf (xorb s1 s2)
  end.

(** The integer nearest to [x], ties to even. *)
Definition nearest_even (x : Q) : Z :=
  let d := Zpos (Qden x) in
  let m := Qnum x / d in
  let r := Qnum x mod d in
  if (d <? 2 * r) || ((d =? 2 * r) && Z.odd m) then m + 1 else m.

(** [round(x, ndigits)] for a non-negative number of digits: the decimal
    with [ndigits] places nearest to the exact value of [x], as a float. *)
Definition round_ndigits (x : t) (ndigits : nat) : t :=
  match x with
  | Fin a =>
      let p := 10 ^ Z.of_nat ndigits in
      round (Qmake (nearest_even (a * inject_Z p)) (Z.to_pos p))
  | _ => x
  end.

(** The float of a Python [int]. *)
Definition of_Z (z : Z) : t := round (inject_Z z).

(** The value of a string of decimal digits, of any script, [None] if
    another character occurs. *)
Fixpoint digits_value (acc : Z) (s : string) : option Z :=
  match s with
  | EmptyString => Some acc
  | String c s' =>
      match Unicode.decimal c with
      | Some d => digits_value (10 * acc + Z.of_N d) s'
      | None => None
      end
  end.

(** Split [s] at its first point. *)
Fixpoint split_point (s : string) : string * option string :=
  match s with
  | EmptyString => (EmptyString, None)
  | String c s' =>
      if Char.eqb c "."
      then (EmptyString, Some s')
      else let '(i, f) := split_point s' in (String c i, f)
  end.

(** [float(s)] on unsigned decimal literals: digits with an optional point,
    at least one digit; [float] reads a decimal digit of any script as
    the ASCII digit of its value.  The other spellings Python accepts (a
    sign, an exponent, inf, nan, underscores, surrounding blanks) are not
    modelled and count as a [ValueError], so the model fails at least as
    often as the code. *)
Definition of_string (s : string) : result t :=
  let '(i, f) := split_point s in
  let f' := match f with Some f' => f' | None => EmptyString end in
  match String.length (i ++ f'), digits_value 0 (i ++ f') with
  | S _, Some n =>
      Ok (round (Qmake n (Z.to_pos (10 ^ Z.of_nat (String.length f')))))
  | _, _ => Raise ValueError
  end.

End Float.

(** ** The subset of [re] the service uses

    Sequences and alternatives of character classes, greedy repetition of
    a class, optional and capturing groups, matched by backtracking in
    Python's order of preference. *)

Module Re.

Inductive regex : Type :=
| Chr (p : char -> bool)
| Star (p : char -> bool)
| Plus (p : char -> bool)
| Opt (r : regex)
| Alt (r1 r2 : regex)
| Seq (r1 r2 : regex)
| Group (r : regex).

Declare Scope regex_scope.
Delimit Scope regex_scope with re.
Infix "+>" := Seq (at level 60, right associativity) : regex_scope.

Definition lit (c : char) : regex := Chr (Char.eqb c).

(** The first [length s - length rest] characters of [s]: what was consumed
    between [s] and its suffix [rest]. *)
Definition consumed (s rest : string) : string :=
  Str.take (String.length s - String.length rest) s.

Section Matcher.
Context {R : Type}.

(** [p*]: the longest run first, then shorter ones. *)
Fixpoint star (p : char -> bool) (s : string) (k : string -> option R)
  : option R :=
  match s with
  | String c s' =>
      if p c then
        match star p s' k with
        | Some x => Some x
        | None => k s
        end
      else k s
  | EmptyString => k s
  end.

Definition plus (p : char -> bool) (s : string) (k : string -> option R)
  : option R :=
  match s with
  | String c s' => if p c then star p s' k else None
  | EmptyString => None
  end.

(** [run r s caps k]: match [r] at the start of [s] and hand the rest of
    the text and the groups closed so far to [k]; when [k] fails, the next
    alternative is tried. *)
Fixpoint run (r : regex) (s : string) (caps : list string)
    (k : string -> list string -> option R) : option R :=
  match r with
  | Chr p =>
      match s with
      | String c s' => if p c then k s' caps else None
      | EmptyString => None
      end
  | Star p => star p s (fun s' => k s' caps)
  | Plus p => plus p s (fun s' => k s' caps)
  | Opt r' =>
      match run r' s caps k with
      | Some x => Some x
      | None => k s caps
      end
  | Alt r1 r2 =>
      match run r1 s caps k with
      | Some x => Some x
      | None => run r2 s caps k
      end
  | Seq r1 r2 => run r1 s caps (fun s1 caps1 => run r2 s1 caps1 k)
  | Group r' =>
      run r' s caps (fun s1 caps1 => k s1 (caps1 ++ [consumed s s1]))
  end.
End Matcher.

(** A match: the matched text ([group(0)]), the groups, the text after. *)
Record rmatch : Type := { whole : string; groups : list string; after : string }.

Definition match_at (r : regex) (s : string) : option rmatch :=
  run r s [] (fun rest caps =>
    Some {| whole := consumed s rest; groups := caps; after := rest |}).

(** [re.search]: the match at the leftmost position that has one. *)
Fixpoint search (r : regex) (s : string) : option rmatch :=
  match match_at r s with
  | Some m => Some m
  | None =>
      match s with
      | EmptyString => None
      | String _ s' => search r s'
      end
  end.

(** [pattern.findall]: the groups of the successive non-overlapping
    matches, from left to right; [skip] counts the characters of the last
    match still to pass. *)
Fixpoint findall_from (r : regex) (skip : nat) (s : string) : list (list string) :=
  match s with
  | EmptyString =>
      match skip, match_at r s with
      | O, Some m => [groups m]
      | _, _ => []
      end
  | String _ s' =>
      match skip with
      | S k => findall_from r k s'
      | O =>
          match match_at r s with
          | Some m => groups m :: findall_from r (String.length (whole m) - 1) s'
          | None => findall_from r 0 s'
          end
      end
  end.

Definition findall (r : regex) (s : string) : list (list string) :=
  findall_from r 0 s.

(** Character classes of a [str] pattern *)
Definition any (_ : char) : bool := true.                          (* . with DOTALL *)
Definition dot (c : char) : bool := negb (Char.eqb c Char.line_feed). (* . *)
Definition digit : char -> bool := Str.is_decimal.                 (* \d *)
Definition space : char -> bool := Str.is_space.                   (* \s *)
Definition word (c : char) : bool :=                               (* \w *)
  Str.is_alnum c || Char.eqb c "_".

End Re.

(** ** JSON values and [json.loads]

    Numbers keep their literal: the service never computes with them.
    The decoder is the one of the C accelerator, which CPython uses.  The
    recursion limit of the interpreter is left out: the depth at which it
    strikes depends on the calls that lead to [process]. *)

#[warnings="-register-all"]
Inductive json : Type :=
| JNull
| JBool (b : bool)
| JNum (literal : string)
| JStr (s : string)
| JArr (items : list json)
| JObj (members : list (string * json)).

(** [d[k]] and [d[k] = v] on the members of a [dict], which keeps the
    order of first insertion. *)
Fixpoint dict_get (k : string) (d : list (string * json)) : option json :=
  match d with
  | [] => None
  | (k', v) :: d' => if String.eqb k k' then Some v else dict_get k d'
  end.

Fixpoint dict_set (k : string) (v : json) (d : list (string * json))
  : list (string * json) :=
  match d with
  | [] => [(k, v)]
  | (k', v') :: d' =>
      if String.eqb k k' then (k', v) :: d' else (k', v') :: dict_set k v d'
  end.

Module Json.

Import Re.
Local Open Scope regex_scope.
Local Open Scope string_scope.

Definition quote : char := Char.quote.
Definition backslash : char := Char.backslash.

(** WHITESPACE: blank, tab, line feed, carriage return *)
Definition is_ws (c : char) : bool :=
  Char.eqb c " " || Char.eqb c 9%N || Char.eqb c 10%N || Char.eqb c 13%N.

Fixpoint skip_ws (s : string) : string :=
  match s with
  | String c s' => if is_ws c then skip_ws s' else s
  | EmptyString => EmptyString
  end.

(** The digits of JSON are the ASCII ones. *)
Definition is_digit : char -> bool := Char.in_range "0" "9".

Definition hex_value (c : char) : option N :=
  if is_digit c then Some (c - 48)%N
  else if Char.in_range "a" "f" c then Some (c - 87)%N
  else if Char.in_range "A" "F" c then Some (c - 55)%N
  else None.

Definition hex4 (a b c d : char) : option N :=
  match hex_value a, hex_value b, hex_value c, hex_value d with
  | Some x, Some y, Some z, Some w => Some (((x * 16 + y) * 16 + z) * 16 + w)%N
  | _, _, _, _ => None
  end.

Definition is_high_surrogate (u : N) : bool := ((55296 <=? u) && (u <=? 56319))%N.
Definition is_low_surrogate (u : N) : bool := ((56320 <=? u) && (u <=? 57343))%N.
Definition join_surrogates (hi lo : N) : char :=
  (65536 + (hi - 55296) * 1024 + (lo - 56320))%N.

(** BACKSLASH: the one-character escapes *)
Definition unescape (e : char) : option char :=
  if Char.eqb e quote then Some quote
  else if Char.eqb e backslash then Some backslash
  else if Char.eqb e "/" then Some "/"%char
  else if Char.eqb e "b" then Some 8%N
  else if Char.eqb e "f" then Some 12%N
  else if Char.eqb e "n" then Some 10%N
  else if Char.eqb e "r" then Some 13%N
  else if Char.eqb e "t" then Some 9%N
  else None.

(** [scanstring] in strict mode, from the character after the opening
    quote: the decoded string and the text after the closing quote.  An
    escaped surrogate pair is one character, a lone surrogate stays. *)
Fixpoint scanstring (s : string) : result (string * string) :=
  match s with
  | EmptyString => Raise JSONDecodeError
  | String c s1 =>
      if Char.eqb c quote then Ok (EmptyString, s1)
      else if Char.eqb c backslash then
        match s1 with
        | EmptyString => Raise JSONDecodeError
        | String e s2 =>
            if Char.eqb e "u" then
              match s2 with
              | String h1 (String h2 (String h3 (String h4 s3))) =>
                  match hex4 h1 h2 h3 h4 with
                  | None => Raise JSONDecodeError
                  | Some uni =>
                      let lone :=
                        '(t, r) ← scanstring s3; Ok (String uni t, r) in
                      if is_high_surrogate uni then
                        match s3 with
                        | String b (String u (String l1 (String l2
                            (String l3 (String l4 s4))))) =>
                            if Char.eqb b backslash && Char.eqb u "u" then
                              match hex4 l1 l2 l3 l4 with
                              | None => Raise JSONDecodeError
                              | Some uni2 =>
                                  if is_low_surrogate uni2 then
                                    '(t, r) ← scanstring s4;
                                    Ok (String (join_surrogates uni uni2) t, r)
                                  else lone
                              end
                            else lone
                        | _ => lone
                        end
                      else lone
                  end
              | _ => Raise JSONDecodeError
              end
            else
              match unescape e with
              | Some c' => '(t, r) ← scanstring s2; Ok (String c' t, r)
              | None => Raise JSONDecodeError
              end
        end
      else if (c <? 32)%N then Raise JSONDecodeError
      else '(t, r) ← scanstring s1; Ok (String c t, r)
  end.

(** NUMBER_RE: an optional minus sign; a zero, or a digit from 1 to 9
    followed by digits; an optional point and digits; an optional exponent
    with an optional sign. *)
Definition number_re : regex :=
  Opt (lit "-") +>
  Alt (lit "0") (Chr (Char.in_range "1" "9") +> Star is_digit) +>
  Opt (lit "." +> Plus is_digit) +>
  Opt (Chr (fun c => Char.eqb c "e" || Char.eqb c "E") +>
       Opt (Chr (fun c => Char.eqb c "-" || Char.eqb c "+")) +>
       Plus is_digit).

(** A number without fraction and exponent is read by [int], which
    refuses, by default, more than 4300 digits. *)
Definition int_max_str_digits : nat := 4300.

Definition is_integer (literal : string) : bool :=
  Str.all (fun c => is_digit c || Char.eqb c "-") literal.

Definition int_digits (literal : string) : nat :=
  match literal with
  | String c digits =>
      if Char.eqb c "-" then String.length digits else String.length literal
  | EmptyString => 0
  end.

Definition too_long (literal : string) : bool :=
  is_integer literal && (int_max_str_digits <? int_digits literal)%nat.

(** The words that stand for a value: the three literals of JSON and
    the three non-finite numbers Python also reads. *)
Definition keywords : list (string * json) :=
  [("null", JNull); ("true", JBool true); ("false", JBool false);
   ("NaN", JNum "NaN"); ("Infinity", JNum "Infinity");
   ("-Infinity", JNum "-Infinity")].

(** [scan_once] reads one value at the start of [s]; [object_members]
    reads the members of an object from inside the quote of a key on, and
    [array_items] the items of an array from the start of an item on.
    Each nested call costs one unit of [fuel]. *)
Fixpoint scan_once (fuel : nat) (s : string) : result (json * string) :=
  match fuel with
  | O => Raise RecursionError
  | S fuel' =>
      match s with
      | EmptyString => Raise JSONDecodeError
      | String c s1 =>
          if Char.eqb c quote then
            '(str, r) ← scanstring s1; Ok (JStr str, r)
          else if Char.eqb c "{" then
            match skip_ws s1 with
            | String c' s2 =>
                if Char.eqb c' "}" then Ok (JObj [], s2)
                else if Char.eqb c' quote then object_members fuel' s2 []
                else Raise JSONDecodeError
            | EmptyString => Raise JSONDecodeError
            end
          else if Char.eqb c "[" then
            match skip_ws s1 with
            | String c' s2 =>
                if Char.eqb c' "]" then Ok (JArr [], s2)
                else array_items fuel' (String c' s2) []
            | EmptyString => Raise JSONDecodeError
            end
          else
            match match_at number_re s with
            | Some m =>
                if too_long (whole m) then Raise ValueError
                else Ok (JNum (whole m), after m)
            | None =>
                match find (fun kw => String.prefix (fst kw) s) keywords with
                | Some (w, v) => Ok (v, Str.drop (String.length w) s)
                | None => Raise JSONDecodeError
                end
            end
      end
  end
with object_members (fuel : nat) (s : string) (acc : list (string * json))
  : result (json * string) :=
  match fuel with
  | O => Raise RecursionError
  | S fuel' =>
      '(key, r) ← scanstring s;
      match skip_ws r with
      | String c r1 =>
          if Char.eqb c ":" then
            '(v, r2) ← scan_once fuel' (skip_ws r1);
            let acc' := dict_set key v acc in
            match skip_ws r2 with
            | String c' r3 =>
                if Char.eqb c' "}" then Ok (JObj acc', r3)
                else if Char.eqb c' "," then
                  match skip_ws r3 with
                  | String c'' r4 =>
                      if Char.eqb c'' quote then object_members fuel' r4 acc'
                      else Raise JSONDecodeError
                  | EmptyString => Raise JSONDecodeError
                  end
                else Raise JSONDecodeError
            | EmptyString => Raise JSONDecodeError
            end
          else Raise JSONDecodeError
      | EmptyString => Raise JSONDecodeError
      end
  end
with array_items (fuel : nat) (s : string) (acc : list json)
  : result (json * string) :=
  match fuel with
  | O => Raise RecursionError
  | S fuel' =>
      '(v, r) ← scan_once fuel' s;
      let acc' := (acc ++ [v])%list in
      match skip_ws r with
      | String c r1 =>
          if Char.eqb c "]" then Ok (JArr acc', r1)
          else if Char.eqb c "," then array_items fuel' (skip_ws r1) acc'
          else Raise JSONDecodeError
      | EmptyString => Raise JSONDecodeError
      end
  end.

(** [json.loads(s)]: one value, white space around it, nothing else.  A
    nested call comes after at most two others on the same character, so
    twice the length of the text is fuel enough. *)
Definition loads (s : string) : result json :=
  '(v, r) ← scan_once (S (2 * String.length s)) (skip_ws s);
  match skip_ws r with
  | EmptyString => Ok v
  | _ => Raise JSONDecodeError
  end.

End Json.

(** ** Dynamic operations on [Any]

    What the operators the service applies to decoded JSON do on each type
    of value, with the exception Python raises where it raises one. *)

Module Py.

(** [x.get(key, default)]: only a [dict] has the method. *)
Definition get (x : json) (key : string) (default : json) : result json :=
  match x with
  | JObj d => Ok (match dict_get key d with Some v => v | None => default end)
  | _ => Raise AttributeError
  end.

(** [len(x)] *)
Definition len (x : json) : result nat :=
  match x with
  | JArr l => Ok (List.length l)
  | JObj d => Ok (List.length d)
  | JStr s => Ok (String.length s)
  | _ => Raise TypeError
  end.

(** [x[key]] for a string [key] *)
Definition getitem (x : json) (key : string) : result json :=
  match x with
  | JObj d =>
      match dict_get key d with
      | Some v => Ok v
      | None => Raise KeyError
      end
  | _ => Raise TypeError
  end.

(** [x[i]] for a natural number [i]; the keys of a decoded object are
    strings, so no object has the key [i]. *)
Definition index (x : json) (i : nat) : result json :=
  match x with
  | JArr l =>
      match nth_error l i with
      | Some v => Ok v
      | None => Raise IndexError
      end
  | JStr s =>
      match String.get i s with
      | Some c => Ok (JStr (String c EmptyString))
      | None => Raise IndexError
      end
  | JObj _ => Raise KeyError
  | _ => Raise TypeError
  end.

(** [x == s] for a string [s]: only an equal string is equal to it. *)
Definition eq_str (x : json) (s : string) : bool :=
  match x with
  | JStr s' => String.eqb s' s
  | _ => false
  end.

(** [key in x]: a key of a [dict], an item of a [list], a substring of a
    [str]. *)
Definition contains (key : string) (x : json) : result bool :=
  match x with
  | JObj d => Ok (match dict_get key d with Some _ => true | None => false end)
  | JArr l => Ok (existsb (fun v => eq_str v key) l)
  | JStr s => Ok (Str.contains key s)
  | _ => Raise TypeError
  end.

Fixpoint chars (s : string) : list json :=
  match s with
  | EmptyString => []
  | String c s' => JStr (String c EmptyString) :: chars s'
  end.

(** [for v in x]: the items of a [list], the keys of a [dict], the
    characters of a [str]. *)
Definition iter (x : json) : result (list json) :=
  match x with
  | JArr l => Ok l
  | JObj d => Ok (map (fun kv => JStr (fst kv)) d)
  | JStr s => Ok (chars s)
  | _ => Raise TypeError
  end.

(** [FileDetection.normalize(x)]: [x.lower()] exists on a [str] only. *)
Definition normalize (x : json) : result string :=
  match x with
  | JStr s => Ok (normalize s)
  | _ => Raise AttributeError
  end.

End Py.

(** ** The world of the service: its log and the tasks it has sent *)

Inductive level : Set := ERROR | INFO.

Record Resource : Set := {
  res_name : string;
  res_sha256 : option string
}.

(** One element of the [trid] attribute *)
Record TridEntry : Set := {
  percentage : Float.t;
  extension : string;
  name : string
}.

(** What [Magika().identify_path] returns, and the element of the
    [magika] attribute made from it *)
Record MagikaResult : Set := {
  output_label : string;
  output_description : string;
  output_extensions : list string;
  output_group : string;
  magika_score : Float.t
}.

Record MagikaEntry : Set := {
  label : string;
  description : string;
  extensions : list string;
  group : string;
  score : Float.t
}.

Record Attributes : Type := {
  die : list json;
  trid : list TridEntry;
  magika : list MagikaEntry
}.

Record Task : Type := {
  headers : list (string * string);
  sample : Resource;
  tags : list string;
  attributes : Attributes
}.

Record world : Type := {
  logged : list (level * string);
  sent : list Task
}.

(** A computation of the service: it changes the world and returns a
    value or raises; what it did before raising stays done. *)
Definition M (A : Type) : Type := world -> world * result A.

#[global] Instance M_ret : MRet M := fun A a w => (w, Ok a).
#[global] Instance M_bind : MBind M := fun A B f m w =>
  match m w with
  | (w', Ok a) => f a w'
  | (w', Raise e) => (w', Raise e)
  end.

Definition lift {A} (r : result A) : M A := fun w => (w, r).

Definition log (lv : level) (msg : string) : M unit := fun w =>
  ({| logged := logged w ++ [(lv, msg)]; sent := sent w |}, Ok tt).

Definition send_task (t : Task) : M unit := fun w =>
  ({| logged := logged w; sent := sent w ++ [t] |}, Ok tt).

(** The outside of the service: the temporary file of a sample, the two
    detectors run through [subprocess.check_output(...).decode("utf-8")],
    and Magika. *)
Record env : Type := {
  download_temporary_file : Resource -> result string;
  check_output : list string -> result string;
  identify_path : string -> result MagikaResult
}.

(** ** [FileDetection] *)

Definition TRID_CUTOFF : Z := 5.

Import Re.

(** [r"\{.*\}"] with [re.DOTALL] *)
Definition die_pattern : regex :=
  (lit "{" +> Star any +> lit "}")%re.

(** [r"(\d+(?:\.\d+)?)%\s+\((\.\w+)\)\s+(.+)"] *)
Definition trid_pattern : regex :=
  (Group (Plus digit +> Opt (lit "." +> Plus digit)) +> lit "%" +>
   Plus space +> lit "(" +> Group (lit "." +> Plus word) +> lit ")" +>
   Plus space +> Group (Plus dot))%re.

(** The value of [x] in an f-string, for an optional string *)
Definition fmt (x : option string) : string :=
  match x with
  | Some s => s
  | None => "None"
  end.

(** [sample_resource.sha256 or sample_resource.name] *)
Definition sha256_or_name (r : Resource) : string :=
  match res_sha256 r with
  | Some (String c s) => String c s
  | _ => res_name r
  end.

Section FileDetection.

(** [list(tags)]: the order in which Python iterates over a set is not
    specified; any order is allowed for. *)
Variable list_of_set : gset string -> list string.
Hypothesis list_of_set_perm : forall X, list_of_set X ≡ₚ elements X.

(** The body of the inner loop of [get_tags_from_die], for one [packer] *)
Definition tags_of_packer (tags : gset string) (packer : json)
  : result (gset string) :=
  has_type ← Py.contains "type" packer;
  has_name ← (if has_type : bool then Py.contains "name" packer else Ok false);
  if has_name : bool then
    ty ← Py.getitem packer "type";
    packer_type ← Py.normalize ty;
    nm ← Py.getitem packer "name";
    packer_name ← Py.normalize nm;
    if String.eqb packer_type "unknown" || String.eqb packer_name "unknown"
    then Ok tags
    else if String.eqb packer_type "malware"
            && negb (String.eqb packer_name "unknown")
    then Ok ({[ packer_name ]} ∪ tags)
    else Ok ({[ (packer_type ++ ":" ++ packer_name)%string ]} ∪ tags)
  else Ok tags.

Fixpoint tags_of_values (tags : gset string) (values : list json)
  : result (gset string) :=
  match values with
  | [] => Ok tags
  | packer :: rest =>
      tags' ← tags_of_packer tags packer;
      tags_of_values tags' rest
  end.

(** The outer loop of [get_tags_from_die] *)
Fixpoint tags_of_detects (tags : gset string) (die_data : list json)
  : result (gset string) :=
  match die_data with
  | [] => Ok tags
  | detected :: rest =>
      has_values ← Py.contains "values" detected;
      if negb has_values then tags_of_detects tags rest
      else
        values ← Py.getitem detected "values";
        packers ← Py.iter values;
        tags' ← tags_of_values tags packers;
        tags_of_detects tags' rest
  end.

Definition get_tags_from_die (die_data : list json) : result (list string) :=
  tags ← tags_of_detects ∅ die_data;
  Ok (list_of_set tags).

(** The loop of [extract_json_output_from_die] over
    [parsed_data["detects"]] *)
Fixpoint die_loop (detects : list json) (output : list json)
  : result (list json) :=
  match detects with
  | [] => Ok output
  | detected :: rest =>
      values ← Py.get detected "values" (JArr []);
      n ← Py.len values;
      if Nat.eqb n 0 then die_loop rest output
      else
        values' ← Py.get detected "values" (JArr []);
        n' ← Py.len values';
        unknown ←
          (if Nat.eqb n' 1 then
             values'' ← Py.getitem detected "values";
             first ← Py.index values'' 0;
             ty ← Py.getitem first "type";
             Ok (Py.eq_str ty "Unknown")
           else Ok false);
        if unknown : bool then die_loop rest output
        else die_loop rest (output ++ [detected])
  end.

Definition extract_json_output_from_die (die_data sample_hash : string)
  : M (list json) :=
  match die_data with
  | EmptyString => mret []
  | _ =>
      match search die_pattern die_data with
      | None =>
          log ERROR ("Could not find JSON object in DiE output for "
                     ++ sample_hash)%string;;
          mret []
      | Some m =>
          let json_str := whole m in
          parsed_data ← lift (Json.loads json_str);
          has_detects ← lift (Py.contains "detects" parsed_data);
          if negb has_detects then
            log ERROR (sample_hash
                       ++ " failed running file-detection. Error code 01")%string;;
            mret []
          else
            detects ← lift (Py.getitem parsed_data "detects");
            items ← lift (Py.iter detects);
            lift (die_loop items [])
      end
  end.

(** The list comprehension of [extract_json_output_from_trid], before
    its reversal *)
Fixpoint trid_entries (matches : list (list string)) : result (list TridEntry) :=
  match matches with
  | [] => Ok []
  | [percent; ext; name] :: rest =>
      p ← Float.of_string percent;
      if Float.gt p (Float.of_Z TRID_CUTOFF) then
        p' ← Float.of_string percent;
        entries ← trid_entries rest;
        Ok ({| percentage := p'; extension := ext; name := Str.strip name |}
            :: entries)
      else trid_entries rest
  | _ :: _ => Raise ValueError
  end.

Definition extract_json_output_from_trid (trid_data sample_hash : string)
  : M (list TridEntry) :=
  match trid_data with
  | EmptyString => mret []
  | _ =>
      match findall trid_pattern trid_data with
      | [] =>
          log ERROR ("Could not find JSON object in TrID output for "
                     ++ sample_hash)%string;;
          mret []
      | matches =>
          entries ← lift (trid_entries matches);
          mret (rev entries)
      end
  end.

(** The element of the [magika] attribute *)
Definition magika_entry (magika_data : MagikaResult) : MagikaEntry :=
  {| label := Str.title (output_label magika_data);
     description := output_description magika_data;
     extensions := output_extensions magika_data;
     group := output_group magika_data;
     score := Float.round_ndigits
                (Float.mul (magika_score magika_data) (Float.of_Z 100)) 2 |}.

(** The [with] block of [process]: the three detectors, in order *)
Definition detect (E : env) (sample_resource : Resource)
  : M (list json * list TridEntry * list MagikaEntry) :=
  f_name ← lift (download_temporary_file E sample_resource);
  die_data ← lift (check_output E
                ["/usr/bin/diec"; "-j"; "-d"; "-u"; "-g"; "-a"; f_name]);
  die_json ← extract_json_output_from_die die_data
                (sha256_or_name sample_resource);
  trid_data ← lift (check_output E ["/usr/local/bin/trid"; f_name]);
  trid_json ← extract_json_output_from_trid trid_data
                (sha256_or_name sample_resource);
  magika_data ← lift (identify_path E f_name);
  let magika_json := [magika_entry magika_data] in
  mret (die_json, trid_json, magika_json).

(** The end of [process], from the test of the three lists on *)
Definition forward (sample_resource : Resource) (die_json : list json)
    (trid_json : list TridEntry) (magika_json : list MagikaEntry) : M unit :=
  match die_json, trid_json, magika_json with
  | [], [], [] => mret tt
  | _, _, _ =>
      tags ← lift (get_tags_from_die die_json);
      send_task
        {| headers := [("type", "sample"); ("stage", "analyzed")];
           sample := sample_resource;
           tags := tags;
           attributes :=
             {| die := die_json; trid := trid_json; magika := magika_json |} |};;
      log INFO ("Successfully pushed DiE, TrID, and Magika data for "
                ++ fmt (res_sha256 sample_resource))%string
  end.

Definition process (E : env) (sample_resource : Resource) : M unit :=
  '(die_json, trid_json, magika_json) ← detect E sample_resource;
  log INFO ("Successfully perform DiE, TrID, and Magika on "
            ++ fmt (res_sha256 sample_resource))%string;;
  forward sample_resource die_json trid_json magika_json.

End FileDetection.

(** ** The vocabulary of the statements *)

(** A character that lower-casing leaves alone, wherever it stands: its
    lower case is the character itself. *)
Definition lowered (c : char) : bool :=
  String.eqb (Unicode.to_lower_full c) (String c EmptyString).

(** A character that normalisation leaves alone: it is in lower case and
    it is no space. *)
Definition settled (c : char) : bool :=
  lowered c && negb (Char.eqb c " ").

(** [p] holds of the [n] characters from [c] on. *)
Fixpoint all_from (p : char -> bool) (n : nat) (c : char) : bool :=
  match n with
  | O => true
  | S n' => if p c then all_from p n' (N.succ c) else false
  end.

(** The images of a run of a case mapping all satisfy [p]. *)
Definition run_images (p : char -> bool) (run : N * N * N * N) : bool :=
  let '(lo, hi, step, target) := run in
  all_from (fun c => if ((c - lo) mod step =? 0)%N then p (target + (c - lo))%N
                     else true)
           (N.to_nat (hi - lo + 1)) lo.

(** The texts a pattern matches, with the groups closed inside in the
    order of their closing: the declarative reading of [Re.run]. *)
Inductive matches : Re.regex -> string -> list string -> Prop :=
| matches_chr p c :
    p c = true -> matches (Re.Chr p) (String c EmptyString) []
| matches_star p t :
    Str.all p t = true -> matches (Re.Star p) t []
| matches_plus p c t :
    p c = true -> Str.all p t = true -> matches (Re.Plus p) (String c t) []
| matches_opt_some r t g :
    matches r t g -> matches (Re.Opt r) t g
| matches_opt_none r :
    matches (Re.Opt r) EmptyString []
| matches_alt_l r1 r2 t g :
    matches r1 t g -> matches (Re.Alt r1 r2) t g
| matches_alt_r r1 r2 t g :
    matches r2 t g -> matches (Re.Alt r1 r2) t g
| matches_seq r1 r2 t1 t2 g1 g2 :
    matches r1 t1 g1 -> matches r2 t2 g2 ->
    matches (Re.Seq r1 r2) (t1 ++ t2)%string (g1 ++ g2)
| matches_group r t g :
    matches r t g -> matches (Re.Group r) t (g ++ [t]).

(** One or more decimal digits, of any script *)
Definition digits (d : string) : Prop :=
  d <> EmptyString /\ Str.all Str.is_decimal d = true.

(** Digits with an optional fractional part *)
Definition decimal (p : string) : Prop :=
  exists i, digits i /\
    (p = i \/ exists f, digits f /\ p = (i ++ "." ++ f)%string).

(** What [die_pattern] still has to match after the opening brace of a
    match in [s] and a run of characters: the closing brace. *)
Definition close_brace (s : string) (s1 : string) : option Re.rmatch :=
  Re.run (Re.lit "}") s1 []
    (fun rest caps =>
       Some {| Re.whole := Re.consumed s rest; Re.groups := caps;
               Re.after := rest |}).

(** JSON text is written with an apostrophe for every double quote. *)
Fixpoint dq (s : string) : string :=
  match s with
  | EmptyString => EmptyString
  | String c s' => String (if Char.eqb c "'" then Json.quote else c) (dq s')
  end.

(** *** Findings of the signature detector *)

(** The values of a finding: the items of its [values] array, and none
    when it has no such field. *)
Definition finding_values (detected : json) : list json :=
  match detected with
  | JObj d =>
      match dict_get "values" d with
      | Some (JArr vs) => vs
      | _ => []
      end
  | _ => []
  end.

(** The [type] field of a value is the string [s]. *)
Definition type_is (v : json) (s : string) : bool :=
  match v with
  | JObj d =>
      match dict_get "type" d with
      | Some ty => Py.eq_str ty s
      | None => false
      end
  | _ => false
  end.

(** The filter of the specification: a finding with no value, or with
    exactly one value whose type is the literal Unknown, is dropped. *)
Definition informative (detected : json) : bool :=
  match finding_values detected with
  | [] => false
  | [v] => negb (type_is v "Unknown")
  | _ => true
  end.

Definition has_type (v : json) : bool :=
  match v with
  | JObj d => match dict_get "type" d with Some _ => true | None => false end
  | _ => false
  end.

(** A finding as DiE writes it: an object whose [values], when present, is
    an array, a sole value being a record with a [type]. *)
Definition is_finding (detected : json) : bool :=
  match detected with
  | JObj d =>
      match dict_get "values" d with
      | None => true
      | Some (JArr [v]) => has_type v
      | Some (JArr _) => true
      | Some _ => false
      end
  | _ => false
  end.

(** *** Tags *)

(** The rule of the specification, on a normalised type and name. *)
Definition tag_of (packer_type packer_name : string) : option string :=
  if String.eqb packer_type "unknown" || String.eqb packer_name "unknown"
  then None
  else if String.eqb packer_type "malware" then Some packer_name
  else Some (packer_type ++ ":" ++ packer_name)%string.

(** The [type] and the [name] of a value that has both. *)
Definition type_and_name (v : json) : option (json * json) :=
  match v with
  | JObj d =>
      match dict_get "type" d, dict_get "name" d with
      | Some ty, Some nm => Some (ty, nm)
      | _, _ => None
      end
  | _ => None
  end.

(** The tag a value gives, if any. *)
Definition value_tag (v : json) : option string :=
  match type_and_name v with
  | Some (JStr ty, JStr nm) => tag_of (normalize ty) (normalize nm)
  | _ => None
  end.

(** A value whose [type] and [name], when it has both, are strings, and a
    finding made of such values. *)
Definition is_typed_value (v : json) : bool :=
  match v with
  | JObj _ =>
      match type_and_name v with
      | Some (JStr _, JStr _) | None => true
      | Some _ => false
      end
  | _ => false
  end.

Definition is_typed_finding (detected : json) : bool :=
  match detected with
  | JObj d =>
      match dict_get "values" d with
      | None => true
      | Some (JArr vs) => forallb is_typed_value vs
      | Some _ => false
      end
  | _ => false
  end.

(** *** Matches of the heuristic detector *)

(** The entry made from the groups of one match of [trid_pattern]. *)
Definition is_entry_of (g : list string) (m : TridEntry) : Prop :=
  exists percent ext nm,
    g = [percent; ext; nm]
    /\ Float.of_string percent = Ok (percentage m)
    /\ extension m = ext
    /\ name m = Str.strip nm.

(** A percentage strictly greater than 5.0 *)
Definition above_cutoff (m : TridEntry) : bool :=
  Float.gt (percentage m) (Float.Fin 5).

(** *** Logging *)

Definition log_to (w : world) (lv : level) (msg : string) : world :=
  {| logged := logged w ++ [(lv, msg)]; sent := sent w |}.

(** The tags of all the values of all the findings, in order, repeated as
    often as they are given. *)
Definition derived_tags (die_data : list json) : list string :=
  omap value_tag (die_data ≫= finding_values).

(** A finding with the one value of the given type and name. *)
Definition finding_of (ty nm : string) : json :=
  JObj [("values", JArr [JObj [("type", JStr ty); ("name", JStr nm)]])].

(** A computation that sends nothing. *)
Definition quiet {A} (m : M A) : Prop :=
  forall w w' r, m w = (w', r) -> sent w' = sent w.

(** What a scanner of JSON text may do: raise a decoding error, raise
    the error of an integer with too many digits, or return with at most
    [bound] characters left. *)
Definition scans {A} (x : result (A * string)) (bound : nat) : Prop :=
  (forall e, x = Raise e -> e = JSONDecodeError \/ e = ValueError)
  /\ (forall v r, x = Ok (v, r) -> String.length r <= bound).

(** *** Sample runs *)

Definition example_sample : Resource :=
  {| res_name := "sample.bin"; res_sha256 := Some "9f86d081884c7d65" |}.

Definition example_magika (lbl : string) : MagikaResult :=
  {| output_label := lbl;
     output_description := "a description";
     output_extensions := ["exe"; "dll"];
     output_group := "executable";
     magika_score := Float.round (99 # 100) |}.

(** An outside in which DiE prints [die_out], TrID prints [trid_out] and
    Magika answers [magika_data]. *)
Definition example_env (die_out trid_out : string) (magika_data : MagikaResult)
  : env :=
  {| download_temporary_file := fun _ => Ok "/tmp/sample";
     check_output := fun argv =>
       if String.eqb (hd EmptyString argv) "/usr/bin/diec" then Ok die_out
       else if String.eqb (hd EmptyString argv) "/usr/local/bin/trid"
       then Ok trid_out
       else Raise CalledProcessError;
     identify_path := fun _ => Ok magika_data |}.

Definition empty_world : world := {| logged := []; sent := [] |}.

(** DiE and TrID on a file they do not know *)
Definition die_unknown : string :=
  dq "{'detects':[{'filetype':'Binary','values':[{'type':'Unknown','name':'Unknown'}]}]}".

Definition trid_unknown : string :=
  "Collecting data from file: /tmp/sample
       Unknown!
".

(** DiE and TrID on a packed executable *)
Definition die_packed : string :=
  dq "[!] log {'detects':[{'filetype':'PE32','values':[{'type':'Packer','name':'UPX'},{'type':'Compiler','name':'Visual C: C++'}]},{'values':[]}]} ".

Definition trid_packed : string :=
  "Collecting data from file: /tmp/sample
 80.0% (.EXE) UPX compressed Win32 Executable
 12.5% (.DLL) Win32 Dynamic Link Library
  3.0% (.BIN) Generic binary
".

(** ** Class attributes *)

(** [FileDetection.filters] *)
Definition filters : list (list (string * string)) :=
  [ [("type", "sample"); ("stage", "recognized")] ].

(** The value of a header *)
Fixpoint header (k : string) (hs : list (string * string)) : option string :=
  match hs with
  | [] => None
  | (k', v) :: hs' => if String.eqb k k' then Some v else header k hs'
  end.

(** ** More vocabulary *)

(** The capital I with a dot above, the one character whose lower case
    is two characters *)
Definition capital_i_with_dot : char := 304%N.

(** The number of times [c] occurs in [s] *)
Fixpoint occurrences (c : char) (s : string) : nat :=
  match s with
  | EmptyString => 0
  | String c' s' => (if Char.eqb c' c then 1 else 0) + occurrences c s'
  end.

(** A finding that is an object with a non-empty [values]. *)
Definition has_values (x : json) : Prop :=
  exists d v n,
    x = JObj d /\ dict_get "values" d = Some v /\ Py.len v = Ok (S n).

Definition is_object (x : json) : bool :=
  match x with
  | JObj _ => true
  | _ => false
  end.

Definition is_str (x : json) : bool :=
  match x with
  | JStr _ => true
  | _ => false
  end.

(** A dot followed by one or more word characters *)
Definition is_extension (e : string) : Prop :=
  exists c w, e = String "." (String c w) /\ Str.all Re.word (String c w) = true.

(** The two lines [process] logs at level INFO *)
Definition performed (r : Resource) : level * string :=
  (INFO, ("Successfully perform DiE, TrID, and Magika on "
          ++ fmt (res_sha256 r))%string).

Definition pushed (r : Resource) : level * string :=
  (INFO, ("Successfully pushed DiE, TrID, and Magika data for "
          ++ fmt (res_sha256 r))%string).

(** The task [process] sends *)
Definition analyzed (r : Resource) (tag_list : list string)
    (die_json : list json) (trid_json : list TridEntry)
    (magika_data : MagikaResult) : Task :=
  {| headers := [("type", "sample"); ("stage", "analyzed")];
     sample := r;
     tags := tag_list;
     attributes := {| die := die_json; trid := trid_json;
                      magika := [magika_entry magika_data] |} |}.

(** An entry as [extract_json_output_from_trid] builds it: above the
    cut-off, with an extension, and with a name that is stripped and holds
    no line feed. *)
Definition well_formed_entry (e : TridEntry) : Prop :=
  above_cutoff e = true
  /\ is_extension (extension e)
  /\ Str.strip (name e) = name e
  /\ Str.all Re.dot (name e) = true.

(** An outside given by the outcome of each of its four calls. *)
Definition outside (download : result string) (die_out trid_out : result string)
    (magika_out : result MagikaResult) : env :=
  {| download_temporary_file := fun _ => download;
     check_output := fun argv =>
       if String.eqb (hd EmptyString argv) "/usr/bin/diec" then die_out
       else trid_out;
     identify_path := fun _ => magika_out |}.

(** DiE output with a finding of two values, one with a number as type *)
Definition die_bad_type : string :=
  dq "{'detects':[{'values':[{'type':1,'name':'a'},{'type':'b','name':'c'}]}]}".

(** What the two extractions return on the packed executable *)
Definition die_packed_json : list json :=
  Eval vm_compute in
    match snd (extract_json_output_from_die die_packed "9f86" empty_world) with
    | Ok findings => findings
    | Raise _ => []
    end.

Definition trid_packed_entries : list TridEntry :=
  Eval vm_compute in
    match snd (extract_json_output_from_trid trid_packed "9f86" empty_world) with
    | Ok entries => entries
    | Raise _ => []
    end.

(** * Properties *)

(** ** Characters and strings *)

Section Text.

Local Open Scope string_scope.

Lemma char_eqb_spec (c d : char) : reflect (c = d) (Char.eqb c d).
Proof. apply N.eqb_spec. Qed.

Lemma char_eqb_eq (c d : char) : Char.eqb c d = true <-> c = d.
Proof. apply N.eqb_eq. Qed.

Lemma char_eqb_refl (c : char) : Char.eqb c c = true.
Proof. apply N.eqb_refl. Qed.

Lemma char_eqb_sym (c d : char) : Char.eqb c d = Char.eqb d c.
Proof. apply N.eqb_sym. Qed.

Lemma string_eqb_eq s1 s2 : String.eqb s1 s2 = true <-> s1 = s2.
Proof.
  revert s2. induction s1 as [|c1 s1 IH]; intros [|c2 s2]; cbn [String.eqb];
    try done.
  rewrite andb_true_iff, char_eqb_eq, IH. split.
  - by intros [-> ->].
  - by intros [= -> ->].
Qed.

Lemma string_eqb_refl s : String.eqb s s = true.
Proof. by apply string_eqb_eq. Qed.

Lemma string_eqb_neq s1 s2 : String.eqb s1 s2 = false <-> s1 <> s2.
Proof.
  rewrite <- string_eqb_eq. by destruct (String.eqb s1 s2).
Qed.

Lemma string_eqb_spec s1 s2 : reflect (s1 = s2) (String.eqb s1 s2).
Proof.
  destruct (String.eqb s1 s2) eqn:H; constructor.
  - by apply string_eqb_eq.
  - by apply string_eqb_neq.
Qed.

Lemma append_nil_r s : s ++ EmptyString = s.
Proof. induction s as [|c s IH]; cbn; congruence. Qed.

Lemma append_assoc s1 s2 s3 : (s1 ++ s2) ++ s3 = s1 ++ (s2 ++ s3).
Proof. induction s1 as [|c s1 IH]; cbn; congruence. Qed.

Lemma length_append s1 s2 :
  String.length (s1 ++ s2) = String.length s1 + String.length s2.
Proof. induction s1 as [|c s1 IH]; cbn; congruence. Qed.

Lemma take_append s1 s2 : Str.take (String.length s1) (s1 ++ s2) = s1.
Proof.
  induction s1 as [|c s1 IH]; cbn; [done|]. by rewrite IH.
Qed.

Lemma consumed_append t rest : Re.consumed (t ++ rest) rest = t.
Proof.
  unfold Re.consumed. rewrite length_append.
  replace (String.length t + String.length rest - String.length rest)
    with (String.length t) by lia.
  apply take_append.
Qed.

Lemma all_append p s1 s2 :
  Str.all p (s1 ++ s2) = Str.all p s1 && Str.all p s2.
Proof.
  induction s1 as [|c s1 IH]; cbn; [reflexivity|].
  by rewrite IH, andb_assoc.
Qed.

Lemma all_impl (p q : char -> bool) s :
  (forall c, p c = true -> q c = true) ->
  Str.all p s = true -> Str.all q s = true.
Proof.
  intros Hpq. induction s as [|c s IH]; [done|]. cbn [Str.all].
  intros [Hc Hs]%andb_prop. by rewrite (Hpq c Hc), IH.
Qed.

Lemma all_of_list p l : Str.all p (String.of_list l) = forallb p l.
Proof. induction l as [|c l IH]; cbn; congruence. Qed.

Lemma contains_char_cons c c' s :
  Str.contains (String c EmptyString) (String c' s) =
  Char.eqb c c' || Str.contains (String c EmptyString) s.
Proof. cbn [Str.contains String.prefix]. by rewrite andb_true_r. Qed.

Lemma contains_char_nil c : Str.contains (String c EmptyString) EmptyString = false.
Proof. reflexivity. Qed.

End Text.

(** ** The case mappings *)

Section CaseMapping.

Local Open Scope N_scope.

Lemma all_from_spec (p : char -> bool) n : forall c,
  all_from p n c = true ->
  forall d, c <= d < c + N.of_nat n -> p d = true.
Proof.
  induction n as [|n IH]; intros c Hall d Hd; [lia|].
  cbn [all_from] in Hall. destruct (p c) eqn:Hp; [|done].
  destruct (N.eq_dec d c) as [->|Hne]; [done|].
  apply (IH _ Hall). lia.
Qed.

(** A character found in a table of runs is in one of its runs. *)
Lemma find_run_image c runs d :
  Unicode.find_run c runs = Some d ->
  exists lo hi step target,
    In (lo, hi, step, target) runs
    /\ lo <= c <= hi /\ (c - lo) mod step = 0 /\ d = target + (c - lo).
Proof.
  induction runs as [|[[[lo hi] step] target] runs IH]; [done|].
  cbn [Unicode.find_run]. destruct (N.ltb_spec c lo); [done|].
  destruct (N.leb_spec c hi); cbn [andb].
  - destruct (N.eqb_spec ((c - lo) mod step) 0).
    + intros [= <-]. exists lo, hi, step, target. by repeat split; [left|..].
    + intros (lo' & hi' & step' & target' & Hin & Hrun)%IH.
      exists lo', hi', step', target'. by split; [right|].
  - intros (lo' & hi' & step' & target' & Hin & Hrun)%IH.
    exists lo', hi', step', target'. by split; [right|].
Qed.

Lemma run_images_spec (p : char -> bool) runs c d :
  forallb (run_images p) runs = true ->
  Unicode.find_run c runs = Some d -> p d = true.
Proof.
  intros Hruns (lo & hi & step & target & Hin & Hc & Hstep & ->)%find_run_image.
  rewrite forallb_forall in Hruns. specialize (Hruns _ Hin).
  cbn [run_images] in Hruns.
  assert (H := all_from_spec _ _ _ Hruns c). cbv beta in H.
  rewrite Hstep in H. apply H. lia.
Qed.

Lemma find_full_In c table image :
  Unicode.find_full c table = Some image -> In (c, image) table.
Proof.
  induction table as [|[c' image'] table IH]; [done|].
  cbn [Unicode.find_full]. destruct (N.eqb_spec c c') as [->|].
  - intros [= ->]. by left.
  - intros H. right. by apply IH.
Qed.

End CaseMapping.

(** ** [str.lower] *)

Section Lower.

Local Open Scope string_scope.

Lemma lowercase_lowered :
  forallb (run_images lowered) Unicode.lowercase = true.
Proof. vm_compute. reflexivity. Qed.

Lemma lowercase_full_lowered :
  forallb (fun entry => forallb lowered (snd entry)) Unicode.lowercase_full
  = true.
Proof. vm_compute. reflexivity. Qed.

(** Lower-casing is done after one step: the lower case of a character is
    made of characters in lower case. *)
Lemma to_lower_full_lowered c :
  Str.all lowered (Unicode.to_lower_full c) = true.
Proof.
  unfold Unicode.to_lower_full, Unicode.case_mapping.
  destruct (Unicode.find_full c Unicode.lowercase_full) as [image|] eqn:Hfull.
  - apply find_full_In in Hfull. rewrite all_of_list.
    pose proof lowercase_full_lowered as H. rewrite forallb_forall in H.
    apply (H _ Hfull).
  - destruct (Unicode.find_run c Unicode.lowercase) as [d|] eqn:Hrun.
    + cbn [Str.all]. by rewrite (run_images_spec _ _ _ _ lowercase_lowered Hrun).
    + cbn [Str.all]. rewrite andb_true_r. unfold lowered.
      unfold Unicode.to_lower_full, Unicode.case_mapping.
      rewrite Hfull, Hrun. apply string_eqb_refl.
Qed.

Lemma lowered_not_sigma c :
  lowered c = true -> Char.eqb c Str.capital_sigma = false.
Proof.
  intros H. destruct (char_eqb_spec c Str.capital_sigma) as [->|]; [|done].
  by vm_compute in H.
Qed.

Lemma lower_at_lowered before c after :
  lowered c = true -> Str.lower_at before c after = String c EmptyString.
Proof.
  intros H. unfold Str.lower_at. rewrite (lowered_not_sigma c H).
  by apply string_eqb_eq.
Qed.

Lemma lower_at_all_lowered before c after :
  Str.all lowered (Str.lower_at before c after) = true.
Proof.
  unfold Str.lower_at. destruct (Char.eqb c Str.capital_sigma).
  - by destruct (Str.final_sigma before after); vm_compute.
  - apply to_lower_full_lowered.
Qed.

Lemma lower_from_all_lowered s : forall before,
  Str.all lowered (Str.lower_from before s) = true.
Proof.
  induction s as [|c s IH]; intros before; [done|].
  cbn [Str.lower_from]. by rewrite all_append, lower_at_all_lowered, IH.
Qed.

Lemma lower_from_fixes s : forall before,
  Str.all lowered s = true -> Str.lower_from before s = s.
Proof.
  induction s as [|c s IH]; intros before; [done|].
  cbn [Str.all Str.lower_from]. intros [Hc Hs]%andb_prop.
  by rewrite (lower_at_lowered _ _ _ Hc), (IH _ Hs).
Qed.

(** The lower case of a text is in lower case, and a text in lower case
    is its own lower case. *)
Lemma lower_lowered s : Str.all lowered (Str.lower s) = true.
Proof. apply lower_from_all_lowered. Qed.

Lemma lower_fixes s : Str.all lowered s = true -> Str.lower s = s.
Proof. apply lower_from_fixes. Qed.

End Lower.

(** ** [normalize] *)

Section Normalize.

Local Open Scope string_scope.

Lemma settled_lowered c : settled c = true -> lowered c = true.
Proof. by intros [? _]%andb_prop. Qed.

Lemma settled_not_space c : settled c = true -> Char.eqb c " " = false.
Proof. by intros [_ ?%negb_true_iff]%andb_prop. Qed.

(** The two replacements, one character at a time. *)
Lemma replace_colon_space_cons c s :
  Str.replace_from ": " ":" 0 (String c s) =
  if Char.eqb c ":" then
    match s with
    | String c' s' =>
        if Char.eqb c' " " then String ":" (Str.replace_from ": " ":" 0 s')
        else String ":" (Str.replace_from ": " ":" 0 s)
    | EmptyString => String ":" EmptyString
    end
  else String c (Str.replace_from ": " ":" 0 s).
Proof.
  cbn [Str.replace_from String.prefix].
  rewrite (char_eqb_sym ":" c). destruct (Char.eqb c ":") eqn:Hc; [|done].
  apply char_eqb_eq in Hc as ->. cbn [andb].
  destruct s as [|c' s']; [done|]. cbn [String.prefix].
  rewrite (char_eqb_sym " " c'), andb_true_r.
  by destruct (Char.eqb c' " ").
Qed.

Lemma replace_space_cons c s :
  Str.replace_from " " "-" 0 (String c s) =
  String (if Char.eqb c " " then "-"%char else c)
         (Str.replace_from " " "-" 0 s).
Proof.
  cbn [Str.replace_from String.prefix].
  rewrite (char_eqb_sym " " c), andb_true_r.
  by destruct (Char.eqb c " ").
Qed.

(** Induction on strings two characters at a time. *)
Lemma string_pair_ind (P : string -> Prop) :
  P EmptyString ->
  (forall c, P (String c EmptyString)) ->
  (forall c c' s, P s -> P (String c' s) -> P (String c (String c' s))) ->
  forall s, P s.
Proof.
  intros H0 H1 H2 s.
  assert (H : P s /\ forall c, P (String c s)); [|apply H].
  induction s as [|c' s [IH1 IH2]]; split; auto.
Qed.

Lemma collapse_cons c s :
  collapse (String c s) =
  if Char.eqb c ":" then
    match s with
    | String c' s' =>
        if Char.eqb c' " " then String ":" (collapse s')
        else String ":" (collapse s)
    | EmptyString => String ":" EmptyString
    end
  else if Char.eqb c " " then String "-" (collapse s)
  else String c (collapse s).
Proof. destruct s; reflexivity. Qed.

(** The two replacements of [normalize] are the one pass. *)
Lemma replace_collapse s :
  Str.replace " " "-" (Str.replace ": " ":" s) = collapse s.
Proof.
  unfold Str.replace.
  induction s as [|c|c c' s IH IH'] using string_pair_ind.
  - reflexivity.
  - rewrite replace_colon_space_cons. cbn [collapse].
    destruct (Char.eqb c ":"); [reflexivity|].
    rewrite replace_space_cons. by destruct (Char.eqb c " ").
  - rewrite replace_colon_space_cons, (collapse_cons c).
    destruct (Char.eqb c ":") eqn:Hc.
    + destruct (Char.eqb c' " ") eqn:Hc'; rewrite replace_space_cons;
        change (Char.eqb ":" " ") with false; cbv iota; congruence.
    + rewrite replace_space_cons, IH'. by destruct (Char.eqb c " ").
Qed.

Lemma normalize_refines s : normalize s = normalize_spec s.
Proof. apply replace_collapse. Qed.

(** The pass leaves no space, and keeps a text in lower case in lower
    case. *)
Lemma collapse_settled s :
  Str.all lowered s = true -> Str.all settled (collapse s) = true.
Proof.
  induction s as [|c|c c' s IH IH'] using string_pair_ind.
  - reflexivity.
  - cbn [Str.all collapse]. rewrite andb_true_r. intros Hc.
    destruct (Char.eqb c ":"); [reflexivity|].
    destruct (Char.eqb c " ") eqn:Hsp; [reflexivity|].
    cbn [Str.all]. unfold settled. by rewrite Hc, Hsp.
  - intros Hall. assert (Hs' := Hall). cbn [Str.all] in Hs'.
    apply andb_prop in Hs' as [Hc Hs']. specialize (IH' Hs').
    assert (Hs := Hs'). cbn [Str.all] in Hs.
    apply andb_prop in Hs as [_ Hs]. specialize (IH Hs).
    rewrite (collapse_cons c).
    destruct (Char.eqb c ":").
    + destruct (Char.eqb c' " "); cbn [Str.all]; [by rewrite IH|by rewrite IH'].
    + destruct (Char.eqb c " ") eqn:Hsp; cbn [Str.all]; rewrite IH'.
      * reflexivity.
      * unfold settled. by rewrite Hc, Hsp.
Qed.

Lemma collapse_fixes s : Str.all settled s = true -> collapse s = s.
Proof.
  induction s as [|c s IH]; [reflexivity|].
  cbn [Str.all]. intros [Hc Hs]%andb_prop.
  rewrite collapse_cons, (settled_not_space c Hc), (IH Hs).
  destruct (char_eqb_spec c ":") as [->|_]; [|done].
  destruct s as [|c' s']; [reflexivity|].
  cbn [Str.all] in Hs. apply andb_prop in Hs as [Hc' _].
  by rewrite (settled_not_space c' Hc').
Qed.

Lemma normalize_spec_settled s : Str.all settled (normalize_spec s) = true.
Proof. apply collapse_settled, lower_lowered. Qed.

Lemma normalize_spec_fixes s :
  Str.all settled s = true -> normalize_spec s = s.
Proof.
  intros Hs. unfold normalize_spec.
  rewrite lower_fixes by (revert Hs; apply all_impl, settled_lowered).
  by apply collapse_fixes.
Qed.

(** C7. Idempotence: normalising a normalised string changes nothing,
    [normalize (normalize s) = normalize s] for every string [s]. *)
Theorem normalize_idempotent (s : string) :
  normalize (normalize s) = normalize s.
Proof.
  rewrite !normalize_refines.
  apply normalize_spec_fixes, normalize_spec_settled.
Qed.

(** C8. [normalize] is a total function of its argument alone: it is the
    lower-casing, then the replacement of every colon-space by a colon,
    then the replacement of every space left by a hyphen.  On every
    string this is the one-pass normalisation of the specification, no
    space and no character that lower-casing changes is left in the
    result, and [normalize "Some: Value Here" = "some:value-here"]. *)
Theorem normalize_total_spec :
  (forall s, normalize s =
             Str.replace " " "-" (Str.replace ": " ":" (Str.lower s)))
  /\ (forall s, normalize s = normalize_spec s)
  /\ (forall s, Str.all settled (normalize s) = true)
  /\ normalize "Some: Value Here" = "some:value-here".
Proof.
  split; [reflexivity|]. split; [apply normalize_refines|].
  split; [|reflexivity].
  intro s. rewrite normalize_refines. apply normalize_spec_settled.
Qed.

End Normalize.

(** ** The matcher *)

Section Matcher.

Local Open Scope string_scope.
Context {R : Type}.
Implicit Types (k : string -> option R) (r : Re.regex).

(** Whatever [star] returns, the continuation returned it, on the text
    left after a run of characters of the class. *)
Lemma star_sound p s k x :
  Re.star p s k = Some x ->
  exists t s', s = t ++ s' /\ Str.all p t = true /\ k s' = Some x.
Proof.
  revert x. induction s as [|c s IH]; intros x; cbn [Re.star].
  - intros H. by exists EmptyString, EmptyString.
  - destruct (p c) eqn:Hp.
    + destruct (Re.star p s k) as [y|] eqn:Hs.
      * intros [= <-]. destruct (IH y eq_refl) as (t & s' & -> & Ht & Hk).
        exists (String c t), s'. cbn. by rewrite Hp, Ht.
      * intros H. by exists EmptyString, (String c s).
    + intros H. by exists EmptyString, (String c s).
Qed.

Lemma run_sound r : forall s caps (k : string -> list string -> option R) x,
  Re.run r s caps k = Some x ->
  exists t g s', s = t ++ s' /\ matches r t g /\ k s' (caps ++ g)%list = Some x.
Proof.
  induction r as [p|p|p|r IH|r1 IH1 r2 IH2|r1 IH1 r2 IH2|r IH];
    intros s caps k x; cbn [Re.run].
  - destruct s as [|c s]; [done|]. destruct (p c) eqn:Hp; [|done].
    intros H. exists (String c EmptyString), [], s.
    rewrite app_nil_r. by repeat split; [constructor|].
  - intros (t & s' & -> & Ht & Hk)%star_sound.
    exists t, [], s'. rewrite app_nil_r. by repeat split; [constructor|].
  - unfold Re.plus. destruct s as [|c s]; [done|].
    destruct (p c) eqn:Hp; [|done].
    intros (t & s' & -> & Ht & Hk)%star_sound.
    exists (String c t), [], s'. rewrite app_nil_r.
    by repeat split; [constructor|].
  - destruct (Re.run r s caps k) as [y|] eqn:Hr.
    + intros [= <-]. destruct (IH _ _ _ _ Hr) as (t & g & s' & -> & Hm & Hk).
      exists t, g, s'. by repeat split; [constructor|].
    + intros H. exists EmptyString, [], s. rewrite app_nil_r.
      by repeat split; [constructor|].
  - destruct (Re.run r1 s caps k) as [y|] eqn:Hr.
    + intros [= <-]. destruct (IH1 _ _ _ _ Hr) as (t & g & s' & -> & Hm & Hk).
      exists t, g, s'. by repeat split; [apply matches_alt_l|].
    + intros (t & g & s' & -> & Hm & Hk)%IH2.
      exists t, g, s'. by repeat split; [apply matches_alt_r|].
  - intros (t1 & g1 & s1 & -> & Hm1 & (t2 & g2 & s2 & -> & Hm2 & Hk)%IH2)%IH1.
    exists (t1 ++ t2), (g1 ++ g2)%list, s2.
    rewrite append_assoc, app_assoc. by repeat split; [constructor|].
  - intros (t & g & s' & -> & Hm & Hk)%IH.
    rewrite consumed_append, <- app_assoc in Hk.
    exists t, (g ++ [t])%list, s'. by repeat split; [constructor|].
Qed.

End Matcher.

Section Search.

Local Open Scope string_scope.
Implicit Types (r : Re.regex) (m : Re.rmatch).

Lemma match_at_sound r s m :
  Re.match_at r s = Some m ->
  s = Re.whole m ++ Re.after m /\ matches r (Re.whole m) (Re.groups m).
Proof.
  unfold Re.match_at. intros (t & g & s' & -> & Hm & [= <-])%run_sound.
  cbn. by rewrite consumed_append.
Qed.

Lemma search_sound r s m :
  Re.search r s = Some m ->
  exists pre, s = pre ++ Re.whole m ++ Re.after m
              /\ matches r (Re.whole m) (Re.groups m).
Proof.
  induction s as [|c s IH]; cbn [Re.search].
  - destruct (Re.match_at r EmptyString) as [m'|] eqn:Hm; [|done].
    intros [= ->]. exists EmptyString. by apply match_at_sound.
  - destruct (Re.match_at r (String c s)) as [m'|] eqn:Hm.
    + intros [= ->]. exists EmptyString. by apply match_at_sound.
    + intros (pre & -> & Hmat)%IH. by exists (String c pre).
Qed.

Lemma findall_from_sound r s : forall skip,
  Forall (fun g => exists t, matches r t g) (Re.findall_from r skip s).
Proof.
  induction s as [|c s IH]; intros skip; cbn [Re.findall_from].
  - destruct skip; [|constructor].
    destruct (Re.match_at r EmptyString) as [m|] eqn:Hm; constructor; [|constructor].
    exists (Re.whole m). by apply match_at_sound in Hm as [_ ?].
  - destruct skip as [|skip]; [|apply IH].
    destruct (Re.match_at r (String c s)) as [m|] eqn:Hm; [|apply IH].
    constructor; [|apply IH].
    exists (Re.whole m). by apply match_at_sound in Hm as [_ ?].
Qed.

Lemma findall_sound r s :
  Forall (fun g => exists t, matches r t g) (Re.findall r s).
Proof. apply findall_from_sound. Qed.

End Search.

(** ** The pattern of the DiE output *)

Section DiePattern.

Local Open Scope string_scope.

Lemma match_at_die_pattern s :
  Re.match_at die_pattern s =
  match s with
  | String c s' =>
      if Char.eqb "{" c then Re.star Re.any s' (close_brace s) else None
  | EmptyString => None
  end.
Proof. destruct s; reflexivity. Qed.

Lemma star_any_no_brace s post :
  Str.contains "}" post = false ->
  Re.star Re.any post (close_brace s) = None.
Proof.
  induction post as [|c post IH]; [reflexivity|].
  rewrite contains_char_cons. intros [Hc Hpost]%orb_false_elim.
  cbn [Re.star Re.any]. rewrite (IH Hpost).
  unfold close_brace, Re.lit. cbn [Re.run]. by rewrite Hc.
Qed.

Lemma star_any_last_brace s mid post :
  Str.contains "}" post = false ->
  Re.star Re.any (mid ++ String "}" post) (close_brace s) =
  Some {| Re.whole := Re.consumed s post; Re.groups := [];
          Re.after := post |}.
Proof.
  intros Hpost. induction mid as [|c mid IH].
  - cbn [String.append Re.star Re.any].
    by rewrite (star_any_no_brace s post Hpost).
  - cbn [String.append Re.star Re.any]. by rewrite IH.
Qed.

(** The match runs from the first opening brace to the last closing
    brace. *)
Lemma search_die_pattern pre mid post :
  Str.contains "{" pre = false ->
  Str.contains "}" post = false ->
  Re.search die_pattern (pre ++ String "{" (mid ++ String "}" post)) =
  Some {| Re.whole := String "{" (mid ++ String "}" EmptyString);
          Re.groups := []; Re.after := post |}.
Proof.
  intros Hpre Hpost. induction pre as [|c pre IH].
  - cbn [String.append Re.search]. rewrite match_at_die_pattern.
    change (Char.eqb "{" "{") with true. cbv iota.
    rewrite star_any_last_brace by done. do 3 f_equal.
    replace (String "{" (mid ++ String "}" post))
      with (String "{" (mid ++ String "}" EmptyString) ++ post).
    + apply consumed_append.
    + cbn [String.append]. by rewrite append_assoc.
  - rewrite contains_char_cons in Hpre.
    apply orb_false_elim in Hpre as [Hc Hpre].
    cbn [String.append Re.search]. rewrite match_at_die_pattern, Hc.
    by apply IH.
Qed.

(** Whatever the pattern matches starts with an opening brace and ends
    with a closing brace. *)
Lemma matches_die_pattern t g :
  matches die_pattern t g ->
  g = [] /\ exists mid, t = String "{" (mid ++ String "}" EmptyString).
Proof.
  unfold die_pattern, Re.lit. intros H.
  inversion H as [| | | | | | |? ? t1 t2 g1 g2 H1 H2|]; subst; clear H.
  inversion H1; subst; clear H1.
  inversion H2 as [| | | | | | |? ? t3 t4 g3 g4 H3 H4|]; subst; clear H2.
  inversion H3; subst; clear H3. inversion H4; subst; clear H4.
  split; [reflexivity|].
  match goal with
  | Ho : Char.eqb "{" ?c = true, Hc : Char.eqb "}" ?c' = true |- _ =>
      apply char_eqb_eq in Ho as <-; apply char_eqb_eq in Hc as <-
  end.
  by eexists.
Qed.

Lemma search_die_pattern_sound s m :
  Re.search die_pattern s = Some m ->
  Re.groups m = [] /\
  exists pre mid,
    Re.whole m = String "{" (mid ++ String "}" EmptyString)
    /\ s = pre ++ String "{" (mid ++ String "}" (Re.after m)).
Proof.
  intros (pre & Hs & Hm)%search_sound.
  apply matches_die_pattern in Hm as (Hg & mid & Hw).
  split; [done|]. exists pre, mid. split; [done|].
  rewrite Hs, Hw. cbn [String.append]. by rewrite append_assoc.
Qed.

Lemma search_die_pattern_none s :
  (forall pre mid post, s <> pre ++ String "{" (mid ++ String "}" post)) ->
  Re.search die_pattern s = None.
Proof.
  intros Hno. destruct (Re.search die_pattern s) as [m|] eqn:Hm; [|done].
  apply search_die_pattern_sound in Hm as (_ & pre & mid & _ & Hs).
  by destruct (Hno _ _ _ Hs).
Qed.

End DiePattern.

(** ** The pattern of the TrID output *)

Section TridPattern.

Local Open Scope string_scope.

Local Ltac invert H :=
  inversion H; subst; clear H.

Lemma matches_plus_digit t g :
  matches (Re.Plus Re.digit) t g -> g = [] /\ digits t.
Proof.
  intros H. invert H. split; [done|]. split; [done|].
  cbn [Str.all]. unfold Re.digit in *. by apply andb_true_intro.
Qed.

(** The three groups of a match; the first is a decimal number. *)
Lemma matches_trid_pattern t g :
  matches trid_pattern t g ->
  exists percent ext name, g = [percent; ext; name] /\ decimal percent.
Proof.
  unfold trid_pattern, Re.lit. intros H.
  repeat match goal with
  | H : matches (Re.Seq _ _) _ _ |- _ => invert H
  | H : matches (Re.Group _) _ _ |- _ => invert H
  | H : matches (Re.Chr _) _ _ |- _ => invert H
  | H : matches (Re.Plus Re.space) _ _ |- _ => invert H
  | H : matches (Re.Plus Re.dot) _ _ |- _ => invert H
  | H : matches (Re.Plus Re.word) _ _ |- _ => invert H
  | H : matches (Re.Plus Re.digit) _ _ |- _ =>
      apply matches_plus_digit in H as [-> ?]
  end.
  match goal with
  | H : matches (Re.Opt _) _ _ |- _ => invert H
  end.
  - repeat match goal with
    | H : matches (Re.Seq _ _) _ _ |- _ => invert H
    | H : matches (Re.Chr _) _ _ |- _ => invert H
    | H : matches (Re.Plus Re.digit) _ _ |- _ =>
        apply matches_plus_digit in H as [-> ?]
    end.
    match goal with
    | H : Char.eqb "." ?c = true |- _ => apply char_eqb_eq in H as <-
    end.
    cbn [app]. do 3 eexists. split; [reflexivity|].
    eexists. split; [|right; eexists; split; [|reflexivity]]; assumption.
  - cbn [app]. rewrite append_nil_r. do 3 eexists. split; [reflexivity|].
    eexists. split; [|left; reflexivity]. assumption.
Qed.

Lemma findall_trid_pattern s :
  Forall (fun g => exists percent ext name,
                     g = [percent; ext; name] /\ decimal percent)
         (Re.findall trid_pattern s).
Proof.
  eapply Forall_impl; [apply findall_sound|].
  intros g [t Ht]. by eapply matches_trid_pattern.
Qed.

End TridPattern.

(** ** [float] on what the pattern captures *)

Section FloatOfString.

Local Open Scope string_scope.

Lemma digit_not_point c : Str.is_decimal c = true -> Char.eqb c "." = false.
Proof.
  intros H. destruct (char_eqb_spec c ".") as [->|]; [|done].
  by vm_compute in H.
Qed.

Lemma split_point_digits i :
  Str.all Str.is_decimal i = true -> Float.split_point i = (i, None).
Proof.
  induction i as [|c i IH]; [reflexivity|]. cbn [Str.all Float.split_point].
  intros [Hc Hi]%andb_prop. by rewrite (digit_not_point c Hc), (IH Hi).
Qed.

Lemma split_point_decimal i f :
  Str.all Str.is_decimal i = true ->
  Float.split_point (i ++ String "." f) = (i, Some f).
Proof.
  induction i as [|c i IH]; [reflexivity|].
  cbn [Str.all String.append Float.split_point].
  intros [Hc Hi]%andb_prop. by rewrite (digit_not_point c Hc), (IH Hi).
Qed.

Lemma digits_value_digits s : forall acc,
  Str.all Str.is_decimal s = true -> exists n, Float.digits_value acc s = Some n.
Proof.
  induction s as [|c s IH]; intros acc; cbn [Str.all Float.digits_value].
  - by eexists.
  - intros [Hc Hs]%andb_prop. unfold Str.is_decimal in Hc.
    destruct (Unicode.decimal c); [by apply IH|done].
Qed.

(** [float] accepts every decimal number. *)
Lemma of_string_decimal p : decimal p -> exists x, Float.of_string p = Ok x.
Proof.
  intros (i & [Hi0 Hi] & [->|(f & [Hf0 Hf] & ->)]); unfold Float.of_string.
  - rewrite (split_point_digits i Hi), append_nil_r.
    destruct (digits_value_digits i 0 Hi) as [n ->].
    destruct i; [done|]. by eexists.
  - cbn [String.append]. rewrite (split_point_decimal i f Hi).
    destruct (digits_value_digits (i ++ f) 0) as [n ->].
    { by rewrite all_append, Hi, Hf. }
    destruct i; [done|]. by eexists.
Qed.

End FloatOfString.


(** ** [json.loads] never runs out of fuel *)

Section JsonFuel.

Import Json.

Lemma skip_ws_length s : String.length (skip_ws s) <= String.length s.
Proof.
  induction s as [|c s IH]; cbn; [lia|]. destruct (is_ws c); cbn; lia.
Qed.

Lemma drop_length n : forall s, String.length (Str.drop n s) <= String.length s.
Proof.
  induction n as [|n IH]; intros [|c s]; cbn; try lia.
  specialize (IH s). lia.
Qed.

Lemma match_at_length r s m :
  Re.match_at r s = Some m -> String.length (Re.after m) <= String.length s.
Proof.
  intros [Hs _]%match_at_sound. apply (f_equal String.length) in Hs.
  rewrite length_append in Hs. lia.
Qed.

Lemma scans_raise {A} bound : @scans A (Raise JSONDecodeError) bound.
Proof. split; [|done]. intros e [= <-]. by left. Qed.

Lemma scans_raise_value {A} bound : @scans A (Raise ValueError) bound.
Proof. split; [|done]. intros e [= <-]. by right. Qed.

Lemma scans_ok {A} (v : A) r bound :
  String.length r <= bound -> scans (Ok (v, r)) bound.
Proof. intros Hr. split; [discriminate|]. by intros ? ? [= <- <-]. Qed.

Lemma scans_weaken {A} (x : result (A * string)) b1 b2 :
  scans x b1 -> b1 <= b2 -> scans x b2.
Proof.
  intros [He Hr] Hb. split; [done|]. intros v r Hx. specialize (Hr v r Hx). lia.
Qed.

Lemma scans_bind {A B} (x : result (A * string)) (f : A * string -> result (B * string))
    b1 b2 :
  scans x b1 ->
  (forall v r, String.length r <= b1 -> scans (f (v, r)) b2) ->
  scans (x ≫= f) b2.
Proof.
  intros [He Hr] Hf. destruct x as [[v r]|e]; cbn.
  - apply Hf. by eapply Hr.
  - destruct (He e eq_refl) as [-> | ->];
      [apply scans_raise|apply scans_raise_value].
Qed.

Lemma scanstring_scans n : forall s,
  String.length s <= n -> scans (scanstring s) (String.length s - 1).
Proof.
  induction n as [|n IH]; intros s Hn.
  { destruct s; [apply scans_raise|cbn in Hn; lia]. }
  assert (Hrec : forall {A} s' (g : string -> A),
    String.length s' < String.length s ->
    scans ('(t, r) ← scanstring s'; Ok (g t, r)) (String.length s - 1)).
  { intros A s' g Hs'. eapply scans_bind; [apply IH; lia|].
    intros t r Hr. apply scans_ok. lia. }
  destruct s as [|c s1]; [apply scans_raise|]. cbn [scanstring].
  repeat first
    [ apply scans_raise
    | apply scans_ok; cbn [String.length]; lia
    | apply Hrec; cbn [String.length]; lia
    | match goal with
      | |- scans (if ?b then _ else _) _ => destruct b
      | |- scans (match ?x with _ => _ end) _ => destruct x
      end ].
Qed.

Local Ltac ws_facts :=
  repeat match goal with
  | E : skip_ws ?a = _ |- _ =>
      let H := fresh in
      pose proof (skip_ws_length a) as H; rewrite E in H;
      cbn [String.length] in H; clear E
  end.

Local Ltac branch :=
  match goal with
  | |- scans (if ?b then _ else _) _ => destruct b
  | |- scans (match skip_ws ?x with _ => _ end) _ =>
      destruct (skip_ws x) eqn:?; ws_facts
  end.

Lemma scan_once_scans fuel :
  (forall s, 2 * String.length s < fuel ->
             scans (scan_once fuel s) (String.length s))
  /\ (forall s acc, 2 * String.length s < fuel ->
                    scans (object_members fuel s acc) (String.length s))
  /\ (forall s acc, 2 * String.length s + 1 < fuel ->
                    scans (array_items fuel s acc) (String.length s)).
Proof.
  induction fuel as [|fuel (IHs & IHo & IHa)];
    [repeat split; intros; lia|].
  split; [|split].
  - intros [|c s1] Hfuel; [apply scans_raise|].
    cbn [scan_once String.length] in *.
    repeat branch; try apply scans_raise.
    + eapply scans_bind; [apply (scanstring_scans _ s1 (le_n _))|].
      intros t r Hr. apply scans_ok. lia.
    + apply scans_ok. lia.
    + eapply scans_weaken; [apply IHo|]; lia.
    + apply scans_ok. lia.
    + eapply scans_weaken; [apply IHa|]; cbn [String.length]; lia.
    + destruct (Re.match_at number_re (String c s1)) as [m|] eqn:Hm.
      * apply match_at_length in Hm.
        destruct (too_long _); [apply scans_raise_value|by apply scans_ok].
      * destruct (find _ keywords) as [[kw v]|]; [|apply scans_raise].
        apply scans_ok. apply drop_length.
  - intros s acc Hfuel. cbn [object_members].
    eapply scans_bind; [apply (scanstring_scans _ s (le_n _))|].
    intros key r Hr. repeat branch; try apply scans_raise.
    match goal with
    | |- context [scan_once fuel (skip_ws ?x)] =>
        pose proof (skip_ws_length x)
    end.
    eapply scans_bind; [apply IHs; lia|].
    intros v r2 Hr2. repeat branch; try apply scans_raise.
    + apply scans_ok. lia.
    + eapply scans_weaken; [apply IHo|]; lia.
  - intros s acc Hfuel. cbn [array_items].
    eapply scans_bind; [apply IHs; lia|].
    intros v r Hr. repeat branch; try apply scans_raise.
    + apply scans_ok. lia.
    + match goal with
      | |- context [array_items fuel (skip_ws ?x)] =>
          pose proof (skip_ws_length x)
      end.
      eapply scans_weaken; [apply IHa|]; lia.
Qed.

(** The fuel of [loads] is enough: it never raises for want of fuel, only
    the decoding error or the error of an integer with too many digits. *)
Lemma loads_raises s e :
  loads s = Raise e -> e = JSONDecodeError \/ e = ValueError.
Proof.
  unfold loads.
  destruct (scan_once_scans (S (2 * String.length s))) as (Hs & _).
  destruct (Hs (skip_ws s)) as [He _].
  { pose proof (skip_ws_length s). lia. }
  destruct (scan_once _ (skip_ws s)) as [[v r]|e'] eqn:Hscan;
    cbn [mbind result_bind].
  - destruct (skip_ws r); [done|]. intros [= <-]. by left.
  - intros [= <-]. by apply He.
Qed.

(** A text that starts with an opening brace decodes to an object. *)
Lemma object_members_object fuel : forall s acc v r,
  object_members fuel s acc = Ok (v, r) -> exists d, v = JObj d.
Proof.
  induction fuel as [|fuel IH]; intros s acc v r; [discriminate|].
  cbn [object_members].
  destruct (scanstring s) as [[key r0]|]; [|discriminate].
  cbn [mbind result_bind].
  destruct (skip_ws r0) as [|c r1]; [discriminate|].
  destruct (Char.eqb c ":"); [|discriminate].
  destruct (scan_once fuel (skip_ws r1)) as [[v' r2]|]; [|discriminate].
  cbn [mbind result_bind].
  destruct (skip_ws r2) as [|c' r3]; [discriminate|].
  destruct (Char.eqb c' "}"); [intros [= <- _]; by eexists|].
  destruct (Char.eqb c' ","); [|discriminate].
  destruct (skip_ws r3) as [|c'' r4]; [discriminate|].
  destruct (Char.eqb c'' quote); [|discriminate]. apply IH.
Qed.

Lemma loads_brace s v :
  loads (String "{" s) = Ok v -> exists d, v = JObj d.
Proof.
  unfold loads. change (skip_ws (String "{" s)) with (String "{" s).
  cbn [scan_once]. change (Char.eqb "{" quote) with false.
  change (Char.eqb "{" "{") with true. cbv iota.
  destruct (skip_ws s) as [|c' s2]; [discriminate|].
  destruct (Char.eqb c' "}").
  - cbn [mbind result_bind]. destruct (skip_ws s2); [|discriminate].
    intros [= <-]. by eexists.
  - destruct (Char.eqb c' quote); [|discriminate].
    destruct (object_members _ s2 []) as [[v' r]|] eqn:Hobj; [|discriminate].
    cbn [mbind result_bind]. destruct (skip_ws r); [|discriminate].
    intros [= <-]. by eapply object_members_object.
Qed.

End JsonFuel.
(** ** The world monad *)

Section Monad.

Context {A B : Type}.
Implicit Types (m : M A) (f : A -> M B) (w : world).

Lemma bind_ok m f w w' a : m w = (w', Ok a) -> (m ≫= f) w = f a w'.
Proof. unfold mbind, M_bind. by intros ->. Qed.

Lemma bind_raise m f w w' e :
  m w = (w', Raise e) -> (m ≫= f) w = (w', Raise e).
Proof. unfold mbind, M_bind. by intros ->. Qed.

Lemma bind_lift_ok (a : A) f w : (lift (Ok a) ≫= f) w = f a w.
Proof. reflexivity. Qed.

Lemma bind_lift_raise e f w : (lift (Raise e) ≫= f) w = (w, Raise e).
Proof. reflexivity. Qed.

End Monad.

(** ** [extract_json_output_from_die] *)

Section Die.

Lemma search_die_pattern_nonempty m :
  Re.search die_pattern EmptyString <> Some m.
Proof. discriminate. Qed.

(** The function once the pattern has matched. *)
Lemma extract_die_matched die_data sample_hash m w :
  Re.search die_pattern die_data = Some m ->
  extract_json_output_from_die die_data sample_hash w =
  (parsed_data ← lift (Json.loads (Re.whole m));
   has_detects ← lift (Py.contains "detects" parsed_data);
   if negb has_detects then
     log ERROR (sample_hash
                ++ " failed running file-detection. Error code 01")%string;;
     mret []
   else
     detects ← lift (Py.getitem parsed_data "detects");
     items ← lift (Py.iter detects);
     lift (die_loop items [])) w.
Proof.
  intros Hm. unfold extract_json_output_from_die.
  destruct die_data; [by destruct (search_die_pattern_nonempty m)|].
  by rewrite Hm.
Qed.

(** What the matched span decodes to is an object. *)
Lemma loads_span_object die_data m v :
  Re.search die_pattern die_data = Some m ->
  Json.loads (Re.whole m) = Ok v -> exists d, v = JObj d.
Proof.
  intros (_ & pre & mid & -> & _)%search_die_pattern_sound.
  apply loads_brace.
Qed.

(** The loop keeps the informative findings, in order. *)
Lemma die_loop_filter detects : forall output,
  forallb is_finding detects = true ->
  die_loop detects output = Ok (output ++ List.filter informative detects).
Proof.
  induction detects as [|detected rest IH]; intros output.
  - intros _. cbn. by rewrite app_nil_r.
  - cbn [forallb]. intros [Hd Hrest]%andb_prop.
    cbn [die_loop List.filter].
    destruct detected as [| | | | |d]; try discriminate.
    unfold is_finding in Hd. unfold informative, finding_values.
    cbn [Py.get mbind result_bind Py.getitem].
    destruct (dict_get "values" d) as [values|].
    + destruct values as [| | | |vs|]; try discriminate.
      destruct vs as [|v [|v' vs]].
      * cbn. by apply IH.
      * destruct v as [| | | | |vd]; try discriminate.
        cbn [has_type] in Hd. cbn [type_is].
        cbn [Py.len List.length Nat.eqb mbind result_bind Py.getitem
             Py.index nth_error].
        destruct (dict_get "type" vd) as [ty|]; [|discriminate].
        cbn [mbind result_bind].
        destruct (Py.eq_str ty "Unknown"); cbn [negb].
        -- by apply IH.
        -- rewrite IH by done. by rewrite <- app_assoc.
      * cbn [Py.len List.length Nat.eqb mbind result_bind].
        rewrite IH by done. by rewrite <- app_assoc.
    + cbn. by apply IH.
Qed.


(** Outside the findings DiE writes the loop raises: a sole value without
    a [type] is a [KeyError]. *)
Lemma die_loop_sole_value_without_type :
  die_loop [JObj [("values", JArr [JObj [("name", JStr "x")]])]] []
  = Raise KeyError.
Proof. reflexivity. Qed.

(** The first detector of [process], once DiE has run. *)
Lemma process_die list_of_set E sample_resource w f_name die_data :
  download_temporary_file E sample_resource = Ok f_name ->
  check_output E ["/usr/bin/diec"; "-j"; "-d"; "-u"; "-g"; "-a"; f_name]
    = Ok die_data ->
  forall w' e,
    extract_json_output_from_die die_data (sha256_or_name sample_resource) w
      = (w', Raise e) ->
    process list_of_set E sample_resource w = (w', Raise e).
Proof.
  intros Hf Hd w' e He. unfold process. apply bind_raise. unfold detect.
  rewrite Hf, bind_lift_ok, Hd, bind_lift_ok. by apply bind_raise.
Qed.

(** C3. After parsing, [extract_json_output_from_die] filters the
    [detects] array: it drops every finding with no value and every
    finding with exactly one value whose type is the literal Unknown, and
    keeps every other finding, unchanged and in order.  On the text
    [{"detects":[{"values":[{"type":"Unknown","name":"x"}]}]}] it returns
    the empty list, and on
    [{"detects":[{"values":[{"type":"Packer","name":"UPX"}]}]}] the one
    finding as it was parsed. *)
Theorem die_filter_informative :
  (forall detects,
      forallb is_finding detects = true ->
      die_loop detects [] = Ok (List.filter informative detects))
  /\ (forall die_data sample_hash w m d detects,
        Re.search die_pattern die_data = Some m ->
        Json.loads (Re.whole m) = Ok (JObj d) ->
        dict_get "detects" d = Some (JArr detects) ->
        forallb is_finding detects = true ->
        extract_json_output_from_die die_data sample_hash w =
        (w, Ok (List.filter informative detects)))
  /\ (forall sample_hash w,
        extract_json_output_from_die
          (dq "{'detects':[{'values':[{'type':'Unknown','name':'x'}]}]}")
          sample_hash w = (w, Ok []))
  /\ (forall sample_hash w,
        extract_json_output_from_die
          (dq "{'detects':[{'values':[{'type':'Packer','name':'UPX'}]}]}")
          sample_hash w =
        (w, Ok [JObj [("values",
                       JArr [JObj [("type", JStr "Packer");
                                   ("name", JStr "UPX")]])]])).
Proof.
  split; [|split; [|split]].
  - intros detects Hd. by rewrite die_loop_filter.
  - intros die_data sample_hash w m d detects Hm Hj Hd Hf.
    rewrite (extract_die_matched _ _ _ _ Hm), Hj, bind_lift_ok.
    unfold Py.contains, Py.getitem. rewrite Hd, !bind_lift_ok.
    cbn [negb]. rewrite bind_lift_ok. cbn [Py.iter].
    rewrite bind_lift_ok. unfold lift. by rewrite die_loop_filter.
  - intros sample_hash w. reflexivity.
  - intros sample_hash w. reflexivity.
Qed.

(** C5. The JSON candidate of [extract_json_output_from_die] is the
    largest substring that starts at the first opening brace and ends at
    the last closing brace of the output.  When [json.loads] raises on
    that span, the function raises the same exception, and so does
    [process]: nothing is sent for the sample, and the world is as it
    was. *)
Theorem die_span_parse_fatal :
  (forall pre mid post,
      Str.contains "{" pre = false ->
      Str.contains "}" post = false ->
      Re.search die_pattern
        (pre ++ String "{" (mid ++ String "}" post))%string =
      Some {| Re.whole := String "{" (mid ++ String "}" EmptyString)%string;
              Re.groups := []; Re.after := post |})
  /\ (forall die_data sample_hash w m e,
        Re.search die_pattern die_data = Some m ->
        Json.loads (Re.whole m) = Raise e ->
        extract_json_output_from_die die_data sample_hash w = (w, Raise e))
  /\ (forall list_of_set E sample_resource w f_name die_data m e,
        download_temporary_file E sample_resource = Ok f_name ->
        check_output E
          ["/usr/bin/diec"; "-j"; "-d"; "-u"; "-g"; "-a"; f_name]
          = Ok die_data ->
        Re.search die_pattern die_data = Some m ->
        Json.loads (Re.whole m) = Raise e ->
        process list_of_set E sample_resource w = (w, Raise e)).
Proof.
  assert (Hraise : forall die_data sample_hash w m e,
    Re.search die_pattern die_data = Some m ->
    Json.loads (Re.whole m) = Raise e ->
    extract_json_output_from_die die_data sample_hash w = (w, Raise e)).
  { intros die_data sample_hash w m e Hm Hj.
    by rewrite (extract_die_matched _ _ _ _ Hm), Hj. }
  split; [apply search_die_pattern|]. split; [exact Hraise|].
  intros list_of_set E sample_resource w f_name die_data m e Hf Hd Hm Hj.
  eapply process_die; eauto.
Qed.

End Die.

(** ** [extract_json_output_from_trid] *)

Section Trid.

Lemma cutoff_float : Float.of_Z TRID_CUTOFF = Float.Fin 5.
Proof. reflexivity. Qed.

(** The comprehension builds an entry for every match and keeps those
    above the cut-off; it never raises on what the pattern captures. *)
Lemma trid_entries_filter matches :
  Forall (fun g => exists percent ext nm,
                     g = [percent; ext; nm] /\ decimal percent) matches ->
  exists ms,
    Forall2 is_entry_of matches ms
    /\ trid_entries matches = Ok (List.filter above_cutoff ms).
Proof.
  induction 1 as [|g matches (percent & ext & nm & -> & Hp) _ (ms & Hms & IH)].
  - exists []. by split; [constructor|].
  - destruct (of_string_decimal percent Hp) as [x Hx].
    exists ({| percentage := x; extension := ext; name := Str.strip nm |} :: ms).
    split.
    + constructor; [|done]. by exists percent, ext, nm.
    + cbn [trid_entries List.filter]. rewrite Hx, cutoff_float.
      cbn [mbind result_bind]. unfold above_cutoff at 1. cbn [percentage].
      destruct (Float.gt x (Float.Fin 5)); by rewrite IH.
Qed.

Lemma extract_trid_cases trid_data sample_hash w :
  extract_json_output_from_trid trid_data sample_hash w =
  match trid_data, Re.findall trid_pattern trid_data with
  | EmptyString, _ => (w, Ok [])
  | _, [] =>
      (log_to w ERROR
         ("Could not find JSON object in TrID output for " ++ sample_hash),
       Ok [])
  | _, matches =>
      match trid_entries matches with
      | Ok entries => (w, Ok (rev entries))
      | Raise e => (w, Raise e)
      end
  end.
Proof.
  unfold extract_json_output_from_trid.
  destruct trid_data as [|c s]; [reflexivity|].
  destruct (Re.findall trid_pattern (String c s)) as [|g gs]; [reflexivity|].
  unfold mbind, M_bind, lift. by destruct (trid_entries (g :: gs)).
Qed.

Lemma extract_trid_spec trid_data sample_hash w :
  exists ms w',
    Forall2 is_entry_of (Re.findall trid_pattern trid_data) ms
    /\ extract_json_output_from_trid trid_data sample_hash w =
       (w', Ok (rev (List.filter above_cutoff ms))).
Proof.
  destruct (trid_entries_filter _ (findall_trid_pattern trid_data))
    as (ms & Hms & Hentries).
  rewrite extract_trid_cases.
  destruct trid_data as [|c s].
  - exists [], w. by split; [constructor|].
  - destruct (Re.findall trid_pattern (String c s)) as [|g gs] eqn:Hfind.
    + exists [], (log_to w ERROR
        ("Could not find JSON object in TrID output for " ++ sample_hash)).
      by split; [constructor|].
    + exists ms, w. by rewrite Hentries.
Qed.

(** C4. [extract_json_output_from_trid] makes an entry of every match of
    the pattern, keeps exactly those whose percentage is strictly greater
    than 5.0, and returns them in reverse order.  On the two lines
    [80.0% (.exe) Win32 Executable] and [3.0% (.bin) Generic binary] it
    returns the one entry of 80.0, [.exe], [Win32 Executable]; on two
    lines above the cut-off it returns the entry of the second line, then
    that of the first. *)
Theorem trid_cutoff_reversed :
  (forall trid_data sample_hash w,
      exists ms w',
        Forall2 is_entry_of (Re.findall trid_pattern trid_data) ms
        /\ extract_json_output_from_trid trid_data sample_hash w =
           (w', Ok (rev (List.filter above_cutoff ms))))
  /\ (forall sample_hash w,
        extract_json_output_from_trid
          "80.0% (.exe) Win32 Executable
3.0% (.bin) Generic binary
" sample_hash w =
        (w, Ok [ {| percentage := Float.Fin 80; extension := ".exe";
                    name := "Win32 Executable" |} ]))
  /\ (forall sample_hash w,
        extract_json_output_from_trid
          "80.0% (.exe) Win32 Executable
12.5% (.dll) Win32 Dynamic Link Library
" sample_hash w =
        (w, Ok [ {| percentage := Float.Fin (25 # 2); extension := ".dll";
                    name := "Win32 Dynamic Link Library" |};
                 {| percentage := Float.Fin 80; extension := ".exe";
                    name := "Win32 Executable" |} ])).
Proof.
  split; [apply extract_trid_spec|]. split; intros; reflexivity.
Qed.

(** C10. [extract_json_output_from_trid] is total: on every text it
    returns a list and raises nothing.  The empty text gives the empty
    list; a text without a match gives the empty list after one error is
    logged; and in every match the percentage group is a decimal number,
    digits with an optional fractional part, on which [float] succeeds.
    The digits are those of any script, which the pattern matches and
    [float] reads alike: a line in Arabic-Indic digits gives its entry. *)
Theorem trid_total (trid_data sample_hash : string) (w : world) :
  (exists entries w',
      extract_json_output_from_trid trid_data sample_hash w = (w', Ok entries))
  /\ extract_json_output_from_trid EmptyString sample_hash w = (w, Ok [])
  /\ (trid_data <> EmptyString ->
      Re.findall trid_pattern trid_data = [] ->
      extract_json_output_from_trid trid_data sample_hash w =
      (log_to w ERROR
         ("Could not find JSON object in TrID output for " ++ sample_hash),
       Ok []))
  /\ Forall (fun g => exists percent ext nm x,
                        g = [percent; ext; nm] /\ decimal percent
                        /\ Float.of_string percent = Ok x)
            (Re.findall trid_pattern trid_data)
  /\ extract_json_output_from_trid "٨٠.٥% (.exé) Exécutable" sample_hash w =
     (w, Ok [ {| percentage := Float.Fin (161 # 2); extension := ".exé";
                 name := "Exécutable" |} ]).
Proof.
  split; [|split; [reflexivity|split; [|split; [|reflexivity]]]].
  - destruct (extract_trid_spec trid_data sample_hash w) as (ms & w' & _ & ->).
    by eexists _, _.
  - intros Hne Hnone. rewrite extract_trid_cases.
    destruct trid_data; [done|]. by rewrite Hnone.
  - eapply Forall_impl; [apply findall_trid_pattern|].
    intros g (percent & ext & nm & -> & Hp).
    destruct (of_string_decimal percent Hp) as [x Hx].
    by exists percent, ext, nm, x.
Qed.

End Trid.

(** ** [get_tags_from_die] *)

Section Tags.

Variable list_of_set : gset string -> list string.
Hypothesis list_of_set_perm : forall X, list_of_set X ≡ₚ elements X.

Implicit Types (tags : gset string) (t : string).

Lemma tags_of_packer_typed tags v :
  is_typed_value v = true ->
  tags_of_packer tags v =
  Ok (match value_tag v with Some t => {[ t ]} ∪ tags | None => tags end).
Proof.
  destruct v as [| | | | |d]; try discriminate.
  unfold is_typed_value, value_tag, type_and_name, tags_of_packer.
  cbn [Py.contains Py.getitem mbind result_bind].
  destruct (dict_get "type" d) as [ty|]; [|reflexivity].
  destruct (dict_get "name" d) as [nm|]; [|reflexivity].
  destruct ty as [| | |ty| |]; try discriminate.
  destruct nm as [| | |nm| |]; try discriminate.
  intros _. cbn [Py.normalize mbind result_bind]. unfold tag_of.
  destruct (String.eqb (normalize ty) "unknown"); [reflexivity|].
  destruct (String.eqb (normalize nm) "unknown"); [reflexivity|].
  cbn [orb negb]. rewrite andb_true_r.
  by destruct (String.eqb (normalize ty) "malware").
Qed.

Lemma tags_of_values_typed vs : forall tags,
  forallb is_typed_value vs = true ->
  tags_of_values tags vs = Ok (tags ∪ list_to_set (omap value_tag vs)).
Proof.
  induction vs as [|v vs IH]; intros tags.
  - intros _. cbn. by rewrite union_empty_r_L.
  - cbn [forallb]. intros [Hv Hvs]%andb_prop.
    cbn [tags_of_values]. rewrite tags_of_packer_typed by done.
    cbn [mbind result_bind]. rewrite IH by done. f_equal.
    cbn [omap list_omap]. destruct (value_tag v) as [t|]; [|done].
    cbn [list_to_set]. by rewrite (comm_L (∪) {[ t ]} tags), (assoc_L (∪)).
Qed.

Lemma tags_of_detects_typed die_data : forall tags,
  forallb is_typed_finding die_data = true ->
  tags_of_detects tags die_data =
  Ok (tags ∪ list_to_set (derived_tags die_data)).
Proof.
  unfold derived_tags.
  induction die_data as [|detected rest IH]; intros tags.
  - intros _. cbn. by rewrite union_empty_r_L.
  - cbn [forallb]. intros [Hd Hrest]%andb_prop.
    cbn [tags_of_detects mbind list_bind]. rewrite omap_app.
    destruct detected as [| | | | |d]; try discriminate.
    unfold is_typed_finding in Hd. unfold finding_values.
    cbn [Py.contains Py.getitem mbind result_bind].
    destruct (dict_get "values" d) as [values|].
    + destruct values as [| | | |vs|]; try discriminate.
      cbn [negb Py.iter mbind result_bind].
      rewrite tags_of_values_typed by done. cbn [mbind result_bind].
      rewrite IH by done. f_equal.
      by rewrite list_to_set_app_L, (assoc_L (∪)).
    + cbn [negb]. by rewrite IH.
Qed.

(** Whenever the loops return, they have added the tags of the values,
    whatever the shape of the findings. *)
Lemma tags_of_packer_ok tags v tags' :
  tags_of_packer tags v = Ok tags' ->
  tags' = match value_tag v with Some t => {[ t ]} ∪ tags | None => tags end.
Proof.
  unfold tags_of_packer, value_tag, type_and_name.
  destruct v as [| | |s|l|d]; cbn [Py.contains mbind result_bind];
    try discriminate.
  - destruct (Str.contains "type" s); [|by intros [= <-]].
    destruct (Str.contains "name" s); [discriminate|by intros [= <-]].
  - destruct (existsb _ l); [|by intros [= <-]].
    destruct (existsb _ l); [discriminate|by intros [= <-]].
  - cbn [Py.getitem].
    destruct (dict_get "type" d) as [ty|]; [|by intros [= <-]].
    destruct (dict_get "name" d) as [nm|]; [|by intros [= <-]].
    cbn [mbind result_bind].
    destruct ty as [| | |ty| |]; try discriminate.
    cbn [Py.normalize mbind result_bind].
    destruct nm as [| | |nm| |]; try discriminate.
    cbn [Py.normalize mbind result_bind]. unfold tag_of.
    destruct (String.eqb (normalize ty) "unknown"); [by intros [= <-]|].
    destruct (String.eqb (normalize nm) "unknown"); [by intros [= <-]|].
    cbn [orb negb]. rewrite andb_true_r.
    destruct (String.eqb (normalize ty) "malware"); by intros [= <-].
Qed.

Lemma tags_of_values_ok vs : forall tags tags',
  tags_of_values tags vs = Ok tags' ->
  tags' = tags ∪ list_to_set (omap value_tag vs).
Proof.
  induction vs as [|v vs IH]; intros tags tags'; cbn [tags_of_values].
  - intros [= <-]. cbn. by rewrite union_empty_r_L.
  - destruct (tags_of_packer tags v) as [tags1|] eqn:Hv; [|discriminate].
    cbn [mbind result_bind]. intros ->%IH.
    apply tags_of_packer_ok in Hv as ->. cbn [omap list_omap].
    destruct (value_tag v) as [t|]; [|done].
    cbn [list_to_set]. by rewrite (comm_L (∪) {[ t ]} tags), (assoc_L (∪)).
Qed.

Lemma omap_value_tag_keys (d : list (string * json)) :
  omap value_tag (map (fun kv => JStr (fst kv)) d) = [].
Proof. by induction d. Qed.

Lemma omap_value_tag_chars s : omap value_tag (Py.chars s) = [].
Proof. by induction s. Qed.

Lemma tags_of_detects_ok die_data : forall tags tags',
  tags_of_detects tags die_data = Ok tags' ->
  tags' = tags ∪ list_to_set (derived_tags die_data).
Proof.
  unfold derived_tags.
  induction die_data as [|detected rest IH]; intros tags tags';
    cbn [tags_of_detects].
  - intros [= <-]. cbn. by rewrite union_empty_r_L.
  - cbn [mbind list_bind]. rewrite omap_app, list_to_set_app_L, (assoc_L (∪)).
    destruct detected as [| | |s|l|d]; cbn [Py.contains mbind result_bind];
      try discriminate.
    + destruct (Str.contains "values" s); [discriminate|].
      cbn [negb finding_values omap list_omap list_to_set].
      rewrite union_empty_r_L. apply IH.
    + destruct (existsb _ l); [discriminate|].
      cbn [negb finding_values omap list_omap list_to_set].
      rewrite union_empty_r_L. apply IH.
    + unfold finding_values. cbn [Py.getitem].
      destruct (dict_get "values" d) as [values|]; cbn [negb].
      * cbn [mbind result_bind].
        destruct values as [| | |s|vs|dv]; cbn [Py.iter mbind result_bind];
          try discriminate.
        -- destruct (tags_of_values tags (Py.chars s)) as [tags1|] eqn:Hvs;
             [|discriminate].
           apply tags_of_values_ok in Hvs as ->.
           rewrite omap_value_tag_chars. cbn [mbind result_bind]. apply IH.
        -- destruct (tags_of_values tags vs) as [tags1|] eqn:Hvs;
             [|discriminate].
           apply tags_of_values_ok in Hvs as ->.
           cbn [mbind result_bind]. apply IH.
        -- destruct (tags_of_values tags _) as [tags1|] eqn:Hvs; [|discriminate].
           apply tags_of_values_ok in Hvs as ->.
           rewrite omap_value_tag_keys. cbn [mbind result_bind]. apply IH.
      * cbn [omap list_omap list_to_set]. rewrite union_empty_r_L. apply IH.
Qed.

Lemma list_of_set_elem X t : t ∈ list_of_set X <-> t ∈ X.
Proof using list_of_set_perm. by rewrite list_of_set_perm, elem_of_elements. Qed.

Lemma list_of_set_NoDup X : NoDup (list_of_set X).
Proof using list_of_set_perm.
  rewrite list_of_set_perm. apply NoDup_elements.
Qed.

Lemma list_of_set_empty : list_of_set ∅ = [].
Proof using list_of_set_perm.
  apply Permutation_nil_r. by rewrite list_of_set_perm, elements_empty.
Qed.

Lemma list_of_set_singleton t : list_of_set {[ t ]} = [t].
Proof using list_of_set_perm.
  apply Permutation_singleton_r.
  by rewrite list_of_set_perm, elements_singleton.
Qed.

Lemma derived_tags_finding_of ty nm :
  derived_tags [finding_of ty nm] =
  match tag_of (normalize ty) (normalize nm) with
  | Some t => [t]
  | None => []
  end.
Proof. reflexivity. Qed.

Lemma get_tags_finding_of ty nm :
  get_tags_from_die list_of_set [finding_of ty nm] =
  Ok (match tag_of (normalize ty) (normalize nm) with
      | Some t => [t]
      | None => []
      end).
Proof using list_of_set_perm.
  unfold get_tags_from_die. rewrite tags_of_detects_typed by done.
  cbn [mbind result_bind]. f_equal. rewrite derived_tags_finding_of.
  destruct (tag_of (normalize ty) (normalize nm)) as [t|]; cbn [list_to_set].
  - rewrite <- list_of_set_singleton. f_equal.
    by rewrite union_empty_l_L, union_empty_r_L.
  - rewrite <- list_of_set_empty. f_equal; by rewrite union_empty_l_L.
Qed.

(** C2. Whenever [get_tags_from_die] returns, its list has no repetition
    and its members are exactly the tags of the values that have both a
    [type] and a [name]: no tag when the normalised type or the normalised
    name is [unknown], the normalised name alone when the normalised type
    is [malware], and otherwise the normalised type, a colon and the
    normalised name.  It does return on findings whose values are records
    with string fields.  This holds whatever the order in which the set of
    tags is listed.  Malware/Emotet gives [emotet] and Packer/UPX gives
    [packer:upx]. *)
Theorem tags_rule :
  (forall die_data tag_list,
      get_tags_from_die list_of_set die_data = Ok tag_list ->
      NoDup tag_list
      /\ forall t,
           t ∈ tag_list <->
           exists detected v,
             detected ∈ die_data /\ v ∈ finding_values detected
             /\ value_tag v = Some t)
  /\ (forall die_data,
        forallb is_typed_finding die_data = true ->
        exists tag_list, get_tags_from_die list_of_set die_data = Ok tag_list)
  /\ (forall d ty nm,
        dict_get "type" d = Some (JStr ty) ->
        dict_get "name" d = Some (JStr nm) ->
        value_tag (JObj d) =
        if String.eqb (normalize ty) "unknown"
           || String.eqb (normalize nm) "unknown" then None
        else if String.eqb (normalize ty) "malware" then Some (normalize nm)
        else Some (normalize ty ++ ":" ++ normalize nm)%string)
  /\ (forall ty nm,
        normalize ty = "unknown" \/ normalize nm = "unknown" ->
        get_tags_from_die list_of_set [finding_of ty nm] = Ok [])
  /\ (forall ty nm,
        normalize ty = "malware" -> normalize nm <> "unknown" ->
        get_tags_from_die list_of_set [finding_of ty nm] = Ok [normalize nm])
  /\ (forall ty nm,
        normalize ty <> "unknown" -> normalize nm <> "unknown" ->
        normalize ty <> "malware" ->
        get_tags_from_die list_of_set [finding_of ty nm] =
        Ok [(normalize ty ++ ":" ++ normalize nm)%string])
  /\ get_tags_from_die list_of_set [finding_of "Malware" "Emotet"]
     = Ok ["emotet"]
  /\ get_tags_from_die list_of_set [finding_of "Packer" "UPX"]
     = Ok ["packer:upx"].
Proof using list_of_set_perm.
  split; [|split; [|split; [|split; [|split; [|split; [|split]]]]]].
  - intros die_data tag_list. unfold get_tags_from_die.
    destruct (tags_of_detects ∅ die_data) as [tags|] eqn:Htags; [|discriminate].
    apply tags_of_detects_ok in Htags as ->. intros [= <-].
    split; [apply list_of_set_NoDup|].
    intros t. rewrite list_of_set_elem, elem_of_union, elem_of_list_to_set.
    unfold derived_tags. rewrite list_elem_of_omap. split.
    + intros [[]%not_elem_of_empty
             |(v & (detected & Hv & Hd)%list_elem_of_bind & Ht)].
      by exists detected, v.
    + intros (detected & v & Hd & Hv & Ht). right. exists v.
      split; [|done]. apply list_elem_of_bind. by exists detected.
  - intros die_data Htyped. eexists. unfold get_tags_from_die.
    by rewrite tags_of_detects_typed.
  - intros d ty nm Hty Hnm. unfold value_tag, type_and_name.
    by rewrite Hty, Hnm.
  - intros ty nm Hunknown. rewrite get_tags_finding_of. unfold tag_of.
    destruct Hunknown as [-> | ->]; [reflexivity|].
    by rewrite orb_true_r.
  - intros ty nm Hty Hnm. rewrite get_tags_finding_of. unfold tag_of.
    rewrite Hty. apply string_eqb_neq in Hnm. by rewrite Hnm.
  - intros ty nm Hty Hnm Hmal. rewrite get_tags_finding_of. unfold tag_of.
    apply string_eqb_neq in Hty, Hnm, Hmal. by rewrite Hty, Hnm, Hmal.
  - by rewrite get_tags_finding_of.
  - by rewrite get_tags_finding_of.
Qed.

End Tags.

(** ** [process] *)

Section Process.

Variable list_of_set : gset string -> list string.

Lemma quiet_lift {A} (r : result A) : quiet (lift r).
Proof. by intros w w' r' [= <- _]. Qed.

Lemma quiet_ret {A} (a : A) : quiet (mret a).
Proof. by intros w w' r' [= <- _]. Qed.

Lemma quiet_log lv msg : quiet (log lv msg).
Proof. by intros w w' r' [= <- _]. Qed.

Lemma quiet_bind {A B} (m : M A) (f : A -> M B) :
  quiet m -> (forall a, quiet (f a)) -> quiet (m ≫= f).
Proof.
  intros Hm Hf w w' r. unfold mbind, M_bind.
  destruct (m w) as [w1 [a|e]] eqn:Hmw.
  - intros Hfa. rewrite <- (Hm _ _ _ Hmw). by eapply Hf.
  - intros [= <- _]. by eapply Hm.
Qed.

Local Ltac quiet :=
  repeat first
    [ apply quiet_lift | apply quiet_ret | apply quiet_log
    | apply quiet_bind; [|intros ?]
    | match goal with |- quiet (if ?b then _ else _) => destruct b end
    | match goal with |- quiet (match ?x with _ => _ end) => destruct x end ].

Lemma quiet_extract_die die_data sample_hash :
  quiet (extract_json_output_from_die die_data sample_hash).
Proof. unfold extract_json_output_from_die. quiet. Qed.

Lemma quiet_extract_trid trid_data sample_hash :
  quiet (extract_json_output_from_trid trid_data sample_hash).
Proof. unfold extract_json_output_from_trid. quiet. Qed.

(** The detectors send nothing, and the [magika] list they return has
    one element. *)
Lemma detect_ok E sample_resource w w' die_json trid_json magika_json :
  detect E sample_resource w = (w', Ok (die_json, trid_json, magika_json)) ->
  sent w' = sent w /\ exists magika_data, magika_json = [magika_entry magika_data].
Proof.
  intros Hdet. split.
  - revert Hdet. generalize (Ok (die_json, trid_json, magika_json)).
    revert w w'. change (quiet (detect E sample_resource)).
    unfold detect. quiet.
    apply quiet_extract_die. apply quiet_extract_trid.
  - revert Hdet. unfold detect, mbind, M_bind, lift, mret, M_ret.
    repeat match goal with
    | |- context [match ?x with _ => _ end] => destruct x
    end; intros [= _ <-] || discriminate. by eexists.
Qed.

(** The drop of [process] when the three lists are empty. *)
Lemma forward_all_empty sample_resource w :
  forward list_of_set sample_resource [] [] [] w = (w, Ok tt).
Proof. reflexivity. Qed.

Lemma forward_magika sample_resource die_json trid_json entry w :
  forward list_of_set sample_resource die_json trid_json [entry] w =
  match get_tags_from_die list_of_set die_json with
  | Ok tag_list =>
      (log_to
         {| logged := logged w;
            sent := sent w ++
              [ {| headers := [("type", "sample"); ("stage", "analyzed")];
                   sample := sample_resource;
                   tags := tag_list;
                   attributes := {| die := die_json; trid := trid_json;
                                    magika := [entry] |} |} ] |}
         INFO ("Successfully pushed DiE, TrID, and Magika data for "
               ++ fmt (res_sha256 sample_resource)),
       Ok tt)
  | Raise e => (w, Raise e)
  end.
Proof.
  unfold forward.
  destruct die_json, trid_json; unfold mbind, M_bind, lift;
    destruct (get_tags_from_die list_of_set _); reflexivity.
Qed.

(** C9. In [process] the [magika] list has exactly one element, so the
    three lists are never all empty and the drop is never taken: when
    [process] ends without an exception, it has sent exactly one task for
    the sample, with a [magika] attribute of one element. *)
Theorem magika_always_sent E sample_resource w :
  (forall w1 die_json trid_json magika_json,
      detect E sample_resource w =
        (w1, Ok (die_json, trid_json, magika_json)) ->
      List.length magika_json = 1
      /\ (die_json, trid_json, magika_json) <> ([], [], []))
  /\ (forall w' u,
        process list_of_set E sample_resource w = (w', Ok u) ->
        exists task,
          sent w' = sent w ++ [task]
          /\ sample task = sample_resource
          /\ List.length (magika (attributes task)) = 1).
Proof.
  split.
  - intros w1 die_json trid_json magika_json Hdet.
    apply detect_ok in Hdet as [_ [magika_data ->]]. by split.
  - intros w' u. unfold process. unfold mbind at 1, M_bind at 1.
    destruct (detect E sample_resource w)
      as [w1 [[[die_json trid_json] magika_json]|e]] eqn:Hdet; [|done].
    apply detect_ok in Hdet as [Hsent [magika_data ->]].
    unfold mbind, M_bind, log. rewrite forward_magika.
    destruct (get_tags_from_die list_of_set die_json) as [tag_list|e]; [|done].
    intros [= <- _]. cbn [sent log_to]. rewrite Hsent. by eexists.
Qed.

(** When DiE gives no finding, [process] goes on with the other two
    detectors and sends their results. *)
Lemma process_without_findings E sample_resource w
    f_name die_data trid_data trid_json magika_data w1 w2 :
  download_temporary_file E sample_resource = Ok f_name ->
  check_output E ["/usr/bin/diec"; "-j"; "-d"; "-u"; "-g"; "-a"; f_name]
    = Ok die_data ->
  extract_json_output_from_die die_data (sha256_or_name sample_resource) w
    = (w1, Ok []) ->
  check_output E ["/usr/local/bin/trid"; f_name] = Ok trid_data ->
  extract_json_output_from_trid trid_data (sha256_or_name sample_resource) w1
    = (w2, Ok trid_json) ->
  identify_path E f_name = Ok magika_data ->
  exists w',
    process list_of_set E sample_resource w = (w', Ok tt)
    /\ sent w' =
       sent w ++
         [ {| headers := [("type", "sample"); ("stage", "analyzed")];
              sample := sample_resource;
              tags := list_of_set ∅;
              attributes := {| die := []; trid := trid_json;
                               magika := [magika_entry magika_data] |} |} ].
Proof.
  intros Hf Hdie Hdj Htrid Htj Hmagika.
  assert (Hs1 : sent w1 = sent w) by (by eapply quiet_extract_die).
  assert (Hs2 : sent w2 = sent w1) by (by eapply quiet_extract_trid).
  eexists. unfold process.
  erewrite bind_ok; cycle 1.
  { unfold detect. rewrite Hf, bind_lift_ok, Hdie, bind_lift_ok.
    erewrite bind_ok by exact Hdj. rewrite Htrid, bind_lift_ok.
    erewrite bind_ok by exact Htj. rewrite Hmagika, bind_lift_ok.
    reflexivity. }
  unfold mbind at 1, M_bind at 1, log. rewrite forward_magika.
  cbn [get_tags_from_die tags_of_detects mbind result_bind].
  split; [reflexivity|]. cbn [sent log_to]. by rewrite Hs2, Hs1.
Qed.

(** What the end of [process] does to the tasks sent: nothing, or it adds
    one task that carries the three lists, and then one of them is not
    empty. *)
Lemma forward_cases sample_resource die_json trid_json magika_json w w' r :
  forward list_of_set sample_resource die_json trid_json magika_json w
    = (w', r) ->
  sent w' = sent w
  \/ ((die_json, trid_json, magika_json) <> ([], [], [])
      /\ exists tag_list,
           sent w' = sent w ++
             [ {| headers := [("type", "sample"); ("stage", "analyzed")];
                  sample := sample_resource;
                  tags := tag_list;
                  attributes := {| die := die_json; trid := trid_json;
                                   magika := magika_json |} |} ]).
Proof.
  unfold forward.
  destruct die_json, trid_json, magika_json;
    try (intros [= <- _]; by left);
    unfold mbind, M_bind, lift;
    (destruct (get_tags_from_die list_of_set _) as [tag_list|e];
     [|intros [= <- _]; by left]);
    intros [= <- _]; right; (split; [done|by exists tag_list]).
Qed.

Lemma process_cases E sample_resource w :
  process list_of_set E sample_resource w =
  match detect E sample_resource w with
  | (w1, Ok (die_json, trid_json, magika_json)) =>
      forward list_of_set sample_resource die_json trid_json magika_json
        {| logged := logged w1 ++ [performed sample_resource]; sent := sent w1 |}
  | (w1, Raise e) => (w1, Raise e)
  end.
Proof.
  unfold process, mbind at 1, M_bind at 1.
  by destruct (detect E sample_resource w) as [w1 [[[? ?] ?]|]].
Qed.

Lemma quiet_detect E sample_resource : quiet (detect E sample_resource).
Proof.
  unfold detect.
  repeat first
    [ apply quiet_lift | apply quiet_ret
    | apply quiet_extract_die | apply quiet_extract_trid
    | apply quiet_bind; [|intros ?] ].
Qed.

(** C1. The guard at the end of [process]: when the three lists are all
    empty it returns at once, so that nothing is sent and nothing more is
    logged.  A task is sent only when one of the three lists is not empty,
    and then it is one task, which carries the three lists.  So whatever
    [process] sends has a list that is not empty among its [die], [trid]
    and [magika] attributes, whether it returns or raises. *)
Theorem empty_results_dropped :
  (forall sample_resource w,
      forward list_of_set sample_resource [] [] [] w = (w, Ok tt))
  /\ (forall sample_resource die_json trid_json magika_json w w' r,
        forward list_of_set sample_resource die_json trid_json magika_json w
          = (w', r) ->
        sent w' <> sent w ->
        (die_json, trid_json, magika_json) <> ([], [], [])
        /\ exists tag_list,
             sent w' = sent w ++
               [ {| headers := [("type", "sample"); ("stage", "analyzed")];
                    sample := sample_resource;
                    tags := tag_list;
                    attributes := {| die := die_json; trid := trid_json;
                                     magika := magika_json |} |} ])
  /\ (forall E sample_resource w w' r,
        process list_of_set E sample_resource w = (w', r) ->
        exists new,
          sent w' = sent w ++ new
          /\ Forall (fun task =>
                       sample task = sample_resource
                       /\ (die (attributes task), trid (attributes task),
                           magika (attributes task)) <> ([], [], [])) new).
Proof.
  split; [reflexivity|]. split.
  - intros sample_resource die_json trid_json magika_json w w' r Hfw Hsent.
    by destruct (forward_cases _ _ _ _ _ _ _ Hfw).
  - intros E sample_resource w w' r. rewrite process_cases.
    destruct (detect E sample_resource w)
      as [w1 [[[die_json trid_json] magika_json]|e]] eqn:Hdet.
    + apply quiet_detect in Hdet.
      intros [Hsame|(Hne & tag_list & Hsent)]%forward_cases;
        cbn [sent] in *; rewrite <- Hdet.
      * exists []. by rewrite app_nil_r.
      * eexists [_]. split; [exact Hsent|]. by repeat constructor.
    + intros [= <- _]. exists []. rewrite app_nil_r.
      split; [by eapply quiet_detect|constructor].
Qed.

(** C6. [extract_json_output_from_die] returns the empty list and raises
    nothing when the output is empty, and then it logs nothing; when the
    output has no span from an opening to a later closing brace, as in
    [not json], and then it logs one error; and when the parsed object
    has no [detects] field, and then it logs one error.  After such a
    return [process] goes on: it runs the other two detectors and sends a
    task whose [die] attribute is empty. *)
Theorem die_soft_failures :
  (forall sample_hash w,
      extract_json_output_from_die EmptyString sample_hash w = (w, Ok []))
  /\ (forall die_data sample_hash w,
        die_data <> EmptyString ->
        (forall pre mid post,
            die_data <> (pre ++ String "{" (mid ++ String "}" post))%string) ->
        extract_json_output_from_die die_data sample_hash w =
        (log_to w ERROR
           ("Could not find JSON object in DiE output for " ++ sample_hash),
         Ok []))
  /\ (forall sample_hash w,
        extract_json_output_from_die "not json" sample_hash w =
        (log_to w ERROR
           ("Could not find JSON object in DiE output for " ++ sample_hash),
         Ok []))
  /\ (forall die_data sample_hash w m d,
        Re.search die_pattern die_data = Some m ->
        Json.loads (Re.whole m) = Ok (JObj d) ->
        dict_get "detects" d = None ->
        extract_json_output_from_die die_data sample_hash w =
        (log_to w ERROR
           (sample_hash ++ " failed running file-detection. Error code 01"),
         Ok []))
  /\ (forall E sample_resource w f_name die_data trid_data trid_json
             magika_data w1 w2,
        download_temporary_file E sample_resource = Ok f_name ->
        check_output E
          ["/usr/bin/diec"; "-j"; "-d"; "-u"; "-g"; "-a"; f_name]
          = Ok die_data ->
        extract_json_output_from_die die_data
          (sha256_or_name sample_resource) w = (w1, Ok []) ->
        check_output E ["/usr/local/bin/trid"; f_name] = Ok trid_data ->
        extract_json_output_from_trid trid_data
          (sha256_or_name sample_resource) w1 = (w2, Ok trid_json) ->
        identify_path E f_name = Ok magika_data ->
        exists w',
          process list_of_set E sample_resource w = (w', Ok tt)
          /\ sent w' =
             sent w ++
               [ {| headers := [("type", "sample"); ("stage", "analyzed")];
                    sample := sample_resource;
                    tags := list_of_set ∅;
                    attributes :=
                      {| die := []; trid := trid_json;
                         magika := [magika_entry magika_data] |} |} ]).
Proof.
  split; [reflexivity|]. split; [|split; [reflexivity|split]];
    [| |apply process_without_findings].
  - intros die_data sample_hash w Hne Hno.
    unfold extract_json_output_from_die.
    destruct die_data; [done|]. by rewrite search_die_pattern_none.
  - intros die_data sample_hash w m d Hm Hj Hd.
    rewrite (extract_die_matched _ _ _ _ Hm), Hj, bind_lift_ok.
    unfold Py.contains. by rewrite Hd, bind_lift_ok.
Qed.

End Process.

(** ** The statements on sample runs *)

Lemma tags_rule_witness :
  (forall X : gset string, elements X ≡ₚ elements X)
  /\ (exists tag_list,
        get_tags_from_die elements
          [finding_of "Packer" "UPX"; finding_of "Malware" "Emotet";
           finding_of "Packer" "UPX"; JObj []] = Ok tag_list
        /\ NoDup tag_list
        /\ forall t,
             t ∈ tag_list <->
             exists detected v,
               detected ∈ [finding_of "Packer" "UPX"; finding_of "Malware" "Emotet";
                           finding_of "Packer" "UPX"; JObj []]
               /\ v ∈ finding_values detected /\ value_tag v = Some t)
  /\ value_tag (JObj [("type", JStr "Packer"); ("name", JStr "UPX")])
     = Some "packer:upx"
  /\ get_tags_from_die elements [finding_of "Unknown" "X"] = Ok []
  /\ get_tags_from_die elements [finding_of "X" "Unknown"] = Ok []
  /\ get_tags_from_die elements [finding_of "Malware" "Agent Tesla"]
     = Ok ["agent-tesla"]
  /\ get_tags_from_die elements [finding_of "Compiler" "Visual C: C++"]
     = Ok ["compiler:visual-c:c++"].
Proof.
  assert (Hperm : forall X : gset string, elements X ≡ₚ elements X)
    by reflexivity.
  destruct (tags_rule elements Hperm)
    as (Hall & Hreturns & Hvalue & Hunk & Hmal & Hother & _).
  split; [exact Hperm|]. split.
  { destruct (Hreturns [finding_of "Packer" "UPX"; finding_of "Malware" "Emotet";
                        finding_of "Packer" "UPX"; JObj []] eq_refl)
      as [tag_list Hlist].
    exists tag_list. split; [exact Hlist|]. by apply Hall. }
  split; [apply (Hvalue _ "Packer" "UPX"); reflexivity|].
  split; [apply Hunk; left; reflexivity|].
  split; [apply Hunk; right; reflexivity|].
  split; [apply Hmal; [reflexivity|discriminate]|].
  apply Hother; discriminate.
Defined.

Lemma die_filter_informative_witness :
  die_loop [finding_of "Packer" "UPX"; finding_of "Unknown" "x"; JObj []] []
  = Ok (List.filter informative
          [finding_of "Packer" "UPX"; finding_of "Unknown" "x"; JObj []])
  /\ extract_json_output_from_die
       (dq "log {'detects':[{'values':[{'type':'Packer','name':'UPX'},{'type':'Unknown','name':'y'}]},{'values':[]}]} ")
       "9f86" empty_world
     = (empty_world,
        Ok (List.filter informative
              [JObj [("values", JArr [JObj [("type", JStr "Packer");
                                            ("name", JStr "UPX")];
                                      JObj [("type", JStr "Unknown");
                                            ("name", JStr "y")]])];
               JObj [("values", JArr [])]])).
Proof.
  destruct die_filter_informative as (Hloop & Hextract & _).
  split; [apply Hloop; reflexivity|].
  eapply Hextract; reflexivity.
Defined.

Lemma die_span_parse_fatal_witness :
  Re.search die_pattern "log: {a}{b} end" =
  Some {| Re.whole := "{a}{b}"; Re.groups := []; Re.after := " end" |}
  /\ extract_json_output_from_die "log: {a}{b} end" "9f86" empty_world
     = (empty_world, Raise JSONDecodeError)
  /\ process elements (example_env "{a}{b}" trid_packed (example_magika "pebin"))
       example_sample empty_world
     = (empty_world, Raise JSONDecodeError).
Proof.
  destruct die_span_parse_fatal as (Hspan & Hraise & Hprocess).
  split; [apply (Hspan "log: " "a}{b" " end"); reflexivity|].
  split.
  - eapply Hraise; reflexivity.
  - eapply Hprocess; reflexivity.
Defined.

Lemma die_soft_failures_witness :
  extract_json_output_from_die "x" "9f86" empty_world
  = (log_to empty_world ERROR
       "Could not find JSON object in DiE output for 9f86", Ok [])
  /\ extract_json_output_from_die (dq "{'error':'no file'}") "9f86" empty_world
     = (log_to empty_world ERROR
          "9f86 failed running file-detection. Error code 01", Ok [])
  /\ exists w',
       process elements
         (example_env (dq "{'error':'no file'}") trid_packed
            (example_magika "pebin"))
         example_sample empty_world = (w', Ok tt)
       /\ sent w' =
          sent empty_world ++
            [ {| headers := [("type", "sample"); ("stage", "analyzed")];
                 sample := example_sample;
                 tags := elements (∅ : gset string);
                 attributes :=
                   {| die := [];
                      trid := [ {| percentage := Float.Fin (25 # 2);
                                   extension := ".DLL";
                                   name := "Win32 Dynamic Link Library" |};
                                {| percentage := Float.Fin 80;
                                   extension := ".EXE";
                                   name := "UPX compressed Win32 Executable" |} ];
                      magika := [magika_entry (example_magika "pebin")] |} |} ].
Proof.
  destruct (die_soft_failures elements)
    as (_ & Hnospan & _ & Hnodetects & Hgoes_on).
  split; [|split].
  - apply Hnospan; [discriminate|].
    intros [|c [|c' pre]] mid post; discriminate.
  - eapply Hnodetects; reflexivity.
  - apply (Hgoes_on
             (example_env (dq "{'error':'no file'}") trid_packed
                (example_magika "pebin"))
             example_sample empty_world "/tmp/sample"
             (dq "{'error':'no file'}") trid_packed _ (example_magika "pebin")
             (log_to empty_world ERROR
                "9f86d081884c7d65 failed running file-detection. Error code 01")
             (log_to empty_world ERROR
                "9f86d081884c7d65 failed running file-detection. Error code 01"));
      reflexivity.
Defined.

Lemma trid_total_witness :
  extract_json_output_from_trid trid_unknown "9f86" empty_world
  = (log_to empty_world ERROR
       "Could not find JSON object in TrID output for 9f86", Ok []).
Proof.
  destruct (trid_total trid_unknown "9f86" empty_world) as (_ & _ & Hnone & _).
  apply Hnone; [discriminate|reflexivity].
Defined.

Lemma magika_always_sent_witness :
  exists task,
    sent (fst (process elements
                 (example_env die_packed trid_packed (example_magika "pebin"))
                 example_sample empty_world))
    = sent empty_world ++ [task]
    /\ sample task = example_sample
    /\ List.length (magika (attributes task)) = 1.
Proof.
  destruct (magika_always_sent elements
              (example_env die_packed trid_packed (example_magika "pebin"))
              example_sample empty_world) as [_ Hsent].
  eapply Hsent. vm_compute. reflexivity.
Defined.

Lemma empty_results_dropped_witness :
  ((@nil json, @nil TridEntry, [magika_entry (example_magika "unknown")])
   <> ([], [], [])
   /\ exists tag_list,
        sent (fst (forward elements example_sample [] []
                     [magika_entry (example_magika "unknown")] empty_world))
        = sent empty_world ++
          [ {| headers := [("type", "sample"); ("stage", "analyzed")];
               sample := example_sample;
               tags := tag_list;
               attributes :=
                 {| die := []; trid := [];
                    magika := [magika_entry (example_magika "unknown")] |} |} ])
  /\ exists new,
       sent (fst (process elements
                    (example_env die_unknown trid_unknown
                       (example_magika "unknown"))
                    example_sample empty_world))
       = sent empty_world ++ new
       /\ Forall (fun task =>
                    sample task = example_sample
                    /\ (die (attributes task), trid (attributes task),
                        magika (attributes task)) <> ([], [], [])) new.
Proof.
  destruct (empty_results_dropped elements) as (_ & Hforward & Hprocess).
  split.
  - apply (Hforward example_sample [] []
             [magika_entry (example_magika "unknown")] empty_world _ (Ok tt)).
    + vm_compute. reflexivity.
    + discriminate.
  - apply (Hprocess (example_env die_unknown trid_unknown
                       (example_magika "unknown"))
             example_sample empty_world _ (Ok tt)).
    vm_compute. reflexivity.
Defined.
(** * Further properties *)

(** ** [normalize] *)

Section NormalizeMore.

Local Open Scope string_scope.

(** [normalize] on text outside ASCII: an accented capital, the capital
    I with a dot above, whose lower case is two characters, the Kelvin
    sign, and the capital sigma, final and not. *)
Example normalize_beyond_ascii :
  normalize "É: Ç" = "é:ç"
  /\ normalize "İ" = String "i" (String 775%N EmptyString)
  /\ normalize "UNKNOWN" = "unknown"
  /\ normalize "ΟΔΟΣ ΣΟΦΟΣ" = "οδος-σοφος".
Proof. repeat split; vm_compute; reflexivity. Qed.

(** X1. The strings [normalize] leaves unchanged are exactly those in
    which every character is its own lower case and none is a space. *)
Theorem normalize_fixed_point (s : string) :
  normalize s = s <-> Str.all settled s = true.
Proof.
  rewrite normalize_refines. split.
  - intros Hs. rewrite <- Hs. apply normalize_spec_settled.
  - apply normalize_spec_fixes.
Qed.

Lemma to_lower_full_length c :
  String.length (Unicode.to_lower_full c) =
  if Char.eqb c capital_i_with_dot then 2 else 1.
Proof.
  destruct (char_eqb_spec c capital_i_with_dot) as [->|Hne]; [reflexivity|].
  unfold Unicode.to_lower_full, Unicode.case_mapping.
  destruct (Unicode.find_full c Unicode.lowercase_full) as [image|] eqn:Hfull.
  - apply find_full_In in Hfull. by destruct Hfull as [[= <- _]|[]].
  - by destruct (Unicode.find_run c Unicode.lowercase).
Qed.

Lemma lower_at_length before c after :
  String.length (Str.lower_at before c after) =
  if Char.eqb c capital_i_with_dot then 2 else 1.
Proof.
  unfold Str.lower_at.
  destruct (char_eqb_spec c Str.capital_sigma) as [->|_]; [reflexivity|].
  apply to_lower_full_length.
Qed.

Lemma lower_from_length s : forall before,
  String.length (Str.lower_from before s) =
  String.length s + occurrences capital_i_with_dot s.
Proof.
  induction s as [|c s IH]; intros before; [reflexivity|].
  cbn [Str.lower_from String.length occurrences].
  rewrite length_append, lower_at_length, IH.
  destruct (Char.eqb c capital_i_with_dot); lia.
Qed.

Lemma collapse_length s :
  String.length (collapse s) <= String.length s
  /\ (collapse s = EmptyString -> s = EmptyString).
Proof.
  induction s as [|c|c c' s [IH _] [IH' _]] using string_pair_ind.
  - by split.
  - cbn [collapse]. destruct (Char.eqb c ":"), (Char.eqb c " ");
      cbn [String.length]; (split; [lia|discriminate]).
  - rewrite (collapse_cons c). cbn [String.length] in *.
    destruct (Char.eqb c ":"); [destruct (Char.eqb c' " ")|
                                destruct (Char.eqb c " ")];
      cbn [String.length]; (split; [lia|discriminate]).
Qed.

(** X2. [normalize] lengthens a string by at most one character for each
    capital I with a dot above in it, the one character whose lower case
    is two characters, and by nothing when there is none; and only the
    empty string is normalised to the empty string. *)
Theorem normalize_length (s : string) :
  String.length (normalize s)
    <= String.length s + occurrences capital_i_with_dot s
  /\ (normalize s = EmptyString <-> s = EmptyString).
Proof.
  rewrite normalize_refines. unfold normalize_spec.
  destruct (collapse_length (Str.lower s)) as [Hlen Hempty].
  pose proof (lower_from_length s EmptyString) as Hlower.
  fold (Str.lower s) in Hlower. split; [lia|]. split; [|by intros ->].
  intros Hs%Hempty. rewrite Hs in Hlower. by destruct s.
Qed.

End NormalizeMore.


(** ** [get_tags_from_die] *)

Section TagsMore.

Variable list_of_set : gset string -> list string.
Hypothesis list_of_set_perm : forall X, list_of_set X ≡ₚ elements X.

Lemma get_tags_elem die_data tag_list :
  get_tags_from_die list_of_set die_data = Ok tag_list ->
  NoDup tag_list /\ forall t, t ∈ tag_list <-> t ∈ derived_tags die_data.
Proof using list_of_set_perm.
  unfold get_tags_from_die.
  destruct (tags_of_detects ∅ die_data) as [tags|] eqn:Htags; [|discriminate].
  apply tags_of_detects_ok in Htags as ->. intros [= <-].
  split; [apply list_of_set_NoDup, list_of_set_perm|].
  intros t. rewrite (list_of_set_elem _ list_of_set_perm).
  rewrite elem_of_union, elem_of_list_to_set. split; [|by right].
  by intros [[]%not_elem_of_empty|].
Qed.

Lemma elem_of_derived_tags die_data t :
  t ∈ derived_tags die_data <->
  exists detected v,
    detected ∈ die_data /\ v ∈ finding_values detected /\ value_tag v = Some t.
Proof.
  unfold derived_tags. rewrite list_elem_of_omap. split.
  - intros (v & (detected & Hv & Hd)%list_elem_of_bind & Ht).
    by exists detected, v.
  - intros (detected & v & Hd & Hv & Ht). exists v. split; [|done].
    apply list_elem_of_bind. by exists detected.
Qed.

Lemma normalize_settled s : Str.all settled (normalize s) = true.
Proof. rewrite normalize_refines. apply normalize_spec_settled. Qed.

Lemma colon_not_unknown (a b : string) :
  (a ++ String ":" b)%string <> "unknown".
Proof.
  intros H.
  apply (f_equal (Str.all (fun c => negb (Char.eqb c ":")))) in H.
  rewrite all_append in H. cbn in H. by rewrite andb_false_r in H.
Qed.

Lemma value_tag_normalised v t :
  value_tag v = Some t -> Str.all settled t = true /\ t <> "unknown".
Proof.
  unfold value_tag. destruct (type_and_name v) as [[ty nm]|]; [|discriminate].
  destruct ty as [| | |ty| |]; try discriminate.
  destruct nm as [| | |nm| |]; try discriminate.
  unfold tag_of.
  destruct (String.eqb (normalize ty) "unknown"); [discriminate|].
  destruct (string_eqb_spec (normalize nm) "unknown") as [|Hnm];
    [discriminate|].
  cbn [orb]. destruct (String.eqb (normalize ty) "malware"); intros [= <-].
  - split; [apply normalize_settled|done].
  - split; [|apply colon_not_unknown].
    rewrite all_append. cbn [String.append Str.all].
    by rewrite !normalize_settled.
Qed.

(** X3. Every tag [get_tags_from_die] returns is normalised: [normalize]
    leaves it unchanged, every character of it is its own lower case and
    none is a space; and no tag is [unknown]. *)
Theorem tags_normalised die_data tag_list t :
  get_tags_from_die list_of_set die_data = Ok tag_list ->
  t ∈ tag_list ->
  normalize t = t /\ Str.all settled t = true /\ t <> "unknown".
Proof using list_of_set_perm.
  intros [_ Helem]%get_tags_elem Ht. apply Helem in Ht.
  apply elem_of_derived_tags in Ht as (detected & v & _ & _ & Hv).
  apply value_tag_normalised in Hv as [Hsettled Hne].
  split; [|done]. rewrite normalize_refines. by apply normalize_spec_fixes.
Qed.

(** X4. The tags depend on the findings as a set: two lists with the same
    findings, in any order and repeated any number of times, give the same
    tags up to order. *)
Theorem tags_order_irrelevant die1 die2 tags1 tags2 :
  (forall detected, detected ∈ die1 <-> detected ∈ die2) ->
  get_tags_from_die list_of_set die1 = Ok tags1 ->
  get_tags_from_die list_of_set die2 = Ok tags2 ->
  tags1 ≡ₚ tags2.
Proof using list_of_set_perm.
  intros Hsame [Hnd1 He1]%get_tags_elem [Hnd2 He2]%get_tags_elem.
  apply NoDup_Permutation; [done|done|]. intros t.
  rewrite He1, He2, !elem_of_derived_tags.
  split; intros (detected & v & Hd & Hv); exists detected, v;
    (split; [by apply Hsame|done]).
Qed.

Lemma type_is_unknown_no_tag v :
  type_is v "Unknown" = true -> value_tag v = None.
Proof.
  unfold type_is, value_tag, type_and_name.
  destruct v as [| | | | |d]; try discriminate.
  destruct (dict_get "type" d) as [ty|]; [|discriminate].
  destruct ty as [| | |ty| |]; try discriminate.
  cbn [Py.eq_str]. intros ->%string_eqb_eq.
  destruct (dict_get "name" d) as [nm|]; [|reflexivity].
  by destruct nm.
Qed.

Lemma derived_tags_cons detected die_data :
  derived_tags (detected :: die_data) =
  omap value_tag (finding_values detected) ++ derived_tags die_data.
Proof. unfold derived_tags. cbn [mbind list_bind]. apply omap_app. Qed.

(** The findings the filter drops give no tag. *)
Lemma derived_tags_filter detects :
  derived_tags (List.filter informative detects) = derived_tags detects.
Proof.
  induction detects as [|detected rest IH]; [reflexivity|].
  cbn [List.filter]. rewrite (derived_tags_cons detected rest).
  destruct (informative detected) eqn:Hinf.
  - by rewrite derived_tags_cons, IH.
  - rewrite IH. unfold informative in Hinf.
    destruct (finding_values detected) as [|v [|v' vs]]; [done| |done].
    apply negb_false_iff in Hinf. cbn [omap list_omap].
    by rewrite (type_is_unknown_no_tag v Hinf).
Qed.

Lemma forallb_filter {A} (p q : A -> bool) l :
  forallb p l = true -> forallb p (List.filter q l) = true.
Proof.
  induction l as [|a l IH]; [done|]. cbn [forallb List.filter].
  intros [Ha Hl]%andb_prop. destruct (q a); cbn [forallb]; [|by apply IH].
  by rewrite Ha, IH.
Qed.

(** X5. The filter of [extract_json_output_from_die] loses no tag: on the
    findings DiE writes, the tags of the filtered list are the tags of the
    whole [detects] array. *)
Theorem filter_keeps_tags detects :
  forallb is_finding detects = true ->
  forallb is_typed_finding detects = true ->
  exists output tags1 tags2,
    die_loop detects [] = Ok output
    /\ get_tags_from_die list_of_set output = Ok tags1
    /\ get_tags_from_die list_of_set detects = Ok tags2
    /\ tags1 ≡ₚ tags2.
Proof using list_of_set_perm.
  intros Hfinding Htyped.
  exists (List.filter informative detects).
  assert (Htyped' : forallb is_typed_finding (List.filter informative detects)
                    = true) by by apply forallb_filter.
  unfold get_tags_from_die.
  rewrite !tags_of_detects_typed, derived_tags_filter by done.
  eexists _, _. split; [by rewrite die_loop_filter|]. by repeat split.
Qed.

Lemma tags_of_packer_not_str tags d ty nm :
  dict_get "type" d = Some ty ->
  dict_get "name" d = Some nm ->
  is_str ty && is_str nm = false ->
  tags_of_packer tags (JObj d) = Raise AttributeError.
Proof.
  intros Hty Hnm Hstr. unfold tags_of_packer.
  cbn [Py.contains Py.getitem mbind result_bind]. rewrite Hty, Hnm.
  cbn [mbind result_bind].
  destruct ty; try reflexivity. destruct nm; try reflexivity. discriminate.
Qed.

Lemma tags_of_values_app vs1 vs2 : forall tags,
  tags_of_values tags (vs1 ++ vs2) =
  tags_of_values tags vs1 ≫= fun tags' => tags_of_values tags' vs2.
Proof.
  induction vs1 as [|v vs1 IH]; intros tags; [reflexivity|].
  cbn [app tags_of_values].
  destruct (tags_of_packer tags v); [apply IH|reflexivity].
Qed.

Lemma tags_of_detects_app die1 die2 : forall tags,
  tags_of_detects tags (die1 ++ die2) =
  tags_of_detects tags die1 ≫= fun tags' => tags_of_detects tags' die2.
Proof.
  induction die1 as [|detected die1 IH]; intros tags; [reflexivity|].
  cbn [app tags_of_detects].
  destruct (Py.contains "values" detected) as [has|]; [|reflexivity].
  cbn [mbind result_bind]. destruct (negb has); [apply IH|].
  destruct (Py.getitem detected "values") as [values|]; [|reflexivity].
  cbn [mbind result_bind].
  destruct (Py.iter values) as [packers|]; [|reflexivity].
  cbn [mbind result_bind].
  destruct (tags_of_values tags packers); [apply IH|reflexivity].
Qed.

(** X16. One value whose [type] or [name] is not a string makes
    [get_tags_from_die] raise [AttributeError], whatever well-formed
    findings and values come before it and whatever comes after. *)
Theorem tags_field_not_a_string before d values_before vd ty nm values_after after :
  forallb is_typed_finding before = true ->
  dict_get "values" d
    = Some (JArr (values_before ++ JObj vd :: values_after)) ->
  forallb is_typed_value values_before = true ->
  dict_get "type" vd = Some ty ->
  dict_get "name" vd = Some nm ->
  is_str ty && is_str nm = false ->
  get_tags_from_die list_of_set (before ++ JObj d :: after)
  = Raise AttributeError.
Proof.
  intros Hbefore Hvalues Hvb Hty Hnm Hstr. unfold get_tags_from_die.
  rewrite tags_of_detects_app, tags_of_detects_typed by done.
  cbn [mbind result_bind tags_of_detects Py.contains Py.getitem].
  rewrite Hvalues. cbn [negb mbind result_bind Py.iter].
  rewrite tags_of_values_app, tags_of_values_typed by done.
  cbn [mbind result_bind tags_of_values].
  by rewrite (tags_of_packer_not_str _ vd ty nm).
Qed.

End TagsMore.

(** ** [extract_json_output_from_die] *)

Section DieMore.

(** One turn of the loop either drops the finding or keeps it, and it
    keeps only an object with a non-empty [values]. *)
Lemma die_loop_step detected rest output out :
  die_loop (detected :: rest) output = Ok out ->
  die_loop rest output = Ok out
  \/ (has_values detected /\ die_loop rest (output ++ [detected]) = Ok out).
Proof.
  cbn [die_loop].
  destruct detected as [| | | | |d]; try discriminate.
  cbn [Py.get mbind result_bind].
  destruct (dict_get "values" d) as [v|] eqn:Hv; [|by left].
  destruct (Py.len v) as [[|n]|] eqn:Hlen; [by left| |discriminate].
  cbn [mbind result_bind Nat.eqb].
  match goal with
  | |- context [mbind _ ?x] => destruct x as [[]|]
  end; cbn [mbind result_bind]; [by left| |discriminate].
  intros Hout. right. split; [|done]. by exists d, v, n.
Qed.

Lemma die_loop_kept detects : forall output out,
  die_loop detects output = Ok out ->
  exists kept,
    out = output ++ kept /\ sublist kept detects /\ Forall has_values kept.
Proof.
  induction detects as [|detected rest IH]; intros output out.
  - intros [= <-]. exists []. by rewrite app_nil_r.
  - intros [Hdrop|[Hvalues Hkeep]]%die_loop_step.
    + destruct (IH _ _ Hdrop) as (kept & -> & Hsub & Hall).
      exists kept. split; [done|]. split; [by apply sublist_cons|done].
    + destruct (IH _ _ Hkeep) as (kept & -> & Hsub & Hall).
      exists (detected :: kept). rewrite <- app_assoc.
      split; [done|]. split; [by apply sublist_skip|by constructor].
Qed.

(** X6. Whatever the [detects] array holds, when the loop of
    [extract_json_output_from_die] returns, it returns findings of the
    array, in their order, and each of them is an object with a non-empty
    [values]. *)
Theorem die_loop_returns_findings detects out :
  die_loop detects [] = Ok out ->
  sublist out detects /\ Forall has_values out.
Proof.
  intros (kept & -> & Hsub & Hall)%die_loop_kept. by split.
Qed.

(** X7. The text before the first opening brace and after the last
    closing brace does not count: the function returns what it returns on
    the span alone. *)
Theorem die_noise_ignored pre mid post sample_hash w :
  Str.contains "{" pre = false ->
  Str.contains "}" post = false ->
  extract_json_output_from_die
    (pre ++ String "{" (mid ++ String "}" post))%string sample_hash w
  = extract_json_output_from_die
      (String "{" (mid ++ String "}" EmptyString))%string sample_hash w.
Proof.
  intros Hpre Hpost.
  rewrite (extract_die_matched _ _ _ _ (search_die_pattern pre mid post Hpre Hpost)).
  by rewrite (extract_die_matched _ _ _ _
                (search_die_pattern EmptyString mid EmptyString eq_refl eq_refl)).
Qed.

(** What the two extractions do to the world: nothing, or one line at
    level ERROR, and then they return the empty list. *)
Lemma extract_die_effects die_data sample_hash w w' r :
  extract_json_output_from_die die_data sample_hash w = (w', r) ->
  w' = w \/ exists msg, w' = log_to w ERROR msg /\ r = Ok [].
Proof.
  unfold extract_json_output_from_die, mbind, M_bind, lift, mret, M_ret, log.
  repeat match goal with
  | |- context [match ?x with _ => _ end] => destruct x
  | |- context [if ?b then _ else _] => destruct b
  end; intros [= <- <-]; (by left) || (right; by eexists).
Qed.

Lemma extract_trid_effects trid_data sample_hash w w' r :
  extract_json_output_from_trid trid_data sample_hash w = (w', r) ->
  w' = w \/ exists msg, w' = log_to w ERROR msg /\ r = Ok [].
Proof.
  rewrite extract_trid_cases.
  destruct trid_data; [intros [= <- <-]; by left|].
  destruct (Re.findall _ _); [intros [= <- <-]; right; by eexists|].
  destruct (trid_entries _); intros [= <- <-]; by left.
Qed.

(** X8. [extract_json_output_from_die] and [extract_json_output_from_trid]
    send no task and log at most one line; the line is at level ERROR and
    comes only with the empty list as result, never with an exception and
    never with a finding or an entry. *)
Theorem extractions_effects (text sample_hash : string) (w w' : world) :
  (forall r,
      extract_json_output_from_die text sample_hash w = (w', r) ->
      sent w' = sent w
      /\ (logged w' = logged w
          \/ exists msg, logged w' = logged w ++ [(ERROR, msg)] /\ r = Ok []))
  /\ (forall r,
        extract_json_output_from_trid text sample_hash w = (w', r) ->
        sent w' = sent w
        /\ (logged w' = logged w
            \/ exists msg, logged w' = logged w ++ [(ERROR, msg)] /\ r = Ok [])).
Proof.
  split; intros r [->|(msg & -> & ->)]%extract_die_effects
    || intros r [->|(msg & -> & ->)]%extract_trid_effects;
    (split; [done|]); (by left) || (right; by exists msg).
Qed.

(** The loop on findings DiE writes followed by anything. *)
Lemma die_loop_prefix before rest : forall output,
  forallb is_finding before = true ->
  die_loop (before ++ rest) output
  = die_loop rest (output ++ List.filter informative before).
Proof.
  induction before as [|detected before IH]; intros output.
  - intros _. cbn. by rewrite app_nil_r.
  - cbn [forallb]. intros [Hd Hbefore]%andb_prop.
    cbn [app die_loop List.filter].
    destruct detected as [| | | | |d]; try discriminate.
    unfold is_finding in Hd. unfold informative, finding_values.
    cbn [Py.get mbind result_bind Py.getitem].
    destruct (dict_get "values" d) as [values|].
    + destruct values as [| | | |vs|]; try discriminate.
      destruct vs as [|v [|v' vs]].
      * cbn. by apply IH.
      * destruct v as [| | | | |vd]; try discriminate.
        cbn [has_type] in Hd. cbn [type_is].
        cbn [Py.len List.length Nat.eqb mbind result_bind Py.getitem
             Py.index nth_error].
        destruct (dict_get "type" vd) as [ty|]; [|discriminate].
        cbn [mbind result_bind].
        destruct (Py.eq_str ty "Unknown"); cbn [negb].
        -- by apply IH.
        -- rewrite IH by done. by rewrite <- app_assoc.
      * cbn [Py.len List.length Nat.eqb mbind result_bind].
        rewrite IH by done. by rewrite <- app_assoc.
    + cbn. by apply IH.
Qed.

(** X15. One malformed finding fails the whole loop, whatever findings
    come before and after: a finding that is not an object raises
    [AttributeError], and a finding whose sole value is a record without a
    [type] raises [KeyError]. *)
Theorem die_loop_malformed before after :
  forallb is_finding before = true ->
  (forall x,
      is_object x = false ->
      die_loop (before ++ x :: after) [] = Raise AttributeError)
  /\ (forall d vd,
        dict_get "values" d = Some (JArr [JObj vd]) ->
        dict_get "type" vd = None ->
        die_loop (before ++ JObj d :: after) [] = Raise KeyError).
Proof.
  intros Hbefore. split.
  - intros x Hx. rewrite die_loop_prefix by done. by destruct x.
  - intros d vd Hvalues Htype. rewrite die_loop_prefix by done.
    cbn [die_loop Py.get mbind result_bind]. rewrite Hvalues.
    cbn [Py.len List.length Nat.eqb mbind result_bind Py.getitem].
    rewrite Hvalues. cbn [mbind result_bind Py.index nth_error Py.getitem].
    by rewrite Htype.
Qed.

End DieMore.

(** ** [str.strip] *)

Section Strip.

Local Open Scope string_scope.

Lemma lstrip_all p s : Str.all p s = true -> Str.all p (Str.lstrip s) = true.
Proof.
  induction s as [|c s IH]; [done|]. cbn [Str.all Str.lstrip].
  intros [Hc Hs]%andb_prop. destruct (Str.is_space c); [by apply IH|].
  cbn [Str.all]. by rewrite Hc, Hs.
Qed.

Lemma rstrip_all p s : Str.all p s = true -> Str.all p (Str.rstrip s) = true.
Proof.
  induction s as [|c s IH]; [done|]. cbn [Str.all Str.rstrip].
  intros [Hc Hs]%andb_prop. specialize (IH Hs).
  destruct (Str.rstrip s).
  - destruct (Str.is_space c); [done|]. cbn [Str.all]. by rewrite Hc.
  - cbn [Str.all] in *. by rewrite Hc, IH.
Qed.

Lemma rstrip_idempotent s : Str.rstrip (Str.rstrip s) = Str.rstrip s.
Proof.
  induction s as [|c s IH]; [done|]. cbn [Str.rstrip].
  destruct (Str.rstrip s) as [|c' r] eqn:Hr.
  - destruct (Str.is_space c) eqn:Hc; [done|]. cbn [Str.rstrip]. by rewrite Hc.
  - cbn [Str.rstrip]. cbn [Str.rstrip] in IH. by rewrite IH.
Qed.

(** Stripping on the right keeps a first character that is not white. *)
Lemma lstrip_rstrip s :
  Str.lstrip s = s -> Str.lstrip (Str.rstrip s) = Str.rstrip s.
Proof.
  destruct s as [|c s]; [done|]. cbn [Str.lstrip Str.rstrip].
  destruct (Str.is_space c) eqn:Hc.
  - intros Hs. exfalso.
    assert (Hlen : forall t, String.length (Str.lstrip t) <= String.length t).
    { induction t as [|a t IHt]; cbn [Str.lstrip String.length]; [lia|].
      destruct (Str.is_space a); cbn [String.length]; lia. }
    specialize (Hlen s). rewrite Hs in Hlen. cbn [String.length] in Hlen. lia.
  - intros _. destruct (Str.rstrip s); cbn [Str.lstrip]; by rewrite Hc.
Qed.

Lemma lstrip_idempotent s : Str.lstrip (Str.lstrip s) = Str.lstrip s.
Proof.
  induction s as [|c s IH]; [done|]. cbn [Str.lstrip].
  destruct (Str.is_space c) eqn:Hc; [done|]. cbn [Str.lstrip]. by rewrite Hc.
Qed.

Lemma strip_idempotent s : Str.strip (Str.strip s) = Str.strip s.
Proof.
  unfold Str.strip.
  by rewrite (lstrip_rstrip _ (lstrip_idempotent s)), rstrip_idempotent.
Qed.

Lemma strip_all p s : Str.all p s = true -> Str.all p (Str.strip s) = true.
Proof. intros Hs. by apply rstrip_all, lstrip_all. Qed.

End Strip.

(** ** [extract_json_output_from_trid] *)

Section TridMore.

Local Ltac invert H :=
  inversion H; subst; clear H.

(** The three groups of a match in full. *)
Lemma matches_trid_groups t g :
  matches trid_pattern t g ->
  exists percent ext nm,
    g = [percent; ext; nm] /\ decimal percent /\ is_extension ext
    /\ Str.all Re.dot nm = true.
Proof.
  intros Hm.
  destruct (matches_trid_pattern t g Hm) as (percent & ext & nm & -> & Hp).
  exists percent, ext, nm. split; [done|]. split; [done|].
  unfold trid_pattern, Re.lit in Hm.
  repeat match goal with
  | H : matches (Re.Seq _ _) _ _ |- _ => invert H
  | H : matches (Re.Group _) _ _ |- _ => invert H
  | H : matches (Re.Chr _) _ _ |- _ => invert H
  | H : matches (Re.Plus Re.space) _ _ |- _ => invert H
  | H : matches (Re.Plus Re.dot) _ _ |- _ => invert H
  | H : matches (Re.Plus Re.word) _ _ |- _ => invert H
  | H : matches (Re.Plus Re.digit) _ _ |- _ =>
      apply matches_plus_digit in H as [-> ?]
  | H : matches (Re.Opt _) _ _ |- _ => invert H
  end;
  repeat match goal with
  | H : Char.eqb _ _ = true |- _ => apply char_eqb_eq in H; subst
  end;
  cbn [app] in *;
  match goal with
  | H : _ = [percent; ext; nm] |- _ => injection H as <- <- <-
  end;
  (split;
   [ do 2 eexists; split; [reflexivity|];
     cbn [Str.all]; apply andb_true_intro; by split
   | cbn [Str.all]; apply andb_true_intro; by split ]).
Qed.

Lemma Forall_filter_bool {A} (P : A -> Prop) (p : A -> bool) l :
  Forall P l -> Forall (fun a => p a = true /\ P a) (List.filter p l).
Proof.
  induction 1 as [|a l Ha _ IH]; [constructor|]. cbn [List.filter].
  destruct (p a) eqn:Hp; [by constructor|done].
Qed.

Lemma extract_trid_well_formed trid_data sample_hash w w' entries :
  extract_json_output_from_trid trid_data sample_hash w = (w', Ok entries) ->
  Forall well_formed_entry entries.
Proof.
  destruct (extract_trid_spec trid_data sample_hash w)
    as (ms & w'' & Hms & ->).
  intros [= _ <-]. apply Forall_rev.
  assert (Hshape : Forall (fun g => exists percent ext nm,
             g = [percent; ext; nm] /\ decimal percent /\ is_extension ext
             /\ Str.all Re.dot nm = true) (Re.findall trid_pattern trid_data)).
  { eapply Forall_impl; [apply findall_sound|].
    intros g [t Ht]. by eapply matches_trid_groups. }
  eapply Forall_impl; [apply (Forall_filter_bool
    (fun e => is_extension (extension e) /\ Str.strip (name e) = name e
              /\ Str.all Re.dot (name e) = true))|].
  - clear -Hms Hshape.
    induction Hms as [|g e gs es (p & x & n & -> & _ & <- & Hn) _ IH];
      [constructor|].
    apply Forall_cons in Hshape as [(p' & x' & n' & [= <- <- <-] & _ & Hx & Hd) Hgs].
    constructor; [|by apply IH].
    rewrite Hn. split; [done|]. split; [apply strip_idempotent|by apply strip_all].
  - by intros e [? (? & ? & ?)].
Qed.

(** X9. Every entry [extract_json_output_from_trid] returns has a
    percentage strictly above 5.0, an extension made of a dot and word
    characters, and a name that is stripped of white space at both ends
    and holds no line feed. *)
Theorem trid_entries_well_formed trid_data sample_hash w w' entries :
  extract_json_output_from_trid trid_data sample_hash w = (w', Ok entries) ->
  Forall well_formed_entry entries.
Proof. apply extract_trid_well_formed. Qed.

End TridMore.

(** ** [process] *)

Section ProcessMore.

Variable list_of_set : gset string -> list string.

Local Ltac step H :=
  match type of H with
  | (lift ?r ≫= _) _ = _ =>
      destruct r eqn:?;
      [rewrite bind_lift_ok in H | rewrite bind_lift_raise in H; discriminate]
  | (?m ≫= _) ?w = _ =>
      destruct (m w) as [? [?|?]] eqn:?;
      [erewrite bind_ok in H by eassumption
      |erewrite bind_raise in H by eassumption; discriminate]
  end.

(** What a return of the three detectors tells. *)
Lemma detect_inv E sample_resource w w' die_json trid_json magika_json :
  detect E sample_resource w = (w', Ok (die_json, trid_json, magika_json)) ->
  exists f_name die_data w1 trid_data magika_data,
    download_temporary_file E sample_resource = Ok f_name
    /\ check_output E ["/usr/bin/diec"; "-j"; "-d"; "-u"; "-g"; "-a"; f_name]
       = Ok die_data
    /\ extract_json_output_from_die die_data (sha256_or_name sample_resource) w
       = (w1, Ok die_json)
    /\ check_output E ["/usr/local/bin/trid"; f_name] = Ok trid_data
    /\ extract_json_output_from_trid trid_data
         (sha256_or_name sample_resource) w1 = (w', Ok trid_json)
    /\ identify_path E f_name = Ok magika_data
    /\ magika_json = [magika_entry magika_data].
Proof.
  intros H. unfold detect in H. do 6 step H.
  injection H as <- <- <- <-. by eexists _, _, _, _, _.
Qed.

Lemma extract_die_has_values die_data sample_hash w w' out :
  extract_json_output_from_die die_data sample_hash w = (w', Ok out) ->
  Forall has_values out.
Proof.
  unfold extract_json_output_from_die.
  destruct die_data; [by intros [= _ <-]|].
  destruct (Re.search _ _); [|by intros [= _ <-]].
  intros H. do 2 step H.
  match type of H with
  | context [negb ?b] => destruct b
  end; cbn [negb] in H; [|by injection H as _ <-].
  do 2 step H. injection H as _ H.
  by apply die_loop_kept in H as (kept & -> & _ & Hall).
Qed.

(** X10. When [process] raises, it has sent nothing. *)
Theorem process_raise_sends_nothing E sample_resource w w' e :
  process list_of_set E sample_resource w = (w', Raise e) ->
  sent w' = sent w.
Proof.
  rewrite process_cases.
  destruct (detect E sample_resource w)
    as [w1 [[[die_json trid_json] magika_json]|e']] eqn:Hdet.
  - destruct (detect_ok _ _ _ _ _ _ _ Hdet) as [Hsent [magika_data ->]].
    rewrite forward_magika.
    destruct (get_tags_from_die _ _); [discriminate|].
    by intros [= <- _].
  - intros [= <- _]. by eapply quiet_detect.
Qed.

(** X11. An exception of the download, of either detector run or of
    Magika leaves [process] as it is, with no task sent; the exceptions of
    the download and of the DiE run leave the log untouched as well. *)
Theorem process_detector_failure E sample_resource w e :
  (download_temporary_file E sample_resource = Raise e ->
   process list_of_set E sample_resource w = (w, Raise e))
  /\ (forall f_name,
        download_temporary_file E sample_resource = Ok f_name ->
        check_output E ["/usr/bin/diec"; "-j"; "-d"; "-u"; "-g"; "-a"; f_name]
          = Raise e ->
        process list_of_set E sample_resource w = (w, Raise e))
  /\ (forall f_name die_data w1 die_json,
        download_temporary_file E sample_resource = Ok f_name ->
        check_output E ["/usr/bin/diec"; "-j"; "-d"; "-u"; "-g"; "-a"; f_name]
          = Ok die_data ->
        extract_json_output_from_die die_data
          (sha256_or_name sample_resource) w = (w1, Ok die_json) ->
        check_output E ["/usr/local/bin/trid"; f_name] = Raise e ->
        process list_of_set E sample_resource w = (w1, Raise e)
        /\ sent w1 = sent w)
  /\ (forall f_name die_data w1 die_json trid_data w2 trid_json,
        download_temporary_file E sample_resource = Ok f_name ->
        check_output E ["/usr/bin/diec"; "-j"; "-d"; "-u"; "-g"; "-a"; f_name]
          = Ok die_data ->
        extract_json_output_from_die die_data
          (sha256_or_name sample_resource) w = (w1, Ok die_json) ->
        check_output E ["/usr/local/bin/trid"; f_name] = Ok trid_data ->
        extract_json_output_from_trid trid_data
          (sha256_or_name sample_resource) w1 = (w2, Ok trid_json) ->
        identify_path E f_name = Raise e ->
        process list_of_set E sample_resource w = (w2, Raise e)
        /\ sent w2 = sent w).
Proof.
  split; [|split; [|split]].
  - intros Hf. unfold process. apply bind_raise. unfold detect.
    by rewrite Hf.
  - intros f_name Hf Hdie. unfold process. apply bind_raise. unfold detect.
    by rewrite Hf, bind_lift_ok, Hdie.
  - intros f_name die_data w1 die_json Hf Hdie Hdj Htrid.
    split; [|by eapply quiet_extract_die].
    unfold process. apply bind_raise. unfold detect.
    rewrite Hf, bind_lift_ok, Hdie, bind_lift_ok.
    erewrite bind_ok by exact Hdj. by rewrite Htrid.
  - intros f_name die_data w1 die_json trid_data w2 trid_json
           Hf Hdie Hdj Htrid Htj Hmagika.
    split.
    + unfold process. apply bind_raise. unfold detect.
      rewrite Hf, bind_lift_ok, Hdie, bind_lift_ok.
      erewrite bind_ok by exact Hdj. rewrite Htrid, bind_lift_ok.
      erewrite bind_ok by exact Htj. by rewrite Hmagika.
    + rewrite (quiet_extract_trid _ _ _ _ _ Htj).
      by eapply quiet_extract_die.
Qed.

Lemma detect_steps E sample_resource w f_name die_data w1 die_json
    trid_data w2 trid_json magika_data :
  download_temporary_file E sample_resource = Ok f_name ->
  check_output E ["/usr/bin/diec"; "-j"; "-d"; "-u"; "-g"; "-a"; f_name]
    = Ok die_data ->
  extract_json_output_from_die die_data (sha256_or_name sample_resource) w
    = (w1, Ok die_json) ->
  check_output E ["/usr/local/bin/trid"; f_name] = Ok trid_data ->
  extract_json_output_from_trid trid_data (sha256_or_name sample_resource) w1
    = (w2, Ok trid_json) ->
  identify_path E f_name = Ok magika_data ->
  detect E sample_resource w
  = (w2, Ok (die_json, trid_json, [magika_entry magika_data])).
Proof.
  intros Hf Hdie Hdj Htrid Htj Hmagika. unfold detect.
  rewrite Hf, bind_lift_ok, Hdie, bind_lift_ok.
  erewrite bind_ok by exact Hdj. rewrite Htrid, bind_lift_ok.
  erewrite bind_ok by exact Htj. by rewrite Hmagika, bind_lift_ok.
Qed.

(** X12. When every step of [process] succeeds, the run ends with exactly
    two more lines in the log, the two of level INFO in their order, and
    one more task sent: the task of the sample with the tags of the DiE
    findings and the three lists as attributes. *)
Theorem process_success E sample_resource w f_name die_data w1 die_json
    trid_data w2 trid_json magika_data tag_list :
  download_temporary_file E sample_resource = Ok f_name ->
  check_output E ["/usr/bin/diec"; "-j"; "-d"; "-u"; "-g"; "-a"; f_name]
    = Ok die_data ->
  extract_json_output_from_die die_data (sha256_or_name sample_resource) w
    = (w1, Ok die_json) ->
  check_output E ["/usr/local/bin/trid"; f_name] = Ok trid_data ->
  extract_json_output_from_trid trid_data (sha256_or_name sample_resource) w1
    = (w2, Ok trid_json) ->
  identify_path E f_name = Ok magika_data ->
  get_tags_from_die list_of_set die_json = Ok tag_list ->
  process list_of_set E sample_resource w =
  ({| logged := logged w2 ++ [performed sample_resource; pushed sample_resource];
      sent := sent w ++
              [analyzed sample_resource tag_list die_json trid_json magika_data] |},
   Ok tt).
Proof.
  intros Hf Hdie Hdj Htrid Htj Hmagika Htags.
  rewrite process_cases,
    (detect_steps _ _ _ _ _ _ _ _ _ _ _ Hf Hdie Hdj Htrid Htj Hmagika).
  rewrite forward_magika, Htags. unfold log_to. cbn [logged sent].
  rewrite (quiet_extract_trid _ _ _ _ _ Htj), (quiet_extract_die _ _ _ _ _ Hdj).
  by rewrite <- app_assoc.
Qed.

(** X13. Whatever the detectors print, when [process] returns it has
    sent one task for the sample whose tags are the tags of its [die]
    attribute, whose [die] findings are objects with a non-empty [values],
    whose [trid] entries are all above the cut-off and well formed, and
    whose stage is not the stage the service listens to; and the log has
    grown by at most two lines of level ERROR followed by the two lines of
    level INFO. *)
Theorem process_return E sample_resource w w' u :
  process list_of_set E sample_resource w = (w', Ok u) ->
  exists tag_list die_json trid_json magika_data errors,
    sent w' = sent w ++
              [analyzed sample_resource tag_list die_json trid_json magika_data]
    /\ get_tags_from_die list_of_set die_json = Ok tag_list
    /\ Forall has_values die_json
    /\ Forall well_formed_entry trid_json
    /\ Forall (fun flt =>
                 header "stage" flt
                 <> header "stage"
                      (headers (analyzed sample_resource tag_list die_json
                                  trid_json magika_data))) filters
    /\ logged w' = logged w ++ errors
                   ++ [performed sample_resource; pushed sample_resource]
    /\ Forall (fun line => fst line = ERROR) errors
    /\ List.length errors <= 2.
Proof.
  rewrite process_cases.
  destruct (detect E sample_resource w)
    as [w2 [[[die_json trid_json] magika_json]|e']] eqn:Hdet; [|discriminate].
  apply detect_inv in Hdet
    as (f_name & die_data & w1 & trid_data & magika_data
        & Hf & Hdie & Hdj & Htrid & Htj & Hmagika & ->).
  rewrite forward_magika.
  destruct (get_tags_from_die list_of_set die_json) as [tag_list|] eqn:Htags;
    [|discriminate].
  intros [= <- _]. unfold log_to. cbn [logged sent].
  assert (Hlog : exists errors,
    logged w2 = logged w ++ errors
    /\ Forall (fun line => fst line = ERROR) errors
    /\ List.length errors <= 2).
  { apply extract_die_effects in Hdj as Hw1.
    apply extract_trid_effects in Htj as Hw2.
    destruct Hw1 as [->|(msg1 & -> & _)], Hw2 as [->|(msg2 & -> & _)];
      unfold log_to; cbn [logged].
    - exists []. rewrite app_nil_r. repeat split; [constructor|cbn; lia].
    - exists [(ERROR, msg2)]. repeat split; [by repeat constructor|cbn; lia].
    - exists [(ERROR, msg1)]. repeat split; [by repeat constructor|cbn; lia].
    - exists [(ERROR, msg1); (ERROR, msg2)]. rewrite <- app_assoc.
      repeat split; [by repeat constructor|cbn; lia]. }
  destruct Hlog as (errors & Hlogged & Herrors & Hlen).
  exists tag_list, die_json, trid_json, magika_data, errors.
  rewrite (quiet_extract_trid _ _ _ _ _ Htj), (quiet_extract_die _ _ _ _ _ Hdj).
  split; [done|]. split; [done|].
  split; [by eapply extract_die_has_values|].
  split; [by eapply extract_trid_well_formed|].
  split; [by repeat constructor|].
  split; [|done]. by rewrite Hlogged, <- !app_assoc.
Qed.

End ProcessMore.

(** ** The further properties on sample runs *)

Lemma tags_normalised_witness :
  normalize "packer:upx" = "packer:upx"
  /\ Str.all settled "packer:upx" = true /\ "packer:upx" <> "unknown".
Proof.
  apply (tags_normalised elements (fun X => reflexivity (elements X))
           [finding_of "Packer" "UPX"] ["packer:upx"]).
  - vm_compute. reflexivity.
  - constructor.
Defined.

Lemma tags_order_irrelevant_witness :
  ["packer:upx"] ≡ₚ ["packer:upx"].
Proof.
  apply (tags_order_irrelevant elements (fun X => reflexivity (elements X))
           [finding_of "Packer" "UPX"]
           [finding_of "Packer" "UPX"; finding_of "Packer" "UPX"]).
  - intros detected. rewrite !elem_of_cons. tauto.
  - vm_compute. reflexivity.
  - vm_compute. reflexivity.
Defined.

Lemma filter_keeps_tags_witness :
  exists output tags1 tags2,
    die_loop [finding_of "Packer" "UPX"; finding_of "Unknown" "x"; JObj []] []
      = Ok output
    /\ get_tags_from_die elements output = Ok tags1
    /\ get_tags_from_die elements
         [finding_of "Packer" "UPX"; finding_of "Unknown" "x"; JObj []]
       = Ok tags2
    /\ tags1 ≡ₚ tags2.
Proof.
  apply (filter_keeps_tags elements (fun X => reflexivity (elements X)));
    reflexivity.
Defined.

Lemma die_loop_returns_findings_witness :
  sublist [JObj [("values", JStr "ab")]]
          [JObj [("values", JStr "ab")]; finding_of "Unknown" "x"]
  /\ Forall has_values [JObj [("values", JStr "ab")]].
Proof.
  apply die_loop_returns_findings. reflexivity.
Defined.

Lemma die_noise_ignored_witness :
  extract_json_output_from_die
    (dq "[!] scan {'detects':[{'values':[{'type':'Packer','name':'UPX'}]}]} done")
    "9f86" empty_world
  = extract_json_output_from_die
      (dq "{'detects':[{'values':[{'type':'Packer','name':'UPX'}]}]}")
      "9f86" empty_world.
Proof.
  apply (die_noise_ignored "[!] scan "
           (dq "'detects':[{'values':[{'type':'Packer','name':'UPX'}]}]")
           " done"); reflexivity.
Defined.

Lemma extractions_effects_witness :
  (sent (log_to empty_world ERROR
           "Could not find JSON object in DiE output for 9f86")
   = sent empty_world
   /\ (logged (log_to empty_world ERROR
                 "Could not find JSON object in DiE output for 9f86")
       = logged empty_world
       \/ exists msg,
            logged (log_to empty_world ERROR
                      "Could not find JSON object in DiE output for 9f86")
            = logged empty_world ++ [(ERROR, msg)]
            /\ Ok (@nil json) = Ok []))
  /\ (sent (log_to empty_world ERROR
              "Could not find JSON object in TrID output for 9f86")
      = sent empty_world
      /\ (logged (log_to empty_world ERROR
                    "Could not find JSON object in TrID output for 9f86")
          = logged empty_world
          \/ exists msg,
               logged (log_to empty_world ERROR
                         "Could not find JSON object in TrID output for 9f86")
               = logged empty_world ++ [(ERROR, msg)]
               /\ Ok (@nil TridEntry) = Ok [])).
Proof.
  split.
  - apply (proj1 (extractions_effects "no json" "9f86" empty_world _)).
    reflexivity.
  - apply (proj2 (extractions_effects "no match" "9f86" empty_world _)).
    reflexivity.
Defined.

Lemma trid_entries_well_formed_witness :
  Forall well_formed_entry
    [ {| percentage := Float.Fin (25 # 2); extension := ".DLL";
         name := "Win32 Dynamic Link Library" |};
      {| percentage := Float.Fin 80; extension := ".EXE";
         name := "UPX compressed Win32 Executable" |} ].
Proof.
  apply (trid_entries_well_formed trid_packed "9f86" empty_world empty_world).
  reflexivity.
Defined.

Lemma process_raise_sends_nothing_witness :
  sent {| logged := [performed example_sample]; sent := [] |}
  = sent empty_world.
Proof.
  apply (process_raise_sends_nothing elements
           (example_env die_bad_type trid_packed (example_magika "pebin"))
           example_sample empty_world _ AttributeError).
  vm_compute. reflexivity.
Defined.

Lemma process_detector_failure_witness :
  process elements
    (outside (Raise (OtherError "storage")) (Ok die_packed) (Ok trid_packed)
       (Ok (example_magika "pebin")))
    example_sample empty_world
  = (empty_world, Raise (OtherError "storage"))
  /\ process elements
       (outside (Ok "/tmp/sample") (Raise CalledProcessError) (Ok trid_packed)
          (Ok (example_magika "pebin")))
       example_sample empty_world
     = (empty_world, Raise CalledProcessError)
  /\ process elements
       (outside (Ok "/tmp/sample") (Ok die_packed) (Raise CalledProcessError)
          (Ok (example_magika "pebin")))
       example_sample empty_world
     = (empty_world, Raise CalledProcessError)
  /\ process elements
       (outside (Ok "/tmp/sample") (Ok die_packed) (Ok trid_packed)
          (Raise (OtherError "magika")))
       example_sample empty_world
     = (empty_world, Raise (OtherError "magika")).
Proof.
  split; [|split; [|split]].
  - apply (proj1 (process_detector_failure elements _ _ _ _)). reflexivity.
  - apply (proj1 (proj2 (process_detector_failure elements _ _ _ _))
             "/tmp/sample"); reflexivity.
  - destruct (process_detector_failure elements
                (outside (Ok "/tmp/sample") (Ok die_packed)
                   (Raise CalledProcessError) (Ok (example_magika "pebin")))
                example_sample empty_world CalledProcessError)
      as (_ & _ & Htrid & _).
    destruct (Htrid "/tmp/sample" die_packed empty_world die_packed_json)
      as [Hprocess _]; [reflexivity..|exact Hprocess].
  - destruct (process_detector_failure elements
                (outside (Ok "/tmp/sample") (Ok die_packed) (Ok trid_packed)
                   (Raise (OtherError "magika")))
                example_sample empty_world (OtherError "magika"))
      as (_ & _ & _ & Hmagika).
    destruct (Hmagika "/tmp/sample" die_packed empty_world die_packed_json
                trid_packed empty_world trid_packed_entries)
      as [Hprocess _]; [reflexivity..|exact Hprocess].
Defined.

Lemma process_success_witness :
  process elements (example_env die_packed trid_packed (example_magika "pebin"))
    example_sample empty_world
  = ({| logged := [performed example_sample; pushed example_sample];
        sent := [analyzed example_sample
                   ["packer:upx"; "compiler:visual-c:c++"]
                   die_packed_json trid_packed_entries
                   (example_magika "pebin")] |},
     Ok tt).
Proof.
  apply (process_success elements
           (example_env die_packed trid_packed (example_magika "pebin"))
           example_sample empty_world "/tmp/sample" die_packed empty_world
           die_packed_json trid_packed empty_world trid_packed_entries
           (example_magika "pebin") ["packer:upx"; "compiler:visual-c:c++"]);
    vm_compute; reflexivity.
Defined.

Lemma process_return_witness :
  exists tag_list die_json trid_json magika_data errors,
    sent {| logged := [performed example_sample; pushed example_sample];
            sent := [analyzed example_sample
                       ["packer:upx"; "compiler:visual-c:c++"]
                       die_packed_json trid_packed_entries
                       (example_magika "pebin")] |}
    = sent empty_world ++
      [analyzed example_sample tag_list die_json trid_json magika_data]
    /\ get_tags_from_die elements die_json = Ok tag_list
    /\ Forall has_values die_json
    /\ Forall well_formed_entry trid_json
    /\ Forall (fun flt =>
                 header "stage" flt
                 <> header "stage"
                      (headers (analyzed example_sample tag_list die_json
                                  trid_json magika_data))) filters
    /\ logged {| logged := [performed example_sample; pushed example_sample];
                 sent := [analyzed example_sample
                            ["packer:upx"; "compiler:visual-c:c++"]
                            die_packed_json trid_packed_entries
                            (example_magika "pebin")] |}
       = logged empty_world ++ errors
         ++ [performed example_sample; pushed example_sample]
    /\ Forall (fun line => fst line = ERROR) errors
    /\ List.length errors <= 2.
Proof.
  apply (process_return elements
           (example_env die_packed trid_packed (example_magika "pebin"))
           example_sample empty_world _ tt).
  vm_compute. reflexivity.
Defined.

Lemma die_loop_malformed_witness :
  die_loop [finding_of "Packer" "UPX"; JNum "1"; finding_of "Malware" "X"] []
  = Raise AttributeError
  /\ die_loop [finding_of "Packer" "UPX";
               JObj [("values", JArr [JObj [("name", JStr "x")]])];
               finding_of "Malware" "X"] []
     = Raise KeyError.
Proof.
  destruct (die_loop_malformed [finding_of "Packer" "UPX"]
              [finding_of "Malware" "X"] eq_refl) as [Hobject Htype].
  split.
  - apply (Hobject (JNum "1")). reflexivity.
  - apply (Htype [("values", JArr [JObj [("name", JStr "x")]])]
             [("name", JStr "x")]); reflexivity.
Defined.

Lemma tags_field_not_a_string_witness :
  get_tags_from_die elements
    [finding_of "Packer" "UPX";
     JObj [("values", JArr [JObj [("type", JStr "Packer"); ("name", JStr "UPX")];
                            JObj [("type", JNum "1"); ("name", JStr "a")];
                            JNull])];
     JNull]
  = Raise AttributeError.
Proof.
  apply (tags_field_not_a_string elements
           [finding_of "Packer" "UPX"]
           [("values", JArr [JObj [("type", JStr "Packer"); ("name", JStr "UPX")];
                             JObj [("type", JNum "1"); ("name", JStr "a")];
                             JNull])]
           [JObj [("type", JStr "Packer"); ("name", JStr "UPX")]]
           [("type", JNum "1"); ("name", JStr "a")]
           (JNum "1") (JStr "a") [JNull] [JNull]); reflexivity.
Defined.
